(** * stdVBA-docs: the document loader and the navigator of [src/App.tsx]

    A shallow embedding of the documentation viewer's logic: the
    normalisation of the fetched JSON payload ([fetchDocumentation]), the
    deep-link effect reading the [q] query parameter, and the element
    structure produced by [renderContent], [OnThisPagePanel] and the
    sidebar lists.

    Conventions.
    - A JavaScript string is a [string]: a sequence of code units below 256.
    - A value of the payload is a [json]; a JavaScript value that may also be
      [undefined] is a [jsval] (an [option json], [None] being [undefined]).
      TypeScript's interfaces are erased at run time, so the fields of the
      normalised records hold such values, whatever the interface declares.
    - Code that can throw returns a [result]. *)

From Stdlib Require Import Bool List String Ascii ZArith Lia.
From Stdlib Require Import Permutation Sorted OrdersEx RelationClasses.
From Stdlib Require Import Floats.PrimFloat.
Import ListNotations.

Local Open Scope string_scope.
Local Open Scope list_scope.

Set Implicit Arguments.
Set Warnings "-register-all".

(** ** Exceptions *)

Inductive exn : Type :=
| TypeError                      (* property access on null, call of a non-function *)
| NetworkFailure                 (* fetch() rejects *)
| HttpError (status : Z)         (* thrown on [!response.ok] *)
| SyntaxError.                   (* response.json() rejects *)

Inductive result (A : Type) : Type :=
| Ok (a : A)
| Throw (e : exn).

Arguments Ok {A} a.
Arguments Throw {A} e.

Definition bind {A B : Type} (r : result A) (k : A -> result B) : result B :=
  match r with
  | Ok a => k a
  | Throw e => Throw e
  end.

Notation "x <- r ;; k" := (bind r (fun x => k))
  (at level 61, r at next level, right associativity).

(** [arr.forEach(x => out.push(f x))]: stops at the first exception. *)
Fixpoint mapM {A B : Type} (f : A -> result B) (l : list A) : result (list B) :=
  match l with
  | [] => Ok []
  | x :: l' => y <- f x ;; ys <- mapM f l' ;; Ok (y :: ys)
  end.

(** ** Strings *)

(** [s.split('.')]: the first segment and the segments after it. *)
Fixpoint split_dot (s : string) : string * list string :=
  match s with
  | EmptyString => (EmptyString, [])
  | String c s' =>
      let (h, t) := split_dot s' in
      if Ascii.eqb c "."%char then (EmptyString, h :: t) else (String c h, t)
  end.

(** The characters matched by [\s] among the code units below 256. *)
Definition is_space (c : ascii) : bool :=
  let n := nat_of_ascii c in
  ((9 <=? n)%nat && (n <=? 13)%nat) || (n =? 32)%nat || (n =? 160)%nat.

(** [s.replace(/\s+/g, '-')]; [in_run] tells that the previous character was
    white space, whose run has already been replaced. *)
Fixpoint replace_ws (in_run : bool) (s : string) : string :=
  match s with
  | EmptyString => EmptyString
  | String c s' =>
      if is_space c
      then (if in_run then replace_ws true s' else String "-"%char (replace_ws true s'))
      else String c (replace_ws false s')
  end.

(** [name.replace(/\s+/g, '-') + '-detail'] *)
Definition detail_id (name : string) : string := replace_ws false name ++ "-detail".

(** ** JSON values *)

(** What [response.json()] yields. An object is the table of its own
    properties, a key looked up from the front (of the duplicate keys of a
    text [JSON.parse] keeps one binding). *)
Inductive json : Type :=
| JNull
| JBool (b : bool)
| JNum (f : float)
| JStr (s : string)
| JArr (l : list json)
| JObj (fields : list (string * json)).

(** A JavaScript value read from the payload: [None] is [undefined]. *)
Definition jsval : Type := option json.
Notation "'undefined'" := (@None json).

Fixpoint lookup (k : string) (fields : list (string * json)) : jsval :=
  match fields with
  | [] => undefined
  | (k', v) :: rest => if String.eqb k k' then Some v else lookup k rest
  end.

(** [v.k] for the field names the program reads (none of them is a
    property of a prototype): a type error on [null], the own property of an
    object, [undefined] on anything else. *)
Definition get (v : json) (k : string) : result jsval :=
  match v with
  | JNull => Throw TypeError
  | JObj fields => Ok (lookup k fields)
  | _ => Ok undefined
  end.

(** The same read where it cannot throw. *)
Definition prop (v : json) (k : string) : jsval :=
  match v with
  | JObj fields => lookup k fields
  | _ => undefined
  end.

(** The element carries the field [k] in the payload. *)
Definition carries (v : json) (k : string) : bool :=
  match prop v k with
  | Some _ => true
  | None => false
  end.

Definition truthy (v : json) : bool :=
  match v with
  | JNull => false
  | JBool b => b
  | JNum f => negb (PrimFloat.is_zero f || PrimFloat.is_nan f)
  | JStr s => negb (String.eqb s "")
  | JArr _ => true
  | JObj _ => true
  end.

Definition truthy_val (v : jsval) : bool :=
  match v with
  | Some j => truthy j
  | None => false
  end.

(** [x || d] *)
Definition or_default (x : jsval) (d : json) : jsval :=
  if truthy_val x then x else Some d.

Definition defined (v : jsval) : bool :=
  match v with
  | Some _ => true
  | None => false
  end.

(** [v === s] for a string [s]. *)
Definition is_string (v : jsval) (s : string) : bool :=
  match v with
  | Some (JStr t) => String.eqb t s
  | _ => false
  end.

(** The literals the normaliser falls back on. *)
Definition empty_list : json := JArr [].
Definition empty_string : json := JStr "".
Definition default_returns : json :=
  JObj [("type", JStr "Variant"); ("description", JStr "")].
Definition default_deprecation : json :=
  JObj [("status", JBool false); ("message", JStr "")].

(** ** Data model *)

(** [IMember], as the object literals of the normaliser build it for
    constructors, methods and functions. *)
Module IMember.
Record t : Type := Build {
  name : jsval;
  description : jsval;
  remarks : jsval;
  examples : jsval;
  params : jsval;
  returns : jsval;
  devNotes : jsval;
  todos : jsval;
  throws : jsval;
  requires : jsval;
  isStatic : jsval;
  isProtected : jsval;
  isDefaultMember : jsval;
  deprecation : jsval
}.
End IMember.

(** [IProperty extends IMember] *)
Module IProperty.
Record t : Type := Build {
  member : IMember.t;
  access : jsval
}.
End IProperty.

Module IEvent.
Record t : Type := Build {
  name : jsval;
  description : jsval;
  remarks : jsval;
  examples : jsval;
  params : jsval;
  devNotes : jsval;
  todos : jsval;
  requires : jsval;
  isProtected : jsval
}.
End IEvent.

Module IClass.
Record t : Type := Build {
  name : jsval;
  fileName : jsval;
  description : jsval;
  remarks : jsval;
  examples : jsval;
  devNotes : jsval;
  todos : jsval;
  requires : jsval;
  implements : jsval;
  constructors : list IMember.t;
  methods : list IMember.t;
  properties : list IProperty.t;
  events : list IEvent.t
}.
End IClass.

Module IModule.
Record t : Type := Build {
  name : jsval;
  fileName : jsval;
  description : jsval;
  remarks : jsval;
  examples : jsval;
  devNotes : jsval;
  todos : jsval;
  requires : jsval;
  functions : list IMember.t
}.
End IModule.

Record IData : Type := {
  classes : list IClass.t;
  modules : list IModule.t
}.

Definition empty_data : IData := {| classes := []; modules := [] |}.

(** ** The loader: [fetchDocumentation] *)

(** The object literal pushed for a constructor, a method and a function of
    a module (three copies of the same literal in the source). The first
    read, [m.name], throws on [null]; the later ones read the same value. *)
Definition mkMember (m : json) : result IMember.t :=
  name <- get m "name" ;;
  Ok {| IMember.name := name;
        IMember.description := or_default (prop m "description") empty_string;
        IMember.remarks := or_default (prop m "remarks") empty_list;
        IMember.examples := or_default (prop m "examples") empty_list;
        IMember.params := or_default (prop m "params") empty_list;
        IMember.returns := or_default (prop m "returns") default_returns;
        IMember.devNotes := or_default (prop m "devNotes") empty_list;
        IMember.todos := or_default (prop m "todos") empty_list;
        IMember.throws := or_default (prop m "throws") empty_list;
        IMember.requires := or_default (prop m "requires") empty_list;
        IMember.isStatic := or_default (prop m "isStatic") (JBool false);
        IMember.isProtected := or_default (prop m "isProtected") (JBool false);
        IMember.isDefaultMember := or_default (prop m "isDefaultMember") (JBool false);
        IMember.deprecation := or_default (prop m "deprecation") default_deprecation |}.

Definition mkProperty (p : json) : result IProperty.t :=
  m <- mkMember p ;;
  Ok {| IProperty.member := m;
        IProperty.access := or_default (prop p "access") (JStr "ReadWrite") |}.

Definition mkEvent (e : json) : result IEvent.t :=
  name <- get e "name" ;;
  Ok {| IEvent.name := name;
        IEvent.description := or_default (prop e "description") empty_string;
        IEvent.remarks := or_default (prop e "remarks") empty_list;
        IEvent.examples := or_default (prop e "examples") empty_list;
        IEvent.params := or_default (prop e "params") empty_list;
        IEvent.devNotes := or_default (prop e "devNotes") empty_list;
        IEvent.todos := or_default (prop e "todos") empty_list;
        IEvent.requires := or_default (prop e "requires") empty_list;
        IEvent.isProtected := or_default (prop e "isProtected") (JBool false) |}.

(** [if (Array.isArray(v)) v.forEach(x => out.push(mk x))], from an empty
    [out]. *)
Definition members_of {A : Type} (mk : json -> result A) (v : jsval) : result (list A) :=
  match v with
  | Some (JArr l) => mapM mk l
  | _ => Ok []
  end.

(** [item.constructors !== undefined || item.events !== undefined] *)
Definition isClass (item : json) : result bool :=
  c <- get item "constructors" ;;
  e <- get item "events" ;;
  Ok (defined c || defined e).

Definition mkClass (item : json) : result IClass.t :=
  ctors <- members_of mkMember (prop item "constructors") ;;
  props <- members_of mkProperty (prop item "properties") ;;
  meths <- members_of mkMember (prop item "methods") ;;
  evts <- members_of mkEvent (prop item "events") ;;
  Ok {| IClass.name := prop item "name";
        IClass.fileName := or_default (prop item "fileName") empty_string;
        IClass.description := or_default (prop item "description") empty_string;
        IClass.remarks := or_default (prop item "remarks") empty_list;
        IClass.examples := or_default (prop item "examples") empty_list;
        IClass.devNotes := or_default (prop item "devNotes") empty_list;
        IClass.todos := or_default (prop item "todos") empty_list;
        IClass.requires := or_default (prop item "requires") empty_list;
        IClass.implements := or_default (prop item "implements") empty_list;
        IClass.constructors := ctors;
        IClass.methods := meths;
        IClass.properties := props;
        IClass.events := evts |}.

(** The functions of a module are read from [item.methods]. *)
Definition mkModule (item : json) : result IModule.t :=
  funcs <- members_of mkMember (prop item "methods") ;;
  Ok {| IModule.name := prop item "name";
        IModule.fileName := or_default (prop item "fileName") empty_string;
        IModule.description := or_default (prop item "description") empty_string;
        IModule.remarks := or_default (prop item "remarks") empty_list;
        IModule.examples := or_default (prop item "examples") empty_list;
        IModule.devNotes := or_default (prop item "devNotes") empty_list;
        IModule.todos := or_default (prop item "todos") empty_list;
        IModule.requires := or_default (prop item "requires") empty_list;
        IModule.functions := funcs |}.

(** The callback of [jsonData.forEach]: one element, pushed on [classes] or
    on [modules]. *)
Definition normalizeItem (item : json) (acc : IData) : result IData :=
  b <- isClass item ;;
  if b
  then c <- mkClass item ;;
       Ok {| classes := classes acc ++ [c]; modules := modules acc |}
  else m <- mkModule item ;;
       Ok {| classes := classes acc; modules := modules acc ++ [m] |}.

Fixpoint forEach {A S : Type} (f : A -> S -> result S) (l : list A) (s : S) : result S :=
  match l with
  | [] => Ok s
  | x :: l' => s' <- f x s ;; forEach f l' s'
  end.

(** The body of the [try] after [response.json()]: the two lists handed to
    [setData]. A payload that is not an array leaves both empty. *)
Definition normalize (jsonData : json) : result IData :=
  match jsonData with
  | JArr items => forEach normalizeItem items empty_data
  | _ => Ok empty_data
  end.

(** What the single [fetch] of the page can come back with. *)
Inductive FetchOutcome : Type :=
| Rejected                                             (* network failure *)
| Response (ok : bool) (status : Z) (body : option json).
                                                       (* [body = None]: not JSON *)

Definition docs_url : string := "https://raw.githack.com/sancarn/stdVBA/master/docs.json".

Definition load (o : FetchOutcome) : result IData :=
  match o with
  | Rejected => Throw NetworkFailure
  | Response ok status body =>
      if negb ok then Throw (HttpError status)
      else match body with
           | None => Throw SyntaxError
           | Some jsonData => normalize jsonData
           end
  end.

(** ** The state of [App] *)

(** ['class' | 'module'] *)
Inductive ItemType : Type := ItemClass | ItemModule.

(** [{ type, name }]; the deep link stores the name it compared with [===]
    against a string, which is that string. *)
Record Selection : Type := {
  sel_type : ItemType;
  sel_name : string
}.

Record AppState : Type := {
  selectedItem : option Selection;
  data : IData;
  loading : bool;
  error : option string;
  devMode : bool;
  highlightedMember : option string
}.

(** The [useState] initial values. *)
Definition initial : AppState :=
  {| selectedItem := None; data := empty_data; loading := true;
     error := None; devMode := false; highlightedMember := None |}.

Definition setSelectedItem (v : option Selection) (st : AppState) : AppState :=
  {| selectedItem := v; data := data st; loading := loading st;
     error := error st; devMode := devMode st;
     highlightedMember := highlightedMember st |}.

Definition setData (v : IData) (st : AppState) : AppState :=
  {| selectedItem := selectedItem st; data := v; loading := loading st;
     error := error st; devMode := devMode st;
     highlightedMember := highlightedMember st |}.

Definition setLoading (v : bool) (st : AppState) : AppState :=
  {| selectedItem := selectedItem st; data := data st; loading := v;
     error := error st; devMode := devMode st;
     highlightedMember := highlightedMember st |}.

Definition setError (v : option string) (st : AppState) : AppState :=
  {| selectedItem := selectedItem st; data := data st; loading := loading st;
     error := v; devMode := devMode st;
     highlightedMember := highlightedMember st |}.

Definition setHighlightedMember (v : option string) (st : AppState) : AppState :=
  {| selectedItem := selectedItem st; data := data st; loading := loading st;
     error := error st; devMode := devMode st;
     highlightedMember := v |}.

(** [setDevMode(prev => !prev)] *)
Definition handleToggleMode (st : AppState) : AppState :=
  {| selectedItem := selectedItem st; data := data st; loading := loading st;
     error := error st; devMode := negb (devMode st);
     highlightedMember := highlightedMember st |}.

(** The page: the component's state, the requests [fetch] has sent and the
    timers [setTimeout] has armed (delay, id of the element to scroll to). *)
Record Page : Type := {
  app : AppState;
  requests : list string;
  timers : list (Z * string)
}.

Definition on_app (f : AppState -> AppState) (p : Page) : Page :=
  {| app := f (app p); requests := requests p; timers := timers p |}.

Definition setTimeout (delay : Z) (target : string) (p : Page) : Page :=
  {| app := app p; requests := requests p; timers := timers p ++ [(delay, target)] |}.

Definition fetch (url : string) (p : Page) : Page :=
  {| app := app p; requests := requests p ++ [url]; timers := timers p |}.

(** ** The navigator: the deep link *)

(** [data.classes.find(c => c.name === itemName)] *)
Definition find_class (d : IData) (itemName : string) : option IClass.t :=
  find (fun c => is_string (IClass.name c) itemName) (classes d).

Definition find_module (d : IData) (itemName : string) : option IModule.t :=
  find (fun m => is_string (IModule.name m) itemName) (modules d).

(** [if (memberName) { setHighlightedMember(memberName); setTimeout(..., 300) }] *)
Definition highlight_member (memberName : option string) (p : Page) : Page :=
  match memberName with
  | Some m =>
      if String.eqb m "" then p
      else setTimeout 300 (detail_id m) (on_app (setHighlightedMember (Some m)) p)
  | None => p
  end.

(** The effect on [[data.classes, data.modules]]; [q] is
    [params.get('q')]. *)
Definition urlEffect (q : option string) (p : Page) : Page :=
  let d := data (app p) in
  match q with
  | Some qs =>
      if negb (String.eqb qs "") && (0 <? List.length (classes d) + List.length (modules d))%nat
      then
        let (itemName, rest) := split_dot qs in
        let memberName := hd_error rest in
        match find_class d itemName with
        | Some _ =>
            highlight_member memberName
              (on_app (setSelectedItem
                         (Some {| sel_type := ItemClass; sel_name := itemName |})) p)
        | None =>
            match find_module d itemName with
            | Some _ =>
                highlight_member memberName
                  (on_app (setSelectedItem
                             (Some {| sel_type := ItemModule; sel_name := itemName |})) p)
            | None => p
            end
        end
      else on_app (setHighlightedMember None) p
  | None => on_app (setHighlightedMember None) p
  end.

Definition error_message : string :=
  "Failed to load documentation. Please try again later. Check console for details.".

(** [fetchDocumentation] once the request has settled: [try], [catch],
    [finally]. *)
Definition fetchDocumentation (o : FetchOutcome) (p : Page) : Page :=
  match load o with
  | Ok d => on_app (setLoading false) (on_app (setData d) p)
  | Throw _ => on_app (setLoading false) (on_app (setError (Some error_message)) p)
  end.

(** Mounting runs the effects in the order of their declaration: the deep
    link on the empty document, then the request. *)
Definition mount (q : option string) : Page :=
  fetch docs_url
    (urlEffect q {| app := initial; requests := []; timers := [] |}).

(** The page once the request has settled. [setData] installs fresh arrays,
    so the deep-link effect runs again; after a failure its dependencies are
    the ones it has seen and it does not. *)
Definition session (q : option string) (o : FetchOutcome) : Page :=
  let p := fetchDocumentation o (mount q) in
  match load o with
  | Ok _ => urlEffect q p
  | Throw _ => p
  end.

(** ** The detail view: [renderContent] *)

(** [devMode ? l : l.filter(m => !m.isProtected)] *)
Definition visible {A : Type} (isProtected : A -> jsval) (devMode : bool) (l : list A) : list A :=
  if devMode then l else filter (fun m => negb (truthy_val (isProtected m))) l.

(** [name.replace(/\s+/g, '-') + '-detail']: only a string has [replace]. *)
Definition elementId (name : jsval) : result string :=
  match name with
  | Some (JStr s) => Ok (detail_id s)
  | _ => Throw TypeError
  end.

(** [highlightedMember === name], [highlightedMember] being a string or
    [null]. *)
Definition strict_eq (highlighted : option string) (name : jsval) : bool :=
  match highlighted, name with
  | Some s, Some (JStr t) => String.eqb s t
  | None, Some JNull => true
  | _, _ => false
  end.

(** The member components with the props [renderContent] hands them. *)
Inductive Detail : Type :=
| MethodConstructorDetail (method : IMember.t) (id : string) (highlight : bool) (parentName : jsval)
| PropertyDetail (property : IProperty.t) (id : string) (highlight : bool) (parentName : jsval)
| EventDetail (event : IEvent.t) (id : string) (highlight : bool) (parentName : jsval)
| FunctionDetail (func : IMember.t) (id : string) (highlight : bool) (parentName : jsval).

Definition detail_name (d : Detail) : jsval :=
  match d with
  | MethodConstructorDetail m _ _ _ => IMember.name m
  | PropertyDetail p _ _ _ => IMember.name (IProperty.member p)
  | EventDetail e _ _ _ => IEvent.name e
  | FunctionDetail f _ _ _ => IMember.name f
  end.

Definition detail_isProtected (d : Detail) : jsval :=
  match d with
  | MethodConstructorDetail m _ _ _ => IMember.isProtected m
  | PropertyDetail p _ _ _ => IMember.isProtected (IProperty.member p)
  | EventDetail e _ _ _ => IEvent.isProtected e
  | FunctionDetail f _ _ _ => IMember.isProtected f
  end.

Definition detail_elementId (d : Detail) : string :=
  match d with
  | MethodConstructorDetail _ i _ _ | PropertyDetail _ i _ _
  | EventDetail _ i _ _ | FunctionDetail _ i _ _ => i
  end.

Definition detail_highlight (d : Detail) : bool :=
  match d with
  | MethodConstructorDetail _ _ h _ | PropertyDetail _ _ h _
  | EventDetail _ _ h _ | FunctionDetail _ _ h _ => h
  end.

Definition is_public (d : Detail) : bool := negb (truthy_val (detail_isProtected d)).

Definition mkMethodConstructorDetail (h : option string) (parentName : jsval)
    (m : IMember.t) : result Detail :=
  id <- elementId (IMember.name m) ;;
  Ok (MethodConstructorDetail m id (strict_eq h (IMember.name m)) parentName).

Definition mkPropertyDetail (h : option string) (parentName : jsval)
    (p : IProperty.t) : result Detail :=
  id <- elementId (IMember.name (IProperty.member p)) ;;
  Ok (PropertyDetail p id (strict_eq h (IMember.name (IProperty.member p))) parentName).

Definition mkEventDetail (h : option string) (parentName : jsval)
    (e : IEvent.t) : result Detail :=
  id <- elementId (IEvent.name e) ;;
  Ok (EventDetail e id (strict_eq h (IEvent.name e)) parentName).

Definition mkFunctionDetail (h : option string) (parentName : jsval)
    (f : IMember.t) : result Detail :=
  id <- elementId (IMember.name f) ;;
  Ok (FunctionDetail f id (strict_eq h (IMember.name f)) parentName).

(** A heading with its id and the member components below it. *)
Record SectionView : Type := {
  section_id : string;
  section_title : string;
  details : list Detail
}.

(** [l.length > 0 && (<><h3 id=...>title</h3>{l.map(...)}</>)] *)
Definition renderSection {A : Type} (id title : string) (mk : A -> result Detail)
    (l : list A) : result (list SectionView) :=
  match l with
  | [] => Ok []
  | _ :: _ =>
      ds <- mapM mk l ;;
      Ok [ {| section_id := id; section_title := title; details := ds |} ]
  end.

(** The detail pane of a class or of a module: the mode button, then the
    values its blocks are rendered from ([String(name)],
    [description || ''], the [items] of each [StringList], the examples),
    then the sections. [implements] is absent for a module; [devNotes] and
    [todos] are present in dev mode only. *)
Record ItemView : Type := {
  mode_button : string;
  title : jsval;
  description : jsval;
  remarks : jsval;
  examples : jsval;
  implements : option jsval;
  devNotes : option jsval;
  todos : option jsval;
  requires : jsval;
  sections : list SectionView
}.

Definition mode_label (devMode : bool) : string :=
  if devMode then "Dev mode" else "User mode".

Definition dev_only (devMode : bool) (v : jsval) : option jsval :=
  if devMode then Some v else None.

Definition renderClass (devMode : bool) (h : option string) (c : IClass.t) : result ItemView :=
  let visibleConstructors := visible IMember.isProtected devMode (IClass.constructors c) in
  let visibleMethods := visible IMember.isProtected devMode (IClass.methods c) in
  let visibleProperties :=
    visible (fun p => IMember.isProtected (IProperty.member p)) devMode (IClass.properties c) in
  let visibleEvents := visible IEvent.isProtected devMode (IClass.events c) in
  s1 <- renderSection "constructors-section" "Constructors"
          (mkMethodConstructorDetail h (IClass.name c)) visibleConstructors ;;
  s2 <- renderSection "properties-section" "Properties"
          (mkPropertyDetail h (IClass.name c)) visibleProperties ;;
  s3 <- renderSection "methods-section" "Methods"
          (mkMethodConstructorDetail h (IClass.name c)) visibleMethods ;;
  s4 <- renderSection "events-section" "Events"
          (mkEventDetail h (IClass.name c)) visibleEvents ;;
  Ok {| mode_button := mode_label devMode;
        title := IClass.name c;
        description := or_default (IClass.description c) empty_string;
        remarks := IClass.remarks c;
        examples := IClass.examples c;
        implements := Some (IClass.implements c);
        devNotes := dev_only devMode (IClass.devNotes c);
        todos := dev_only devMode (IClass.todos c);
        requires := IClass.requires c;
        sections := s1 ++ s2 ++ s3 ++ s4 |}.

Definition renderModule (devMode : bool) (h : option string) (m : IModule.t) : result ItemView :=
  s <- renderSection "functions-section" "Functions"
         (mkFunctionDetail h (IModule.name m)) (IModule.functions m) ;;
  Ok {| mode_button := mode_label devMode;
        title := IModule.name m;
        description := or_default (IModule.description m) empty_string;
        remarks := IModule.remarks m;
        examples := IModule.examples m;
        implements := None;
        devNotes := dev_only devMode (IModule.devNotes m);
        todos := dev_only devMode (IModule.todos m);
        requires := IModule.requires m;
        sections := s |}.

Inductive Content : Type :=
| LoadingView
| ErrorView (message : string)
| WelcomeView (mode : string)
| ClassNotFound
| ModuleNotFound
| ClassView (v : ItemView)
| ModuleView (v : ItemView).

Definition renderContent (st : AppState) : result Content :=
  if loading st then Ok LoadingView
  else
    match error st with
    | Some (String c e) => Ok (ErrorView (String c e))
    | _ =>
        match selectedItem st with
        | None => Ok (WelcomeView (mode_label (devMode st)))
        | Some {| sel_type := ItemClass; sel_name := n |} =>
            match find_class (data st) n with
            | None => Ok ClassNotFound
            | Some selectedClass =>
                v <- renderClass (devMode st) (highlightedMember st) selectedClass ;;
                Ok (ClassView v)
            end
        | Some {| sel_type := ItemModule; sel_name := n |} =>
            match find_module (data st) n with
            | None => Ok ModuleNotFound
            | Some selectedModule =>
                v <- renderModule (devMode st) (highlightedMember st) selectedModule ;;
                Ok (ModuleView v)
            end
        end
    end.

(** The member components of a view, in document order. *)
Definition rendered_details (v : ItemView) : list Detail :=
  flat_map details (sections v).

(** [document.getElementById(id)] over the elements of the detail pane that
    carry an id: each heading, then the member components below it. *)
Inductive Element : Type :=
| Heading (s : SectionView)
| Member (d : Detail).

Definition element_id (e : Element) : string :=
  match e with
  | Heading s => section_id s
  | Member d => detail_elementId d
  end.

Definition elements (v : ItemView) : list Element :=
  flat_map (fun s => Heading s :: map Member (details s)) (sections v).

Definition getElementById (v : ItemView) (id : string) : option Element :=
  find (fun e => String.eqb (element_id e) id) (elements v).

(** ** The outline: [OnThisPagePanel] *)

Inductive MemberType : Type := Constructor | Property | Method | Event | Function.

(** The object kept in the [member] field of an entry. *)
Inductive MemberObject : Type :=
| OfMember (m : IMember.t)
| OfProperty (p : IProperty.t)
| OfEvent (e : IEvent.t).

Definition object_isProtected (o : MemberObject) : jsval :=
  match o with
  | OfMember m => IMember.isProtected m
  | OfProperty p => IMember.isProtected (IProperty.member p)
  | OfEvent e => IEvent.isProtected e
  end.

(** An element of the array [members]: [{ type: 'header', name, id }] or
    [{ type, name, member }]; the entries of functions carry no [member]. *)
Inductive MembersEntry : Type :=
| HeaderEntry (name : string) (id : string)
| MemberEntry (type : MemberType) (name : jsval) (member : option MemberObject).

(** [if (l.length > 0) { members.push(header); shown.forEach(push) }]: the
    header depends on the unfiltered list. *)
Definition pushSection {A : Type} (title id : string) (mk : A -> MembersEntry)
    (l shown : list A) : list MembersEntry :=
  match l with
  | [] => []
  | _ :: _ => HeaderEntry title id :: map mk shown
  end.

Definition membersOfClass (devMode : bool) (c : IClass.t) : list MembersEntry :=
  pushSection "Constructors" "constructors-section"
    (fun m => MemberEntry Constructor (IMember.name m) (Some (OfMember m)))
    (IClass.constructors c)
    (visible IMember.isProtected devMode (IClass.constructors c))
  ++ pushSection "Properties" "properties-section"
    (fun p => MemberEntry Property (IMember.name (IProperty.member p)) (Some (OfProperty p)))
    (IClass.properties c)
    (visible (fun p => IMember.isProtected (IProperty.member p)) devMode (IClass.properties c))
  ++ pushSection "Methods" "methods-section"
    (fun m => MemberEntry Method (IMember.name m) (Some (OfMember m)))
    (IClass.methods c)
    (visible IMember.isProtected devMode (IClass.methods c))
  ++ pushSection "Events" "events-section"
    (fun e => MemberEntry Event (IEvent.name e) (Some (OfEvent e)))
    (IClass.events c)
    (visible IEvent.isProtected devMode (IClass.events c)).

Definition membersOfModule (m : IModule.t) : list MembersEntry :=
  pushSection "Functions" "functions-section"
    (fun f => MemberEntry Function (IMember.name f) None)
    (IModule.functions m) (IModule.functions m).

(** [isProtectedMember(member, type)], as a condition. *)
Definition isProtectedMember (member : option MemberObject) (type : MemberType) : bool :=
  match type with
  | Function => false
  | _ =>
      match member with
      | Some o => truthy_val (object_isProtected o)
      | None => false
      end
  end.

Definition icon_of (t : MemberType) : string :=
  match t with
  | Constructor => "C"
  | Property => "P"
  | Method => "M"
  | Function => "F"
  | Event => "E"
  end.

(** [highlightedMember && member.name === highlightedMember] *)
Definition outline_highlight (highlighted : option string) (name : jsval) : bool :=
  match highlighted with
  | Some s => negb (String.eqb s "") && is_string name s
  | None => false
  end.

(** An item of the rendered list: a header button, or a member button with
    the id it scrolls to, its icon, whether it is dimmed as protected and
    whether it is framed as highlighted. *)
Inductive OutlineItem : Type :=
| HeaderItem (name : string) (id : string)
| MemberItem (entry : MembersEntry) (memberId : string) (icon : string)
             (isProtected : bool) (highlight : bool).

(** The callback of [members.map]. *)
Definition renderEntry (devMode : bool) (h : option string) (e : MembersEntry)
  : result OutlineItem :=
  match e with
  | HeaderEntry name id => Ok (HeaderItem name id)
  | MemberEntry type name member =>
      memberId <- elementId name ;;
      Ok (MemberItem e memberId (icon_of type)
            (devMode && isProtectedMember member type) (outline_highlight h name))
  end.

(** [IClass | IModule | undefined] *)
Inductive Item : Type :=
| AClass (c : IClass.t)
| AModule (m : IModule.t).

(** The [selectedItem] prop of the panel, as [App] computes it. *)
Definition selected_item (st : AppState) : option Item :=
  match selectedItem st with
  | None => None
  | Some {| sel_type := ItemClass; sel_name := n |} =>
      option_map AClass (find_class (data st) n)
  | Some {| sel_type := ItemModule; sel_name := n |} =>
      option_map AModule (find_module (data st) n)
  end.

Definition membersOf (devMode : bool) (i : Item) : list MembersEntry :=
  match i with
  | AClass c => membersOfClass devMode c
  | AModule m => membersOfModule m
  end.

(** [None] where the component returns [null]. *)
Definition OnThisPagePanel (selectedItem : option Item) (devMode : bool)
    (highlightedMember : option string) : result (option (list OutlineItem)) :=
  match selectedItem with
  | None => Ok None
  | Some i =>
      l <- mapM (renderEntry devMode highlightedMember) (membersOf devMode i) ;;
      Ok (Some l)
  end.

(** A header, or a member that is not protected. *)
Definition entry_public (e : MembersEntry) : bool :=
  match e with
  | HeaderEntry _ _ => true
  | MemberEntry _ _ (Some o) => negb (truthy_val (object_isProtected o))
  | MemberEntry _ _ None => true
  end.

Definition item_public (i : OutlineItem) : bool :=
  match i with
  | HeaderItem _ _ => true
  | MemberItem e _ _ _ _ => entry_public e
  end.

(** ** The sidebar lists *)

Fixpoint insertM {A : Type} (cmp : A -> A -> result Z) (x : A) (l : list A)
  : result (list A) :=
  match l with
  | [] => Ok [x]
  | y :: l' =>
      c <- cmp x y ;;
      if (c <=? 0)%Z then Ok (x :: y :: l')
      else r <- insertM cmp x l' ;; Ok (y :: r)
  end.

(** [l.slice().sort(cmp)]. The standard leaves the algorithm open and asks
    for a stable sort; with a consistent comparator the outcome is the same
    for every such algorithm. Here: insertion from the right, an element
    going before the first one it does not exceed. *)
Fixpoint sortM {A : Type} (cmp : A -> A -> result Z) (l : list A) : result (list A) :=
  match l with
  | [] => Ok []
  | x :: l' => s <- sortM cmp l' ;; insertM cmp x s
  end.

(** A button of the sidebar: its React key, its caption and whether it is
    drawn as the current selection. *)
Record NavEntry : Type := {
  key : jsval;
  caption : jsval;
  current : bool
}.

Definition is_current (t : ItemType) (sel : option Selection) (name : jsval) : bool :=
  match sel with
  | Some {| sel_type := t'; sel_name := n |} =>
      match t, t' with
      | ItemClass, ItemClass | ItemModule, ItemModule => is_string name n
      | _, _ => false
      end
  | None => false
  end.

Section Sidebar.

(** [String.prototype.localeCompare], a built-in of the platform: the
    receiver is a string, the argument any value. *)
Variable localeCompare : string -> jsval -> Z.

(** [a.name.localeCompare(b.name)]: only a string has the method. *)
Definition compareNames (a b : jsval) : result Z :=
  match a with
  | Some (JStr s) => Ok (localeCompare s b)
  | _ => Throw TypeError
  end.

Definition sidebarClasses (st : AppState) : result (list NavEntry) :=
  sorted <- sortM (fun a b => compareNames (IClass.name a) (IClass.name b))
              (classes (data st)) ;;
  Ok (map (fun cls => {| key := IClass.name cls; caption := IClass.name cls;
                         current := is_current ItemClass (selectedItem st) (IClass.name cls) |})
        sorted).

Definition sidebarModules (st : AppState) : result (list NavEntry) :=
  sorted <- sortM (fun a b => compareNames (IModule.name a) (IModule.name b))
              (modules (data st)) ;;
  Ok (map (fun mdl => {| key := IModule.name mdl; caption := IModule.name mdl;
                         current := is_current ItemModule (selectedItem st) (IModule.name mdl) |})
        sorted).

End Sidebar.

(** ** Vocabulary of the statements *)

Definition str (s : string) : jsval := Some (JStr s).

Definition is_null (v : json) : bool :=
  match v with
  | JNull => true
  | _ => false
  end.

(** The elements a [forEach] of the normaliser visits in [v]. *)
Definition array_elements (v : jsval) : list json :=
  match v with
  | Some (JArr l) => l
  | _ => []
  end.

Definition no_null_element (v : jsval) : bool :=
  forallb (fun x => negb (is_null x)) (array_elements v).

(** The discriminator in the words of the data model: the record carries a
    [constructors] field or an [events] field. *)
Definition is_class_record (item : json) : bool :=
  carries item "constructors" || carries item "events".

(** The elements the normaliser does not throw on: anything but [null] whose
    member arrays, those it visits, hold no [null]. *)
Definition loadable (item : json) : bool :=
  negb (is_null item) &&
  (if is_class_record item
   then no_null_element (prop item "constructors")
        && no_null_element (prop item "properties")
        && no_null_element (prop item "methods")
        && no_null_element (prop item "events")
   else no_null_element (prop item "methods")).

(** [out] is [raw] with the default [d] applied: never undefined, [d] when
    the field is missing, the field itself when it is truthy. *)
Definition defaults_to (raw : jsval) (d : json) (out : jsval) : Prop :=
  defined out = true
  /\ (raw = undefined -> out = Some d)
  /\ (truthy_val raw = true -> out = raw)
  /\ (truthy_val raw = false -> out = Some d).

(** The optional fields every member shares with an event. *)
Record base_defaulted (raw : json)
    (description remarks examples params devNotes todos requires isProtected : jsval)
  : Prop := {
  bd_description : defaults_to (prop raw "description") empty_string description;
  bd_remarks : defaults_to (prop raw "remarks") empty_list remarks;
  bd_examples : defaults_to (prop raw "examples") empty_list examples;
  bd_params : defaults_to (prop raw "params") empty_list params;
  bd_devNotes : defaults_to (prop raw "devNotes") empty_list devNotes;
  bd_todos : defaults_to (prop raw "todos") empty_list todos;
  bd_requires : defaults_to (prop raw "requires") empty_list requires;
  bd_isProtected : defaults_to (prop raw "isProtected") (JBool false) isProtected
}.

Record member_defaulted (raw : json) (m : IMember.t) : Prop := {
  md_name : IMember.name m = prop raw "name";
  md_base : base_defaulted raw (IMember.description m) (IMember.remarks m)
              (IMember.examples m) (IMember.params m) (IMember.devNotes m)
              (IMember.todos m) (IMember.requires m) (IMember.isProtected m);
  md_returns : defaults_to (prop raw "returns") default_returns (IMember.returns m);
  md_throws : defaults_to (prop raw "throws") empty_list (IMember.throws m);
  md_isStatic : defaults_to (prop raw "isStatic") (JBool false) (IMember.isStatic m);
  md_isDefaultMember :
    defaults_to (prop raw "isDefaultMember") (JBool false) (IMember.isDefaultMember m);
  md_deprecation :
    defaults_to (prop raw "deprecation") default_deprecation (IMember.deprecation m)
}.

Definition property_defaulted (raw : json) (p : IProperty.t) : Prop :=
  member_defaulted raw (IProperty.member p)
  /\ defaults_to (prop raw "access") (JStr "ReadWrite") (IProperty.access p).

Definition event_defaulted (raw : json) (e : IEvent.t) : Prop :=
  IEvent.name e = prop raw "name"
  /\ base_defaulted raw (IEvent.description e) (IEvent.remarks e) (IEvent.examples e)
       (IEvent.params e) (IEvent.devNotes e) (IEvent.todos e) (IEvent.requires e)
       (IEvent.isProtected e).

(** The optional fields a class shares with a module. *)
Record item_defaulted (raw : json)
    (fileName description remarks examples devNotes todos requires : jsval) : Prop := {
  id_fileName : defaults_to (prop raw "fileName") empty_string fileName;
  id_description : defaults_to (prop raw "description") empty_string description;
  id_remarks : defaults_to (prop raw "remarks") empty_list remarks;
  id_examples : defaults_to (prop raw "examples") empty_list examples;
  id_devNotes : defaults_to (prop raw "devNotes") empty_list devNotes;
  id_todos : defaults_to (prop raw "todos") empty_list todos;
  id_requires : defaults_to (prop raw "requires") empty_list requires
}.

Record class_defaulted (raw : json) (c : IClass.t) : Prop := {
  cd_name : IClass.name c = prop raw "name";
  cd_item : item_defaulted raw (IClass.fileName c) (IClass.description c)
              (IClass.remarks c) (IClass.examples c) (IClass.devNotes c)
              (IClass.todos c) (IClass.requires c);
  cd_implements : defaults_to (prop raw "implements") empty_list (IClass.implements c);
  cd_constructors :
    Forall2 member_defaulted (array_elements (prop raw "constructors")) (IClass.constructors c);
  cd_properties :
    Forall2 property_defaulted (array_elements (prop raw "properties")) (IClass.properties c);
  cd_methods :
    Forall2 member_defaulted (array_elements (prop raw "methods")) (IClass.methods c);
  cd_events :
    Forall2 event_defaulted (array_elements (prop raw "events")) (IClass.events c)
}.

Record module_defaulted (raw : json) (m : IModule.t) : Prop := {
  mo_name : IModule.name m = prop raw "name";
  mo_item : item_defaulted raw (IModule.fileName m) (IModule.description m)
              (IModule.remarks m) (IModule.examples m) (IModule.devNotes m)
              (IModule.todos m) (IModule.requires m);
  mo_functions :
    Forall2 member_defaulted (array_elements (prop raw "methods")) (IModule.functions m)
}.

(** Reading [params], [returns] and [throws] from the object of a member:
    the literal pushed for an event has neither [returns] nor [throws]. *)
Definition object_params (o : MemberObject) : jsval :=
  match o with
  | OfMember m => IMember.params m
  | OfProperty p => IMember.params (IProperty.member p)
  | OfEvent e => IEvent.params e
  end.

Definition object_returns (o : MemberObject) : jsval :=
  match o with
  | OfMember m => IMember.returns m
  | OfProperty p => IMember.returns (IProperty.member p)
  | OfEvent _ => undefined
  end.

Definition object_throws (o : MemberObject) : jsval :=
  match o with
  | OfMember m => IMember.throws m
  | OfProperty p => IMember.throws (IProperty.member p)
  | OfEvent _ => undefined
  end.

Definition substructures_defined (o : MemberObject) : bool :=
  defined (object_params o) && defined (object_returns o) && defined (object_throws o).

(** The members of a document, of the five kinds. *)
Definition class_members (c : IClass.t) : list MemberObject :=
  map OfMember (IClass.constructors c) ++ map OfProperty (IClass.properties c)
  ++ map OfMember (IClass.methods c) ++ map OfEvent (IClass.events c).

Definition all_members (d : IData) : list MemberObject :=
  flat_map class_members (classes d)
  ++ flat_map (fun m => map OfMember (IModule.functions m)) (modules d).

(** [{ ...item, functions: v }] on an object of the payload. *)
Definition with_field (k : string) (v : json) (item : json) : json :=
  match item with
  | JObj fields => JObj ((k, v) :: fields)
  | _ => item
  end.

Fixpoint dot_free (s : string) : bool :=
  match s with
  | EmptyString => true
  | String c s' => negb (Ascii.eqb c "."%char) && dot_free s'
  end.

(** The ways the request fails before any element is read. *)
Inductive fetch_fails : FetchOutcome -> Prop :=
| network_error : fetch_fails Rejected
| status_not_ok status body : fetch_fails (Response false status body)
| not_json status : fetch_fails (Response true status None).

(** What the user can do on the page: toggle the mode, or click a button of
    the sidebar (for a name that is a string, the only ones a [Selection]
    holds). *)
Inductive interaction : Page -> Page -> Prop :=
| toggle_mode p : interaction p (on_app handleToggleMode p)
| click_class p c s :
    In c (classes (data (app p))) -> IClass.name c = str s ->
    interaction p
      (on_app (setSelectedItem (Some {| sel_type := ItemClass; sel_name := s |})) p)
| click_module p m s :
    In m (modules (data (app p))) -> IModule.name m = str s ->
    interaction p
      (on_app (setSelectedItem (Some {| sel_type := ItemModule; sel_name := s |})) p).

Inductive interactions (p : Page) : Page -> Prop :=
| no_interaction : interactions p p
| then_interaction p' p'' : interactions p p' -> interaction p' p'' -> interactions p p''.

(** The names of the members are strings, as the interfaces declare. *)
Definition name_is_string (v : jsval) : bool :=
  match v with
  | Some (JStr _) => true
  | _ => false
  end.

Definition member_names_are_strings (i : Item) : bool :=
  match i with
  | AClass c =>
      forallb (fun m => name_is_string (IMember.name m)) (IClass.constructors c)
      && forallb (fun p => name_is_string (IMember.name (IProperty.member p))) (IClass.properties c)
      && forallb (fun m => name_is_string (IMember.name m)) (IClass.methods c)
      && forallb (fun e => name_is_string (IEvent.name e)) (IClass.events c)
  | AModule m =>
      forallb (fun f => name_is_string (IMember.name f)) (IModule.functions m)
  end.

Definition renderItem (devMode : bool) (h : option string) (i : Item) : result ItemView :=
  match i with
  | AClass c => renderClass devMode h c
  | AModule m => renderModule devMode h m
  end.

Definition item_content (i : Item) (v : ItemView) : Content :=
  match i with
  | AClass _ => ClassView v
  | AModule _ => ModuleView v
  end.

(** The name of a member object. *)
Definition object_name (o : MemberObject) : jsval :=
  match o with
  | OfMember m => IMember.name m
  | OfProperty p => IMember.name (IProperty.member p)
  | OfEvent e => IEvent.name e
  end.

(** The names of the members of an item that user mode is to show: the
    members of a class that are not protected, and every function of a
    module. *)
Definition shown_in_user_mode (i : Item) : list jsval :=
  match i with
  | AClass c =>
      map object_name
        (filter (fun o => negb (truthy_val (object_isProtected o))) (class_members c))
  | AModule m => map IMember.name (IModule.functions m)
  end.

(** ** Payloads and further vocabulary *)

(** Two records of the same name, one with [constructors], one without. *)
Definition same_name_records : list json :=
  [ JObj [("name", JStr "stdShape"); ("constructors", JArr [])];
    JObj [("name", JStr "stdShape"); ("methods", JArr [JObj [("name", JStr "Area")]])] ].

(** Every field a record of the document holds, and what reading [params],
    [returns] and [throws] from each of its members gives. *)
Definition item_fields (fileName description remarks examples devNotes todos requires : jsval)
  : list jsval :=
  [fileName; description; remarks; examples; devNotes; todos; requires].

Definition no_field_undefined (d : IData) : bool :=
  forallb (fun c =>
             forallb defined
               (IClass.name c :: IClass.implements c
                :: item_fields (IClass.fileName c) (IClass.description c) (IClass.remarks c)
                     (IClass.examples c) (IClass.devNotes c) (IClass.todos c)
                     (IClass.requires c))) (classes d)
  && forallb (fun m =>
                forallb defined
                  (IModule.name m
                   :: item_fields (IModule.fileName m) (IModule.description m)
                        (IModule.remarks m) (IModule.examples m) (IModule.devNotes m)
                        (IModule.todos m) (IModule.requires m))) (modules d)
  && forallb substructures_defined (all_members d).

(** A class with one event, as the payload can describe it. *)
Definition tick_throws : json :=
  JArr [ JObj [("errNumber", JNum 5%float); ("errText", JStr "stopped")] ].

Definition tick_event : json :=
  JObj [("name", JStr "Tick"); ("throws", tick_throws)].

Definition class_with_event : json :=
  JObj [("name", JStr "stdTimer");
        ("constructors", JArr [ JObj [("name", JStr "Create")] ]);
        ("events", JArr [tick_event])].

(** A record with a [functions] field only. *)
Definition functions_only : json :=
  JObj [("name", JStr "stdMath"); ("functions", JArr [JObj [("name", JStr "Clamp")]])].

(** The state a successful load leaves before the deep link is read again. *)
Definition loaded (d : IData) : AppState :=
  {| selectedItem := None; data := d; loading := false;
     error := None; devMode := false; highlightedMember := None |}.

(** A query [Foo.Bar] on a document with an item [Foo]. *)
Definition foo_document : json :=
  JArr [ JObj [("name", JStr "Foo"); ("constructors", JArr []);
               ("methods", JArr [ JObj [("name", JStr "Bar")] ])] ].

(** What a failed load leaves, and every interaction keeps. *)
Definition failed_closed (p : Page) : Prop :=
  error (app p) = Some error_message
  /\ data (app p) = empty_data
  /\ loading (app p) = false
  /\ selectedItem (app p) = None
  /\ requests p = [docs_url].

(** A member component as [renderContent] builds it: it shows the member
    [name] with the protection [protected], under the id of that name, and
    is highlighted when the name is the highlighted one. *)
Definition renders (h : option string) (name protected : jsval) (d : Detail) : Prop :=
  detail_name d = name
  /\ detail_isProtected d = protected
  /\ (exists s, name = str s /\ detail_elementId d = detail_id s)
  /\ detail_highlight d = strict_eq h name.

(** What the two modes have in common in the detail pane. *)
Definition same_frame (v v' : ItemView) : Prop :=
  title v = title v' /\ description v = description v' /\ remarks v = remarks v'
  /\ examples v = examples v' /\ implements v = implements v'
  /\ requires v = requires v'.

(** The name of an entry of the outline is a string (a header has none). *)
Definition entry_name_is_string (e : MembersEntry) : bool :=
  match e with
  | HeaderEntry _ _ => true
  | MemberEntry _ n _ => name_is_string n
  end.

(** The dev notes and the TODOs of the item are in the view, or are not. *)
Definition shows_dev_notes (v : ItemView) : Prop := devNotes v <> None /\ todos v <> None.
Definition hides_dev_notes (v : ItemView) : Prop := devNotes v = None /\ todos v = None.

(** A document whose class [Foo] has a public and a protected method, and a
    module with a protected function. *)
Definition bar_method : json := JObj [("name", JStr "Bar")].
Definition secret_method : json :=
  JObj [("name", JStr "Secret"); ("isProtected", JBool true)].
Definition helper_function : json :=
  JObj [("name", JStr "Helper"); ("isProtected", JBool true)].

Definition mixed_document : json :=
  JArr [ JObj [("name", JStr "Foo"); ("constructors", JArr []);
               ("devNotes", JArr [JStr "internal"]);
               ("methods", JArr [bar_method; secret_method])];
         JObj [("name", JStr "Tools"); ("methods", JArr [helper_function; bar_method])] ].

(** The names of the members among the entries of [members]. *)
Definition entry_names (es : list MembersEntry) : list jsval :=
  flat_map (fun e => match e with
                     | MemberEntry _ n _ => [n]
                     | HeaderEntry _ _ => []
                     end) es.

(** The names of the members an outline lists. *)
Definition outline_names (o : list OutlineItem) : list jsval :=
  flat_map (fun i => match i with
                     | MemberItem e _ _ _ _ => entry_names [e]
                     | HeaderItem _ _ => []
                     end) o.

(** A class with two methods of one name. *)
Definition namesakes_document : json :=
  JArr [ JObj [("name", JStr "Foo"); ("constructors", JArr []);
               ("methods", JArr [bar_method; bar_method; secret_method])] ].

(** The string a name is, when it is one. *)
Definition name_of (v : jsval) : string :=
  match v with
  | Some (JStr s) => s
  | _ => ""
  end.

(** A comparator to run the sidebar with: the order of the code units. *)
Definition codeUnitCompare (s : string) (that : jsval) : Z :=
  match that with
  | Some (JStr t) =>
      match String_as_OT.compare s t with
      | Lt => (-1)%Z
      | Eq => 0%Z
      | Gt => 1%Z
      end
  | _ => 0%Z
  end.

(** Three classes out of order and two modules. *)
Definition unsorted_document : json :=
  JArr [ JObj [("name", JStr "stdLambda"); ("constructors", JArr [])];
         JObj [("name", JStr "stdArray"); ("events", JArr [])];
         JObj [("name", JStr "stdWindow")];
         JObj [("name", JStr "stdCallback"); ("constructors", JArr [])];
         JObj [("name", JStr "stdAcc")] ].

Definition unsorted_state : AppState :=
  app (session None (Response true 200 (Some unsorted_document))).

(** ** The panels *)

Record Panels : Type := {
  isLeftPanelMinimized : bool;
  isRightPanelMinimized : bool;
  isLeftPanelOpenMobile : bool;
  isRightPanelOpenMobile : bool
}.

(** The [useState] initial values. *)
Definition initial_panels : Panels :=
  {| isLeftPanelMinimized := false; isRightPanelMinimized := false;
     isLeftPanelOpenMobile := false; isRightPanelOpenMobile := false |}.

Definition toggleLeftPanelDesktop (s : Panels) : Panels :=
  {| isLeftPanelMinimized := negb (isLeftPanelMinimized s);
     isRightPanelMinimized := isRightPanelMinimized s;
     isLeftPanelOpenMobile := isLeftPanelOpenMobile s;
     isRightPanelOpenMobile := isRightPanelOpenMobile s |}.

Definition toggleRightPanelDesktop (s : Panels) : Panels :=
  {| isLeftPanelMinimized := isLeftPanelMinimized s;
     isRightPanelMinimized := negb (isRightPanelMinimized s);
     isLeftPanelOpenMobile := isLeftPanelOpenMobile s;
     isRightPanelOpenMobile := isRightPanelOpenMobile s |}.

Definition openLeftPanelMobile (s : Panels) : Panels :=
  {| isLeftPanelMinimized := isLeftPanelMinimized s;
     isRightPanelMinimized := isRightPanelMinimized s;
     isLeftPanelOpenMobile := true;
     isRightPanelOpenMobile := false |}.

Definition openRightPanelMobile (s : Panels) : Panels :=
  {| isLeftPanelMinimized := isLeftPanelMinimized s;
     isRightPanelMinimized := isRightPanelMinimized s;
     isLeftPanelOpenMobile := false;
     isRightPanelOpenMobile := true |}.

Definition closeMobilePanels (s : Panels) : Panels :=
  {| isLeftPanelMinimized := isLeftPanelMinimized s;
     isRightPanelMinimized := isRightPanelMinimized s;
     isLeftPanelOpenMobile := false;
     isRightPanelOpenMobile := false |}.

(** The listener of [resize], also called once on mount; [innerWidth] is
    [window.innerWidth]. *)
Definition handleResize (innerWidth : Z) (s : Panels) : Panels :=
  if (768 <=? innerWidth)%Z
  then {| isLeftPanelMinimized := false; isRightPanelMinimized := false;
          isLeftPanelOpenMobile := false; isRightPanelOpenMobile := false |}
  else {| isLeftPanelMinimized := true; isRightPanelMinimized := true;
          isLeftPanelOpenMobile := isLeftPanelOpenMobile s;
          isRightPanelOpenMobile := isRightPanelOpenMobile s |}.

(** [isLeftPanelMinimized && !isLeftPanelOpenMobile ? 'w-16' : 'w-64'] *)
Definition left_width (s : Panels) : string :=
  if isLeftPanelMinimized s && negb (isLeftPanelOpenMobile s) then "w-16" else "w-64".

Definition right_width (s : Panels) : string :=
  if isRightPanelMinimized s && negb (isRightPanelOpenMobile s) then "w-16" else "w-64".

(** [(!isLeftPanelMinimized || isLeftPanelOpenMobile)]: the sidebar shows
    its two lists, else the folded title. *)
Definition sidebar_lists_shown (s : Panels) : bool :=
  negb (isLeftPanelMinimized s) || isLeftPanelOpenMobile s.

(** The right panel is there for a selection only; it shows the outline
    when [(!isRightPanelMinimized || isRightPanelOpenMobile)]. *)
Definition outline_shown (st : AppState) (s : Panels) : bool :=
  match selectedItem st with
  | Some _ => negb (isRightPanelMinimized s) || isRightPanelOpenMobile s
  | None => false
  end.

(** What happens to the panels: a click on one of the buttons, or a resize
    of the window. *)
Inductive PanelEvent : Type :=
| ToggleLeftDesktop
| ToggleRightDesktop
| OpenLeftMobile
| OpenRightMobile
| CloseMobile
| Resize (innerWidth : Z).

Definition panel_step (s : Panels) (e : PanelEvent) : Panels :=
  match e with
  | ToggleLeftDesktop => toggleLeftPanelDesktop s
  | ToggleRightDesktop => toggleRightPanelDesktop s
  | OpenLeftMobile => openLeftPanelMobile s
  | OpenRightMobile => openRightPanelMobile s
  | CloseMobile => closeMobilePanels s
  | Resize w => handleResize w s
  end.

(** The panels after mounting in a window of width [innerWidth] and the
    events [es] in turn. *)
Definition panels_after (innerWidth : Z) (es : list PanelEvent) : Panels :=
  fold_left panel_step es (handleResize innerWidth initial_panels).

(** ** Code blocks of the markdown: [markdownComponents.code] *)

(** [\w] *)
Definition is_word (c : ascii) : bool :=
  let n := nat_of_ascii c in
  ((48 <=? n)%nat && (n <=? 57)%nat) || ((65 <=? n)%nat && (n <=? 90)%nat)
  || ((97 <=? n)%nat && (n <=? 122)%nat) || (n =? 95)%nat.

(** The longest prefix of word characters: what [(\w+)] takes. *)
Fixpoint take_word (s : string) : string :=
  match s with
  | EmptyString => EmptyString
  | String c s' => if is_word c then String c (take_word s') else EmptyString
  end.

(** [s] without the prefix [p], when it starts with it. *)
Fixpoint strip_prefix (p s : string) : option string :=
  match p with
  | EmptyString => Some s
  | String a p' =>
      match s with
      | EmptyString => None
      | String b s' => if Ascii.eqb a b then strip_prefix p' s' else None
      end
  end.

(** [/language-(\w+)/] matched at the start of [s]: the group. *)
Definition language_here (s : string) : option string :=
  match strip_prefix "language-" s with
  | Some rest =>
      match take_word rest with
      | EmptyString => None
      | w => Some w
      end
  | None => None
  end.

(** [/language-(\w+)/.exec(s)]: the group of the leftmost match. *)
Fixpoint exec_language (s : string) : option string :=
  match language_here s with
  | Some w => Some w
  | None =>
      match s with
      | EmptyString => None
      | String _ s' => exec_language s'
      end
  end.

(** [lang]: [vb] and [vba] are highlighted as [vbnet]. *)
Definition code_lang (className : option string) : option string :=
  match exec_language (match className with Some c => c | None => "" end) with
  | Some w => if String.eqb w "vb" || String.eqb w "vba" then Some "vbnet" else Some w
  | None => None
  end.

(** [s.replace(/\n$/, '')] *)
Fixpoint strip_final_newline (s : string) : string :=
  match s with
  | EmptyString => EmptyString
  | String c EmptyString => if Ascii.eqb c "010"%char then EmptyString else s
  | String c s' => String c (strip_final_newline s')
  end.

(** What the renderer of [code] returns; [text] is [String(children)]. *)
Inductive CodeView : Type :=
| InlineCode (text : string)
| Highlighted (language : string) (text : string)
| PlainCode (className : option string) (text : string).

Definition code (inline : bool) (className : option string) (text : string) : CodeView :=
  if inline then InlineCode text
  else
    match code_lang className with
    | Some (String c l) => Highlighted (String c l) (strip_final_newline text)
    | _ => PlainCode className text
    end.

(** ** The member components *)

(** The value of [a && b] as a child: [b] rendered, or the falsy [a]. *)
Inductive guarded (A : Type) : Type :=
| Shown (a : A)
| NotShown (falsy : jsval).

Arguments Shown {A} a.
Arguments NotShown {A} falsy.

Definition is_shown {A : Type} (g : guarded A) : bool :=
  match g with
  | Shown _ => true
  | NotShown _ => false
  end.

(** [x && k(x)] *)
Definition and_then {A : Type} (x : jsval) (k : json -> result A) : result (guarded A) :=
  match x with
  | Some j => if truthy j then a <- k j ;; Ok (Shown a) else Ok (NotShown x)
  | None => Ok (NotShown x)
  end.

(** [x || d], as a value that is not undefined. *)
Definition or_json (x : jsval) (d : json) : json :=
  match x with
  | Some j => if truthy j then j else d
  | None => d
  end.

(** [v.length === 0] for a truthy [v]. *)
Definition length_is_zero (v : json) : bool :=
  match v with
  | JArr l => match l with [] => true | _ => false end
  | JStr s => String.eqb s ""
  | JObj fields =>
      match lookup "length" fields with
      | Some (JNum f) => PrimFloat.is_zero f
      | _ => false
      end
  | _ => false
  end.

Section Components.

(** [Number.prototype.toString], a built-in of the platform. *)
Variable number_to_string : float -> string.

(** [String(v)] and the conversion of a template literal. An object of the
    payload with a [toString] property of its own has no callable
    conversion left; an array joins its elements with commas, [null]
    giving the empty string. *)
Fixpoint ToString (v : json) : result string :=
  match v with
  | JNull => Ok "null"
  | JBool b => Ok (if b then "true" else "false")
  | JNum f => Ok (number_to_string f)
  | JStr s => Ok s
  | JArr l =>
      (fix join (l : list json) : result string :=
         match l with
         | [] => Ok ""
         | x :: rest =>
             a <- match x with
                  | JNull => Ok ""
                  | _ => ToString x
                  end ;;
             match rest with
             | [] => Ok a
             | _ :: _ => b <- join rest ;; Ok (a ++ "," ++ b)%string
             end
         end) l
  | JObj fields =>
      match lookup "toString" fields with
      | Some _ => Throw TypeError
      | None => Ok "[object Object]"
      end
  end.

(** The same on a value that may be undefined. *)
Definition String_ (v : jsval) : result string :=
  match v with
  | Some j => ToString j
  | None => Ok "undefined"
  end.

(** [window.location.origin + window.location.pathname +
    `?q=${parentName}.${name}`] *)
Definition link_query (parentName name : jsval) : result string :=
  p <- String_ parentName ;;
  n <- String_ name ;;
  Ok (p ++ "." ++ n)%string.

Definition link_url (origin pathname : string) (parentName name : jsval) : result string :=
  q <- link_query parentName name ;;
  Ok (origin ++ pathname ++ "?q=" ++ q)%string.

(** [ReturnsDetail]: the type, and the description when there is one. *)
Record ReturnsView : Type := {
  returns_type : string;
  returns_description : guarded string
}.

Definition ReturnsDetail (returns : json) : result (option ReturnsView) :=
  if negb (truthy returns) then Ok None
  else if negb (truthy_val (prop returns "type")) then Ok None
  else
    t <- String_ (prop returns "type") ;;
    d <- and_then (prop returns "description") ToString ;;
    Ok (Some {| returns_type := t; returns_description := d |}).

(** [ParametersDetail]: a row for each parameter. *)
Record ParamRow : Type := {
  param_name : string;
  param_type : string;
  param_optional : guarded unit;
  param_defaultValue : guarded string;
  param_paramArray : guarded unit;
  param_description : guarded json
}.

Definition mkParamRow (param : json) : result ParamRow :=
  n <- get param "name" ;;
  name <- String_ n ;;
  type <- String_ (prop param "type") ;;
  optional <- and_then (prop param "optional") (fun _ => Ok tt) ;;
  defaultValue <- and_then (prop param "defaultValue") ToString ;;
  paramArray <- and_then (prop param "paramArray") (fun _ => Ok tt) ;;
  description <- and_then (prop param "description") (fun d => Ok d) ;;
  Ok {| param_name := name; param_type := type; param_optional := optional;
        param_defaultValue := defaultValue; param_paramArray := paramArray;
        param_description := description |}.

Definition ParametersDetail (params : json) : result (option (list ParamRow)) :=
  match params with
  | JArr [] => Ok None
  | JArr l => rows <- mapM mkParamRow l ;; Ok (Some rows)
  | _ => Ok None
  end.

(** [ThrowsDetail]: the number and the text of each error, as children. *)
Definition mkThrowRow (err : json) : result (jsval * jsval) :=
  n <- get err "errNumber" ;;
  Ok (n, prop err "errText").

Definition ThrowsDetail (throws : json) : result (option (list (jsval * jsval))) :=
  match throws with
  | JArr [] => Ok None
  | JArr l => rows <- mapM mkThrowRow l ;; Ok (Some rows)
  | _ => Ok None
  end.

(** [StringList]: the title and the items, as children; [items] defaults
    to the empty list when it is undefined. Only an array has [map]. *)
Definition StringList (title : string) (items : jsval) : result (option (string * list json)) :=
  let items := match items with Some j => j | None => JArr [] end in
  if negb (truthy items) || length_is_zero items then Ok None
  else
    match items with
    | JArr l => Ok (Some (title, l))
    | _ => Throw TypeError
    end.

(** The header of [MethodConstructorDetail] and [FunctionDetail] and the
    props of the blocks below it ([MemberCommonDetails] apart). *)
Record MemberView : Type := {
  member_url : string;
  member_label : string;
  member_static : guarded unit;
  member_protected : guarded unit;
  member_default : guarded unit;
  member_deprecated : guarded jsval;
  member_params : option (list ParamRow);
  member_returns : option ReturnsView;
  member_throws : option (list (jsval * jsval))
}.

(** [x.deprecation && x.deprecation.status && (... x.deprecation.message)] *)
Definition deprecation_marker (deprecation : jsval) : result (guarded jsval) :=
  match deprecation with
  | Some d =>
      if truthy d
      then and_then (prop d "status") (fun _ => Ok (prop d "message"))
      else Ok (NotShown deprecation)
  | None => Ok (NotShown deprecation)
  end.

Definition MethodConstructorDetail_view (origin pathname : string)
    (method : IMember.t) (parentName : jsval) : result MemberView :=
  url <- link_url origin pathname parentName (IMember.name method) ;;
  label <- String_ (IMember.name method) ;;
  static <- and_then (IMember.isStatic method) (fun _ => Ok tt) ;;
  protected <- and_then (IMember.isProtected method) (fun _ => Ok tt) ;;
  default <- and_then (IMember.isDefaultMember method) (fun _ => Ok tt) ;;
  deprecated <- deprecation_marker (IMember.deprecation method) ;;
  params <- ParametersDetail (or_json (IMember.params method) (JArr [])) ;;
  returns <- ReturnsDetail (or_json (IMember.returns method) default_returns) ;;
  throws <- ThrowsDetail (or_json (IMember.throws method) (JArr [])) ;;
  Ok {| member_url := url; member_label := label; member_static := static;
        member_protected := protected; member_default := default;
        member_deprecated := deprecated; member_params := params;
        member_returns := returns; member_throws := throws |}.

(** The link a rendered member component copies. *)
Definition detail_parentName (d : Detail) : jsval :=
  match d with
  | MethodConstructorDetail _ _ _ p | PropertyDetail _ _ _ p
  | EventDetail _ _ _ p | FunctionDetail _ _ _ p => p
  end.

Definition detail_query (d : Detail) : result string :=
  link_query (detail_parentName d) (detail_name d).

End Components.

(** ** Further vocabulary *)

(** [selectedClass.name] or [selectedModule.name], the [parentName] of the
    member components. *)
Definition item_name (i : Item) : jsval :=
  match i with
  | AClass c => IClass.name c
  | AModule m => IModule.name m
  end.

(** The item is the one a deep link to [name] resolves to in [d]. *)
Definition resolves_to (d : IData) (name : string) (i : Item) : Prop :=
  match i with
  | AClass c => find_class d name = Some c
  | AModule m => find_class d name = None /\ find_module d name = Some m
  end.

(** The name and the target id of each member an outline lists. *)
Definition outline_targets (o : list OutlineItem) : list (jsval * string) :=
  flat_map (fun i => match i with
                     | MemberItem (MemberEntry _ n _) id _ _ _ => [(n, id)]
                     | _ => []
                     end) o.

(** The title and the id of each header of an outline. *)
Definition outline_headers (o : list OutlineItem) : list (string * string) :=
  flat_map (fun i => match i with
                     | HeaderItem n id => [(n, id)]
                     | MemberItem _ _ _ _ _ => []
                     end) o.

(** The title and the id of each heading of a detail view. *)
Definition view_headings (v : ItemView) : list (string * string) :=
  map (fun s => (section_title s, section_id s)) (sections v).

(** The string holds a character of [\s]. *)
Definition has_space (s : string) : bool :=
  existsb is_space (list_ascii_of_string s).

(** A rendered member component: it carries the name of its item as
    [parentName], and the id of its own name, which is a string. *)
Definition component_of (parent : jsval) (d : Detail) : Prop :=
  detail_parentName d = parent
  /\ exists s, detail_name d = str s /\ detail_elementId d = detail_id s.

(** The selection, when there is one, names an item of the document. *)
Definition selection_resolves (st : AppState) : Prop :=
  selectedItem st = None \/ exists i, selected_item st = Some i.

(** The normaliser throws nothing but a type error. *)
Definition throws_type_error_only {A : Type} (r : result A) : Prop :=
  forall e, r = Throw e -> e = TypeError.

(** The name a member component shows and the id of its element. *)
Definition detail_target (d : Detail) : jsval * string :=
  (detail_name d, detail_elementId d).

(** The title and the id of a heading of the detail view. *)
Definition section_heading (s : SectionView) : string * string :=
  (section_title s, section_id s).

(** The keys of a member that the payload may leave out. *)
Definition optional_member_keys : list string :=
  ["isStatic"; "isProtected"; "isDefaultMember"; "deprecation"; "params"; "returns";
   "throws"].

(** ** The query of the address: [URLSearchParams] *)

(** A name or a value of the query once decoded. The strings here hold the
    characters below 256; a percent escape of a byte from 128 on is part
    of a UTF-8 sequence, whose decoding is not modelled: what holds one is
    [Undecoded], and is no ASCII string. *)
Inductive decoded : Type :=
| Text (s : string)
| Undecoded.

Definition push (c : ascii) (r : decoded) : decoded :=
  match r with
  | Text s => Text (String c s)
  | Undecoded => Undecoded
  end.

Definition hex_digit (c : ascii) : option nat :=
  let n := nat_of_ascii c in
  if ((48 <=? n)%nat && (n <=? 57)%nat)%bool then Some (n - 48)%nat
  else if ((65 <=? n)%nat && (n <=? 70)%nat)%bool then Some (n - 55)%nat
  else if ((97 <=? n)%nat && (n <=? 102)%nat)%bool then Some (n - 87)%nat
  else None.

(** The decoding of a name or of a value: [+] is a space, [%XY] with two
    hex digits is the byte they give, and any other character stands for
    itself. *)
Fixpoint form_decode (s : string) : decoded :=
  match s with
  | EmptyString => Text EmptyString
  | String c t =>
      if Ascii.eqb c "+" then push " " (form_decode t)
      else if Ascii.eqb c "%" then
        match t with
        | String a (String b u) =>
            match hex_digit a, hex_digit b with
            | Some x, Some y =>
                if (16 * x + y <? 128)%nat
                then push (ascii_of_nat (16 * x + y)) (form_decode u)
                else Undecoded
            | _, _ => push c (form_decode t)
            end
        | _ => push c (form_decode t)
        end
      else push c (form_decode t)
  end.

(** The pieces between the [&] of the query. *)
Fixpoint split_amp (s : string) : list string :=
  match s with
  | EmptyString => [EmptyString]
  | String c t =>
      if Ascii.eqb c "&" then EmptyString :: split_amp t
      else
        match split_amp t with
        | x :: r => String c x :: r
        | [] => [String c EmptyString]
        end
  end.

(** The name and the value of a piece: what is before and after its first
    [=], or the piece and the empty string. *)
Fixpoint split_eq (s : string) : string * string :=
  match s with
  | EmptyString => (EmptyString, EmptyString)
  | String c t =>
      if Ascii.eqb c "=" then (EmptyString, t)
      else let (n, v) := split_eq t in (String c n, v)
  end.

Module URLSearchParams.

(** [new URLSearchParams(init)] for a string: a leading [?] is dropped,
    the empty pieces are skipped, and each other piece gives a pair. *)
Definition new (init : string) : list (decoded * decoded) :=
  let query :=
    match init with
    | String "?" rest => rest
    | _ => init
    end in
  map (fun piece => let (n, v) := split_eq piece in (form_decode n, form_decode v))
    (filter (fun piece => negb (String.eqb piece "")) (split_amp query)).

(** [params.get(name)] for an ASCII [name]: the value of the first pair of
    that name, or [null]. *)
Definition get (params : list (decoded * decoded)) (name : string) : option decoded :=
  match
    find (fun kv => match fst kv with
                    | Text n => String.eqb n name
                    | Undecoded => false
                    end) params
  with
  | Some kv => Some (snd kv)
  | None => None
  end.

End URLSearchParams.

(** The effect on the address of a page whose [window.location.search] is
    [search]: [q] is [params.get('q')]. There is no page for a [q] that is
    not decoded. *)
Definition locationEffect (search : string) (p : Page) : option Page :=
  match URLSearchParams.get (URLSearchParams.new search) "q" with
  | None => Some (urlEffect None p)
  | Some (Text q) => Some (urlEffect (Some q) p)
  | Some Undecoded => None
  end.

(** The string has none of the characters the query gives a meaning to. *)
Fixpoint plain (s : string) : bool :=
  match s with
  | EmptyString => true
  | String c t =>
      negb (Ascii.eqb c "&") && negb (Ascii.eqb c "+") && negb (Ascii.eqb c "%") && plain t
  end.

(** A method with a typed and described [returns], and one whose [returns]
    has no [type]. *)
Definition count_returns : json :=
  JObj [("type", JStr "Long"); ("description", JStr "The count")].
Definition count_method : json :=
  JObj [("name", JStr "Count"); ("returns", count_returns)].
Definition untyped_returns : json := JObj [("description", JStr "Nothing")].
Definition untyped_method : json :=
  JObj [("name", JStr "Run"); ("returns", untyped_returns)].

(** * Properties *)

Unset Implicit Arguments.

(** ** The error monad and the loops *)

Lemma bind_ok {A B : Type} (r : result A) (k : A -> result B) (b : B) :
  bind r k = Ok b <-> exists a, r = Ok a /\ k a = Ok b.
Proof.
  destruct r as [a | e]; simpl; split.
  - intros H. exists a. auto.
  - intros [a' [Ha Hk]]. inversion Ha. subst. exact Hk.
  - discriminate.
  - intros [a [Ha _]]. discriminate.
Qed.

Lemma mapM_Forall2 {A B : Type} (f : A -> result B) (l : list A) (l' : list B) :
  mapM f l = Ok l' <-> Forall2 (fun x y => f x = Ok y) l l'.
Proof.
  revert l'. induction l as [| x l IH]; intros l'; simpl.
  - split; intros H.
    + inversion H. constructor.
    + inversion H. reflexivity.
  - rewrite bind_ok. split.
    + intros [y [Hy H]]. apply bind_ok in H. destruct H as [ys [Hys H]].
      inversion H. subst. constructor; [exact Hy | apply IH; exact Hys].
    + intros H. inversion H as [| x' y l0 ys Hy Hys]. subst.
      exists y. split; [exact Hy |].
      apply IH in Hys. rewrite Hys. reflexivity.
Qed.

Lemma mapM_total {A B : Type} (f : A -> result B) (l : list A) :
  Forall (fun x => exists y, f x = Ok y) l -> exists l', mapM f l = Ok l'.
Proof.
  induction 1 as [| x l [y Hy] _ [l' Hl']]; simpl.
  - exists []. reflexivity.
  - exists (y :: l'). rewrite Hy, Hl'. reflexivity.
Qed.

Lemma mapM_length {A B : Type} (f : A -> result B) (l : list A) (l' : list B) :
  mapM f l = Ok l' -> List.length l' = List.length l.
Proof.
  intros H. apply mapM_Forall2 in H. symmetry. eapply Forall2_length. exact H.
Qed.

(** Filtering before the loop, or after it. *)
Lemma mapM_filter {A B : Type} (f : A -> result B) (keep : A -> bool) (keep' : B -> bool)
    (l : list A) (l' : list B) :
  (forall x y, f x = Ok y -> keep' y = keep x) ->
  mapM f l = Ok l' ->
  mapM f (filter keep l) = Ok (filter keep' l').
Proof.
  intros Hkeep H. apply mapM_Forall2 in H.
  induction H as [| x y l l' Hxy _ IH]; simpl.
  - reflexivity.
  - rewrite (Hkeep x y Hxy). destruct (keep x); simpl.
    + rewrite Hxy, IH. reflexivity.
    + exact IH.
Qed.

(** ** Reading the payload *)

Lemma get_prop (v : json) (k : string) :
  is_null v = false -> get v k = Ok (prop v k).
Proof. destruct v; simpl; intros H; try reflexivity. discriminate. Qed.

Lemma get_ok (v : json) (k : string) (x : jsval) :
  get v k = Ok x -> is_null v = false /\ x = prop v k.
Proof. destruct v; simpl; intros H; inversion H; auto. Qed.

Lemma or_default_spec (x : jsval) (d : json) : defaults_to x d (or_default x d).
Proof.
  unfold defaults_to, or_default.
  destruct x as [j |]; simpl.
  - destruct (truthy j); simpl; repeat split; auto; discriminate.
  - repeat split; auto; discriminate.
Qed.

Lemma isClass_spec (item : json) (b : bool) :
  isClass item = Ok b <-> is_null item = false /\ b = is_class_record item.
Proof.
  unfold isClass, is_class_record, carries, defined.
  destruct item; simpl; split; intros H;
    try (inversion H; split; reflexivity);
    try (destruct H as [_ ->]; reflexivity);
    try discriminate.
  destruct H as [H _]. discriminate.
Qed.

Lemma lookup_other (k k' : string) (v : json) (fields : list (string * json)) :
  k <> k' -> lookup k ((k', v) :: fields) = lookup k fields.
Proof.
  intros H. simpl. apply String.eqb_neq in H. rewrite H. reflexivity.
Qed.

Lemma prop_with_field (k k' : string) (v item : json) :
  k <> k' -> prop (with_field k' v item) k = prop item k.
Proof.
  intros H. destruct item; simpl; try reflexivity.
  apply String.eqb_neq in H. rewrite H. reflexivity.
Qed.

(** ** The literals of the normaliser *)

Lemma mkMember_ok (m : json) (x : IMember.t) :
  mkMember m = Ok x -> is_null m = false /\ member_defaulted m x.
Proof.
  unfold mkMember. intros H. apply bind_ok in H. destruct H as [n [Hn H]].
  apply get_ok in Hn. destruct Hn as [Hnull ->].
  inversion H. subst. clear H. split; [exact Hnull |].
  constructor; simpl;
    [reflexivity | constructor; simpl; apply or_default_spec | apply or_default_spec ..].
Qed.

Lemma mkMember_total (m : json) :
  is_null m = false -> exists x, mkMember m = Ok x.
Proof.
  intros H. unfold mkMember. rewrite (get_prop m _ H). simpl. eexists. reflexivity.
Qed.

Lemma mkProperty_ok (p : json) (x : IProperty.t) :
  mkProperty p = Ok x -> is_null p = false /\ property_defaulted p x.
Proof.
  unfold mkProperty. intros H. apply bind_ok in H. destruct H as [m [Hm H]].
  apply mkMember_ok in Hm. destruct Hm as [Hnull Hm].
  inversion H. subst. clear H. split; [exact Hnull |].
  split; simpl; [exact Hm | apply or_default_spec].
Qed.

Lemma mkProperty_total (p : json) :
  is_null p = false -> exists x, mkProperty p = Ok x.
Proof.
  intros H. unfold mkProperty. destruct (mkMember_total p H) as [m Hm].
  rewrite Hm. simpl. eexists. reflexivity.
Qed.

Lemma mkEvent_ok (e : json) (x : IEvent.t) :
  mkEvent e = Ok x -> is_null e = false /\ event_defaulted e x.
Proof.
  unfold mkEvent. intros H. apply bind_ok in H. destruct H as [n [Hn H]].
  apply get_ok in Hn. destruct Hn as [Hnull ->].
  inversion H. subst. clear H. split; [exact Hnull |].
  split; simpl; [reflexivity |].
  constructor; simpl; apply or_default_spec.
Qed.

Lemma mkEvent_total (e : json) :
  is_null e = false -> exists x, mkEvent e = Ok x.
Proof.
  intros H. unfold mkEvent. rewrite (get_prop e _ H). simpl. eexists. reflexivity.
Qed.

Section MembersOf.

Variables (A : Type) (mk : json -> result A) (good : json -> A -> Prop).
Hypothesis mk_ok : forall x y, mk x = Ok y -> is_null x = false /\ good x y.
Hypothesis mk_total : forall x, is_null x = false -> exists y, mk x = Ok y.

Lemma members_of_ok (v : jsval) (l : list A) :
  members_of mk v = Ok l ->
  no_null_element v = true /\ Forall2 good (array_elements v) l
  /\ mapM mk (array_elements v) = Ok l.
Proof.
  unfold members_of, no_null_element, array_elements.
  assert (Hgen : forall js, mapM mk js = Ok l ->
            forallb (fun x => negb (is_null x)) js = true /\ Forall2 good js l).
  { intros js H. apply mapM_Forall2 in H.
    induction H as [| x y js l' Hxy _ [IH1 IH2]]; simpl.
    - split; [reflexivity | constructor].
    - destruct (mk_ok _ _ Hxy) as [Hn Hg]. rewrite Hn. simpl.
      split; [exact IH1 | constructor; assumption]. }
  destruct v as [[ | | | | js | ] |]; simpl; intros H;
    try (inversion H; subst; repeat split; constructor).
  destruct (Hgen js H). auto.
Qed.

Lemma members_of_total (v : jsval) :
  no_null_element v = true -> exists l, members_of mk v = Ok l.
Proof.
  unfold members_of, no_null_element, array_elements.
  destruct v as [[ | | | | js | ] |]; simpl; intros H;
    try (exists []; reflexivity).
  apply mapM_total. rewrite forallb_forall in H. apply Forall_forall.
  intros x Hx. apply mk_total. specialize (H x Hx).
  destruct (is_null x); [discriminate | reflexivity].
Qed.

End MembersOf.

Lemma mkClass_ok (item : json) (c : IClass.t) :
  mkClass item = Ok c ->
  class_defaulted item c
  /\ no_null_element (prop item "constructors") = true
  /\ no_null_element (prop item "properties") = true
  /\ no_null_element (prop item "methods") = true
  /\ no_null_element (prop item "events") = true.
Proof.
  unfold mkClass. intros H.
  apply bind_ok in H. destruct H as [ctors [H1 H]].
  apply bind_ok in H. destruct H as [props [H2 H]].
  apply bind_ok in H. destruct H as [meths [H3 H]].
  apply bind_ok in H. destruct H as [evts [H4 H]].
  inversion H. subst. clear H.
  apply (members_of_ok _ _ member_defaulted mkMember_ok) in H1, H3.
  apply (members_of_ok _ _ property_defaulted mkProperty_ok) in H2.
  apply (members_of_ok _ _ event_defaulted mkEvent_ok) in H4.
  destruct H1 as [N1 [F1 _]], H2 as [N2 [F2 _]], H3 as [N3 [F3 _]], H4 as [N4 [F4 _]].
  repeat split; simpl; try assumption; apply or_default_spec.
Qed.

Lemma mkClass_total (item : json) :
  no_null_element (prop item "constructors") = true ->
  no_null_element (prop item "properties") = true ->
  no_null_element (prop item "methods") = true ->
  no_null_element (prop item "events") = true ->
  exists c, mkClass item = Ok c.
Proof.
  intros N1 N2 N3 N4. unfold mkClass.
  destruct (members_of_total _ _ mkMember_total _ N1) as [l1 ->].
  destruct (members_of_total _ _ mkProperty_total _ N2) as [l2 ->].
  destruct (members_of_total _ _ mkMember_total _ N3) as [l3 ->].
  destruct (members_of_total _ _ mkEvent_total _ N4) as [l4 ->].
  simpl. eexists. reflexivity.
Qed.

Lemma mkModule_ok (item : json) (m : IModule.t) :
  mkModule item = Ok m ->
  module_defaulted item m
  /\ no_null_element (prop item "methods") = true
  /\ mapM mkMember (array_elements (prop item "methods")) = Ok (IModule.functions m).
Proof.
  unfold mkModule. intros H.
  apply bind_ok in H. destruct H as [funcs [H1 H]].
  inversion H. subst. clear H.
  apply (members_of_ok _ _ member_defaulted mkMember_ok) in H1.
  destruct H1 as [N1 [F1 M1]].
  repeat split; simpl; try assumption; apply or_default_spec.
Qed.

Lemma mkModule_total (item : json) :
  no_null_element (prop item "methods") = true -> exists m, mkModule item = Ok m.
Proof.
  intros N. unfold mkModule.
  destruct (members_of_total _ _ mkMember_total _ N) as [l ->].
  simpl. eexists. reflexivity.
Qed.

(** The callback of the loop, case by case. *)
Lemma normalizeItem_ok (item : json) (acc d : IData) :
  normalizeItem item acc = Ok d ->
  loadable item = true
  /\ if is_class_record item
     then exists c, mkClass item = Ok c
                    /\ classes d = classes acc ++ [c] /\ modules d = modules acc
     else exists m, mkModule item = Ok m
                    /\ classes d = classes acc /\ modules d = modules acc ++ [m].
Proof.
  unfold normalizeItem, loadable. intros H.
  apply bind_ok in H. destruct H as [b [Hb H]].
  apply isClass_spec in Hb. destruct Hb as [Hnull ->]. rewrite Hnull. simpl.
  destruct (is_class_record item).
  - apply bind_ok in H. destruct H as [c [Hc H]]. inversion H. subst. clear H. simpl.
    destruct (mkClass_ok _ _ Hc) as [_ [N1 [N2 [N3 N4]]]].
    rewrite N1, N2, N3, N4. split; [reflexivity |]. exists c. auto.
  - apply bind_ok in H. destruct H as [m [Hm H]]. inversion H. subst. clear H. simpl.
    destruct (mkModule_ok _ _ Hm) as [_ [N1 _]].
    split; [exact N1 |]. exists m. auto.
Qed.

Lemma normalizeItem_total (item : json) (acc : IData) :
  loadable item = true -> exists d, normalizeItem item acc = Ok d.
Proof.
  unfold loadable, normalizeItem. intros H.
  apply andb_true_iff in H. destruct H as [Hnull H].
  apply negb_true_iff in Hnull.
  assert (Hb : isClass item = Ok (is_class_record item)).
  { apply isClass_spec. auto. }
  rewrite Hb. simpl. destruct (is_class_record item).
  - repeat (apply andb_true_iff in H; destruct H as [H ?]).
    destruct (mkClass_total item) as [c ->]; try assumption.
    simpl. eexists. reflexivity.
  - destruct (mkModule_total item H) as [m ->]. simpl. eexists. reflexivity.
Qed.

Lemma forEach_normalizeItem (items : list json) :
  forall acc d,
    forEach normalizeItem items acc = Ok d ->
    forallb loadable items = true
    /\ exists cs ms,
        classes d = classes acc ++ cs /\ modules d = modules acc ++ ms
        /\ Forall2 (fun item c => mkClass item = Ok c) (filter is_class_record items) cs
        /\ Forall2 (fun item m => mkModule item = Ok m)
             (filter (fun item => negb (is_class_record item)) items) ms.
Proof.
  induction items as [| item items IH]; intros acc d H; simpl in H.
  - inversion H. subst. split; [reflexivity |].
    exists [], []. rewrite !app_nil_r. repeat split; constructor.
  - apply bind_ok in H. destruct H as [acc' [Hitem H]].
    apply normalizeItem_ok in Hitem. destruct Hitem as [Hload Hitem].
    apply IH in H. destruct H as [Hall [cs [ms [Hc [Hm [Fc Fm]]]]]].
    simpl. rewrite Hload, Hall. split; [reflexivity |].
    destruct (is_class_record item); simpl.
    + destruct Hitem as [c [Hmk [Ec Em]]].
      exists (c :: cs), ms. rewrite Hc, Hm, Ec, Em, <- app_assoc.
      repeat split; try assumption. constructor; assumption.
    + destruct Hitem as [m [Hmk [Ec Em]]].
      exists cs, (m :: ms). rewrite Hc, Hm, Ec, Em, <- app_assoc.
      repeat split; try assumption. constructor; assumption.
Qed.

Lemma forEach_total (items : list json) :
  forallb loadable items = true ->
  forall acc, exists d, forEach normalizeItem items acc = Ok d.
Proof.
  induction items as [| item items IH]; simpl; intros H acc.
  - exists acc. reflexivity.
  - apply andb_true_iff in H. destruct H as [H1 H2].
    destruct (normalizeItem_total item acc H1) as [acc' ->]. simpl.
    apply IH. exact H2.
Qed.

(** The normaliser returns exactly on the arrays of loadable elements. *)
Lemma normalize_returns (items : list json) :
  (exists d, normalize (JArr items) = Ok d) <-> forallb loadable items = true.
Proof.
  simpl. split.
  - intros [d H]. apply forEach_normalizeItem in H. apply H.
  - intros H. apply forEach_total. exact H.
Qed.

Lemma normalize_lists (items : list json) (d : IData) :
  normalize (JArr items) = Ok d ->
  Forall2 (fun item c => mkClass item = Ok c) (filter is_class_record items) (classes d)
  /\ Forall2 (fun item m => mkModule item = Ok m)
       (filter (fun item => negb (is_class_record item)) items) (modules d).
Proof.
  simpl. intros H. apply forEach_normalizeItem in H.
  destruct H as [_ [cs [ms [Hc [Hm [Fc Fm]]]]]].
  simpl in Hc, Hm. rewrite Hc, Hm. auto.
Qed.

Lemma Forall2_impl {A B : Type} (P Q : A -> B -> Prop) (l : list A) (l' : list B) :
  (forall x y, P x y -> Q x y) -> Forall2 P l l' -> Forall2 Q l l'.
Proof. intros H F. induction F; constructor; auto. Qed.

(** ** The loader: classification and defaults *)

(** C2. Of an array the normaliser returns on (one of loadable elements), the
    classes are the normalised elements that carry a [constructors] or an
    [events] field and the modules are the normalised other elements, each
    list in the order of the array; the test the code evaluates on an
    element is true exactly when the element carries one of the two
    fields, whatever the other elements and their names are. *)
Theorem classification_by_constructors_or_events (items : list json) :
  forallb loadable items = true ->
  exists d,
    normalize (JArr items) = Ok d
    /\ Forall2 (fun item c => mkClass item = Ok c /\ IClass.name c = prop item "name")
         (filter is_class_record items) (classes d)
    /\ Forall2 (fun item m => mkModule item = Ok m /\ IModule.name m = prop item "name")
         (filter (fun item => negb (is_class_record item)) items) (modules d)
    /\ forall item, In item items ->
         (isClass item = Ok true
          <-> carries item "constructors" = true \/ carries item "events" = true)
         /\ (isClass item = Ok false
             <-> carries item "constructors" = false /\ carries item "events" = false).
Proof.
  intros Hload.
  destruct (proj2 (normalize_returns items) Hload) as [d Hd].
  exists d. split; [exact Hd |].
  destruct (normalize_lists items d Hd) as [Fc Fm].
  split; [| split].
  - eapply Forall2_impl; [| exact Fc]. intros item c Hc. split; [exact Hc |].
    apply mkClass_ok in Hc. destruct Hc as [[Hn _ _ _ _ _ _] _]. exact Hn.
  - eapply Forall2_impl; [| exact Fm]. intros item m Hm. split; [exact Hm |].
    apply mkModule_ok in Hm. destruct Hm as [[Hn _ _] _]. exact Hn.
  - intros item Hin. rewrite forallb_forall in Hload. specialize (Hload item Hin).
    unfold loadable in Hload. apply andb_true_iff in Hload. destruct Hload as [Hnull _].
    apply negb_true_iff in Hnull. rewrite !isClass_spec. unfold is_class_record.
    destruct (carries item "constructors"), (carries item "events"); simpl;
      intuition congruence.
Qed.

Lemma classification_by_constructors_or_events_witness :
  forallb loadable same_name_records = true
  /\ exists d,
      normalize (JArr same_name_records) = Ok d
      /\ Forall2 (fun item c => mkClass item = Ok c /\ IClass.name c = prop item "name")
           (filter is_class_record same_name_records) (classes d)
      /\ Forall2 (fun item m => mkModule item = Ok m /\ IModule.name m = prop item "name")
           (filter (fun item => negb (is_class_record item)) same_name_records) (modules d)
      /\ forall item, In item same_name_records ->
           (isClass item = Ok true
            <-> carries item "constructors" = true \/ carries item "events" = true)
           /\ (isClass item = Ok false
               <-> carries item "constructors" = false /\ carries item "events" = false).
Proof.
  split; [reflexivity |].
  apply (classification_by_constructors_or_events same_name_records). reflexivity.
Defined.

(** The two records of one name go one to each list. *)
Example same_name_records_split :
  exists c m,
    normalize (JArr same_name_records) = Ok {| classes := [c]; modules := [m] |}
    /\ IClass.name c = str "stdShape" /\ IModule.name m = str "stdShape"
    /\ List.length (IModule.functions m) = 1%nat.
Proof. do 2 eexists. repeat split. Qed.

(** C3, as stated, fails: the normalised event of a well-formed class has
    no [returns] and no [throws], whatever the payload gave. *)
Lemma event_substructures_not_defaulted :
  exists c e,
    normalize (JArr [class_with_event]) = Ok {| classes := [c]; modules := [] |}
    /\ IClass.events c = [e]
    /\ object_returns (OfEvent e) = undefined
    /\ object_throws (OfEvent e) = undefined
    /\ no_field_undefined {| classes := [c]; modules := [] |} = false.
Proof. do 2 eexists. repeat split. Qed.

(** A record without a name keeps an undefined name. *)
Example name_is_not_defaulted :
  exists c,
    normalize (JArr [JObj [("constructors", JArr [])]])
    = Ok {| classes := [c]; modules := [] |}
    /\ IClass.name c = undefined.
Proof. eexists. split; reflexivity. Qed.

(** C3, amended. Of an array the normaliser returns on, every optional field
    of every class and module, and of every constructor, property, method
    and function, is defined: the field of the payload when that is truthy,
    else the empty list (list fields), the empty string (string fields),
    [false] (flags), [{type:'Variant', description:''}] ([returns]),
    [{status:false, message:''}] ([deprecation]) or ['ReadWrite'] ([access]).
    An event has its [params] and its other fields defaulted so, and carries
    no [returns] or [throws]. The name is copied as it is. *)
Theorem optional_fields_defaulted (items : list json) (d : IData) :
  normalize (JArr items) = Ok d ->
  Forall2 class_defaulted (filter is_class_record items) (classes d)
  /\ Forall2 module_defaulted
       (filter (fun item => negb (is_class_record item)) items) (modules d).
Proof.
  intros H. destruct (normalize_lists items d H) as [Fc Fm]. split.
  - eapply Forall2_impl; [| exact Fc]. intros item c Hc.
    apply mkClass_ok in Hc. apply Hc.
  - eapply Forall2_impl; [| exact Fm]. intros item m Hm.
    apply mkModule_ok in Hm. apply Hm.
Qed.

Lemma optional_fields_defaulted_witness :
  exists d,
    normalize (JArr [class_with_event]) = Ok d
    /\ Forall2 class_defaulted (filter is_class_record [class_with_event]) (classes d)
    /\ Forall2 module_defaulted
         (filter (fun item => negb (is_class_record item)) [class_with_event]) (modules d).
Proof.
  eexists. split; [reflexivity |].
  apply (optional_fields_defaulted [class_with_event]). reflexivity.
Defined.

(** ** The loader: the functions of a module *)



(** ** The navigator: the deep link *)

Lemma split_dot_dot_free (s : string) :
  dot_free s = true -> split_dot s = (s, []).
Proof.
  induction s as [| c s IH]; simpl; intros H.
  - reflexivity.
  - apply andb_true_iff in H. destruct H as [Hc Hs].
    rewrite (IH Hs). apply negb_true_iff in Hc. rewrite Hc. reflexivity.
Qed.

Lemma split_dot_item_member (itemName memberName : string) :
  dot_free itemName = true -> dot_free memberName = true ->
  split_dot (itemName ++ "." ++ memberName)%string = (itemName, [memberName]).
Proof.
  intros Hi Hm. induction itemName as [| c s IH]; simpl.
  - rewrite (split_dot_dot_free memberName Hm). reflexivity.
  - simpl in Hi. apply andb_true_iff in Hi. destruct Hi as [Hc Hs].
    simpl in IH. rewrite (IH Hs). apply negb_true_iff in Hc. rewrite Hc. reflexivity.
Qed.

Lemma mount_page (q : option string) :
  mount q = {| app := initial; requests := [docs_url]; timers := [] |}.
Proof.
  unfold mount, urlEffect. simpl.
  destruct q as [qs |]; [| reflexivity].
  rewrite andb_false_r. reflexivity.
Qed.

Lemma session_loaded (q : option string) (o : FetchOutcome) (d : IData) :
  load o = Ok d ->
  session q o = urlEffect q {| app := loaded d; requests := [docs_url]; timers := [] |}.
Proof.
  intros H. unfold session, fetchDocumentation. rewrite H, mount_page. reflexivity.
Qed.

Lemma session_failed (q : option string) (o : FetchOutcome) (e : exn) :
  load o = Throw e ->
  session q o
  = {| app := {| selectedItem := None; data := empty_data; loading := false;
                 error := Some error_message; devMode := false;
                 highlightedMember := None |};
       requests := [docs_url]; timers := [] |}.
Proof.
  intros H. unfold session, fetchDocumentation. rewrite H, mount_page. reflexivity.
Qed.

Lemma find_some_nonempty {A : Type} (f : A -> bool) (l : list A) (x : A) :
  find f l = Some x -> (0 <? List.length l)%nat = true.
Proof. destruct l; simpl; [discriminate | reflexivity]. Qed.

Lemma highlight_member_app (memberName : string) (p : Page) :
  app (highlight_member (Some memberName) p)
  = if String.eqb memberName "" then app p
    else setHighlightedMember (Some memberName) (app p).
Proof. unfold highlight_member. destruct (String.eqb memberName ""); reflexivity. Qed.

(** The effect on an arbitrary page, when the item is a class. *)
Lemma urlEffect_class (p : Page) (qs itemName : string) (rest : list string) (c : IClass.t) :
  qs <> "" ->
  split_dot qs = (itemName, rest) ->
  find_class (data (app p)) itemName = Some c ->
  urlEffect (Some qs) p
  = highlight_member (hd_error rest)
      (on_app (setSelectedItem (Some {| sel_type := ItemClass; sel_name := itemName |})) p).
Proof.
  intros Hq Hs Hc. unfold urlEffect. rewrite Hs, Hc.
  apply String.eqb_neq in Hq. rewrite Hq. simpl.
  unfold find_class in Hc. apply find_some_nonempty in Hc.
  destruct (classes (data (app p))); [discriminate | reflexivity].
Qed.

(** When it is no class, but a module. *)
Lemma urlEffect_module (p : Page) (qs itemName : string) (rest : list string) (m : IModule.t) :
  qs <> "" ->
  split_dot qs = (itemName, rest) ->
  find_class (data (app p)) itemName = None ->
  find_module (data (app p)) itemName = Some m ->
  urlEffect (Some qs) p
  = highlight_member (hd_error rest)
      (on_app (setSelectedItem (Some {| sel_type := ItemModule; sel_name := itemName |})) p).
Proof.
  intros Hq Hs Hc Hm. unfold urlEffect. rewrite Hs, Hc, Hm.
  apply String.eqb_neq in Hq. rewrite Hq. simpl.
  unfold find_module in Hm. apply find_some_nonempty in Hm.
  destruct (modules (data (app p))); [discriminate |].
  rewrite Nat.add_comm. reflexivity.
Qed.

(** When it is neither: the selection is left alone, and so is the
    highlight unless it is reset. *)
Lemma urlEffect_unknown (p : Page) (qs : string) :
  find_class (data (app p)) (fst (split_dot qs)) = None ->
  find_module (data (app p)) (fst (split_dot qs)) = None ->
  urlEffect (Some qs) p = p \/ urlEffect (Some qs) p = on_app (setHighlightedMember None) p.
Proof.
  intros Hc Hm. unfold urlEffect.
  destruct (negb (String.eqb qs "")
            && (0 <? List.length (classes (data (app p)))
                     + List.length (modules (data (app p))))%nat);
    [| right; reflexivity].
  destruct (split_dot qs) as [itemName rest]. simpl in Hc, Hm.
  rewrite Hc, Hm. left. reflexivity.
Qed.

Lemma append_dot_nonempty (itemName memberName : string) :
  (itemName ++ "." ++ memberName)%string <> "".
Proof. destruct itemName; discriminate. Qed.

Lemma find_class_name (d : IData) (n : string) (c : IClass.t) :
  find_class d n = Some c -> IClass.name c = str n /\ In c (classes d).
Proof.
  unfold find_class. intros H. apply find_some in H. destruct H as [Hin H].
  split; [| exact Hin]. unfold is_string in H.
  destruct (IClass.name c) as [[ | | | t | | ] |]; try discriminate.
  apply String.eqb_eq in H. subst. reflexivity.
Qed.

Lemma find_module_name (d : IData) (n : string) (m : IModule.t) :
  find_module d n = Some m -> IModule.name m = str n /\ In m (modules d).
Proof.
  unfold find_module. intros H. apply find_some in H. destruct H as [Hin H].
  split; [| exact Hin]. unfold is_string in H.
  destruct (IModule.name m) as [[ | | | t | | ] |]; try discriminate.
  apply String.eqb_eq in H. subst. reflexivity.
Qed.

(** What [renderContent] shows for a selection, once the document is there. *)
Lemma renderContent_selected (st : AppState) (i : Item) :
  loading st = false -> error st = None -> selected_item st = Some i ->
  renderContent st
  = (v <- renderItem (devMode st) (highlightedMember st) i ;; Ok (item_content i v)).
Proof.
  unfold renderContent, selected_item. intros -> -> H.
  destruct (selectedItem st) as [[[|] n] |]; [| | discriminate].
  - destruct (find_class (data st) n); inversion H. reflexivity.
  - destruct (find_module (data st) n); inversion H. reflexivity.
Qed.



(** ** The loader: failure *)

Lemma fetch_fails_throws (o : FetchOutcome) :
  fetch_fails o -> exists e, load o = Throw e.
Proof. intros H. destruct H; simpl; eexists; reflexivity. Qed.

(** An element the normaliser throws on fails the load the same way. *)
Example null_element_throws :
  load (Response true 200 (Some (JArr [class_with_event; JNull]))) = Throw TypeError.
Proof. reflexivity. Qed.

Lemma failed_closed_interaction (p p' : Page) :
  failed_closed p -> interaction p p' -> failed_closed p'.
Proof.
  intros [He [Hd [Hl [Hs Hr]]]] Hstep.
  destruct Hstep as [p | p c s Hin _ | p m s Hin _].
  - repeat split; assumption.
  - rewrite Hd in Hin. contradiction.
  - rewrite Hd in Hin. contradiction.
Qed.

Lemma session_failed_closed (q : option string) (o : FetchOutcome) (e : exn) :
  load o = Throw e -> failed_closed (session q o).
Proof. intros H. rewrite (session_failed q o e H). repeat split. Qed.

(** C7. When the request fails (rejected, status not OK, body not JSON), the
    one error message is set, the document stays empty, loading is over and
    the error view is rendered; one request has been sent, and whatever the
    user does next none is sent again. *)
Theorem failed_fetch_fails_closed (q : option string) (o : FetchOutcome) (p : Page) :
  fetch_fails o ->
  interactions (session q o) p ->
  error (app p) = Some error_message
  /\ data (app p) = empty_data
  /\ loading (app p) = false
  /\ requests p = [docs_url]
  /\ renderContent (app p) = Ok (ErrorView error_message).
Proof.
  intros Hfail Hsteps.
  assert (Hclosed : failed_closed p).
  { induction Hsteps as [| p' p'' _ IH Hstep].
    - destruct (fetch_fails_throws o Hfail) as [e He].
      apply (session_failed_closed q o e He).
    - apply (failed_closed_interaction p' p''); [exact IH | exact Hstep]. }
  destruct Hclosed as [He [Hd [Hl [_ Hr]]]].
  repeat split; try assumption.
  unfold renderContent. rewrite Hl, He. reflexivity.
Qed.

Lemma failed_fetch_fails_closed_witness :
  fetch_fails (Response false 404 None)
  /\ interactions (session (Some "Foo.Bar") (Response false 404 None))
       (on_app handleToggleMode (session (Some "Foo.Bar") (Response false 404 None)))
  /\ let p := on_app handleToggleMode (session (Some "Foo.Bar") (Response false 404 None)) in
     error (app p) = Some error_message
     /\ data (app p) = empty_data
     /\ loading (app p) = false
     /\ requests p = [docs_url]
     /\ renderContent (app p) = Ok (ErrorView error_message).
Proof.
  assert (Hfail : fetch_fails (Response false 404 None)) by constructor.
  assert (Hsteps : interactions (session (Some "Foo.Bar") (Response false 404 None))
                     (on_app handleToggleMode
                        (session (Some "Foo.Bar") (Response false 404 None)))).
  { eapply then_interaction; [apply no_interaction | apply toggle_mode]. }
  split; [exact Hfail |]. split; [exact Hsteps |].
  exact (failed_fetch_fails_closed (Some "Foo.Bar") (Response false 404 None) _
           Hfail Hsteps).
Defined.

(** ** The detail view and the outline *)

Lemma elementId_total (name : jsval) :
  name_is_string name = true -> exists id, elementId name = Ok id.
Proof.
  destruct name as [[ | | | s | | ] |]; simpl; intros H; try discriminate.
  eexists. reflexivity.
Qed.

Lemma elementId_string (name : jsval) (id : string) :
  elementId name = Ok id -> exists s, name = str s /\ id = detail_id s.
Proof.
  destruct name as [[ | | | s | | ] |]; simpl; intros H; try discriminate.
  inversion H. exists s. split; reflexivity.
Qed.

Section MemberComponents.

Variables (h : option string) (parentName : jsval).

Lemma mkMethodConstructorDetail_ok (m : IMember.t) (d : Detail) :
  mkMethodConstructorDetail h parentName m = Ok d ->
  renders h (IMember.name m) (IMember.isProtected m) d.
Proof.
  unfold mkMethodConstructorDetail. intros H. apply bind_ok in H.
  destruct H as [id [Hid H]]. inversion H. subst.
  apply elementId_string in Hid. repeat split; auto.
Qed.

Lemma mkPropertyDetail_ok (p : IProperty.t) (d : Detail) :
  mkPropertyDetail h parentName p = Ok d ->
  renders h (IMember.name (IProperty.member p)) (IMember.isProtected (IProperty.member p)) d.
Proof.
  unfold mkPropertyDetail. intros H. apply bind_ok in H.
  destruct H as [id [Hid H]]. inversion H. subst.
  apply elementId_string in Hid. repeat split; auto.
Qed.

Lemma mkEventDetail_ok (e : IEvent.t) (d : Detail) :
  mkEventDetail h parentName e = Ok d ->
  renders h (IEvent.name e) (IEvent.isProtected e) d.
Proof.
  unfold mkEventDetail. intros H. apply bind_ok in H.
  destruct H as [id [Hid H]]. inversion H. subst.
  apply elementId_string in Hid. repeat split; auto.
Qed.

Lemma mkFunctionDetail_ok (f : IMember.t) (d : Detail) :
  mkFunctionDetail h parentName f = Ok d ->
  renders h (IMember.name f) (IMember.isProtected f) d.
Proof.
  unfold mkFunctionDetail. intros H. apply bind_ok in H.
  destruct H as [id [Hid H]]. inversion H. subst.
  apply elementId_string in Hid. repeat split; auto.
Qed.

Lemma mkMethodConstructorDetail_total (m : IMember.t) :
  name_is_string (IMember.name m) = true ->
  exists d, mkMethodConstructorDetail h parentName m = Ok d.
Proof.
  intros H. unfold mkMethodConstructorDetail.
  destruct (elementId_total _ H) as [id ->]. eexists. reflexivity.
Qed.

Lemma mkPropertyDetail_total (p : IProperty.t) :
  name_is_string (IMember.name (IProperty.member p)) = true ->
  exists d, mkPropertyDetail h parentName p = Ok d.
Proof.
  intros H. unfold mkPropertyDetail.
  destruct (elementId_total _ H) as [id ->]. eexists. reflexivity.
Qed.

Lemma mkEventDetail_total (e : IEvent.t) :
  name_is_string (IEvent.name e) = true ->
  exists d, mkEventDetail h parentName e = Ok d.
Proof.
  intros H. unfold mkEventDetail.
  destruct (elementId_total _ H) as [id ->]. eexists. reflexivity.
Qed.

Lemma mkFunctionDetail_total (f : IMember.t) :
  name_is_string (IMember.name f) = true ->
  exists d, mkFunctionDetail h parentName f = Ok d.
Proof.
  intros H. unfold mkFunctionDetail.
  destruct (elementId_total _ H) as [id ->]. eexists. reflexivity.
Qed.

End MemberComponents.

(** One section of the detail view, in both modes. *)
Section OneSection.

Variables (A : Type) (name isProtected : A -> jsval) (h : option string).
Variables (mk : A -> result Detail) (id title : string).
Hypothesis mk_ok : forall x d, mk x = Ok d -> renders h (name x) (isProtected x) d.
Hypothesis mk_total : forall x, name_is_string (name x) = true -> exists d, mk x = Ok d.

Lemma renderSection_details (l : list A) (ss : list SectionView) :
  renderSection id title mk l = Ok ss -> mapM mk l = Ok (flat_map details ss).
Proof.
  unfold renderSection. destruct l as [| x l].
  - intros H. inversion H. reflexivity.
  - intros H. apply bind_ok in H. destruct H as [ds [Hds H]].
    inversion H. subst. simpl flat_map. rewrite app_nil_r. exact Hds.
Qed.

Lemma renderSection_total (l : list A) (ds : list Detail) :
  mapM mk l = Ok ds ->
  exists ss, renderSection id title mk l = Ok ss /\ flat_map details ss = ds.
Proof.
  unfold renderSection. destruct l as [| x l]; intros H.
  - simpl in H. inversion H. exists []. split; reflexivity.
  - rewrite H. simpl. eexists. split; [reflexivity |]. simpl. apply app_nil_r.
Qed.

Lemma mapM_mk_total (l : list A) :
  forallb (fun x => name_is_string (name x)) l = true -> exists ds, mapM mk l = Ok ds.
Proof.
  intros H. apply mapM_total. rewrite forallb_forall in H. apply Forall_forall.
  intros x Hx. apply mk_total. apply H. exact Hx.
Qed.

Lemma mk_public (x : A) (d : Detail) :
  mk x = Ok d -> is_public d = negb (truthy_val (isProtected x)).
Proof.
  intros H. apply mk_ok in H. destruct H as [_ [Hp _]].
  unfold is_public. rewrite Hp. reflexivity.
Qed.

(** In dev mode every member of the list is rendered; in user mode those
    of them that are public. *)
Lemma renderSection_modes (l : list A) :
  forallb (fun x => name_is_string (name x)) l = true ->
  exists ss ss',
    renderSection id title mk (visible isProtected true l) = Ok ss
    /\ renderSection id title mk (visible isProtected false l) = Ok ss'
    /\ mapM mk l = Ok (flat_map details ss)
    /\ flat_map details ss' = filter is_public (flat_map details ss).
Proof.
  intros H. destruct (mapM_mk_total l H) as [ds Hds].
  destruct (renderSection_total l ds Hds) as [ss [Hss Eds]].
  pose proof (mapM_filter mk (fun x => negb (truthy_val (isProtected x))) is_public
                l ds mk_public Hds) as Hfil.
  destruct (renderSection_total _ _ Hfil) as [ss' [Hss' Eds']].
  exists ss, ss'. unfold visible. rewrite Eds, Eds'. auto.
Qed.

End OneSection.

Lemma renderClass_modes (h : option string) (c : IClass.t) :
  member_names_are_strings (AClass c) = true ->
  exists vd vu,
    renderClass true h c = Ok vd
    /\ renderClass false h c = Ok vu
    /\ rendered_details vu = filter is_public (rendered_details vd)
    /\ same_frame vu vd
    /\ (devNotes vd = Some (IClass.devNotes c) /\ todos vd = Some (IClass.todos c))
    /\ (devNotes vu = None /\ todos vu = None).
Proof.
  simpl. intros H.
  apply andb_true_iff in H. destruct H as [H H4].
  apply andb_true_iff in H. destruct H as [H H3].
  apply andb_true_iff in H. destruct H as [H1 H2].
  destruct (renderSection_modes _ IMember.name IMember.isProtected h
              (mkMethodConstructorDetail h (IClass.name c))
              "constructors-section" "Constructors"
              (mkMethodConstructorDetail_ok h (IClass.name c))
              (mkMethodConstructorDetail_total h (IClass.name c))
              (IClass.constructors c) H1) as [s1 [s1' [E1 [E1' [_ F1]]]]].
  destruct (renderSection_modes _ (fun p => IMember.name (IProperty.member p))
              (fun p => IMember.isProtected (IProperty.member p)) h
              (mkPropertyDetail h (IClass.name c))
              "properties-section" "Properties"
              (mkPropertyDetail_ok h (IClass.name c))
              (mkPropertyDetail_total h (IClass.name c))
              (IClass.properties c) H2) as [s2 [s2' [E2 [E2' [_ F2]]]]].
  destruct (renderSection_modes _ IMember.name IMember.isProtected h
              (mkMethodConstructorDetail h (IClass.name c))
              "methods-section" "Methods"
              (mkMethodConstructorDetail_ok h (IClass.name c))
              (mkMethodConstructorDetail_total h (IClass.name c))
              (IClass.methods c) H3) as [s3 [s3' [E3 [E3' [_ F3]]]]].
  destruct (renderSection_modes _ IEvent.name IEvent.isProtected h
              (mkEventDetail h (IClass.name c))
              "events-section" "Events"
              (mkEventDetail_ok h (IClass.name c))
              (mkEventDetail_total h (IClass.name c))
              (IClass.events c) H4) as [s4 [s4' [E4 [E4' [_ F4]]]]].
  unfold renderClass. rewrite E1, E2, E3, E4, E1', E2', E3', E4'. simpl.
  do 2 eexists. split; [reflexivity |]. split; [reflexivity |].
  split; [| repeat split].
  unfold rendered_details. simpl.
  rewrite !flat_map_app, !filter_app, F1, F2, F3, F4. reflexivity.
Qed.

Lemma renderModule_modes (h : option string) (m : IModule.t) :
  member_names_are_strings (AModule m) = true ->
  exists vd vu,
    renderModule true h m = Ok vd
    /\ renderModule false h m = Ok vu
    /\ sections vu = sections vd
    /\ mapM (mkFunctionDetail h (IModule.name m)) (IModule.functions m)
       = Ok (rendered_details vd)
    /\ same_frame vu vd
    /\ (devNotes vd = Some (IModule.devNotes m) /\ todos vd = Some (IModule.todos m))
    /\ (devNotes vu = None /\ todos vu = None).
Proof.
  simpl. intros H.
  destruct (mapM_mk_total _ IMember.name (mkFunctionDetail h (IModule.name m))
              (mkFunctionDetail_total h (IModule.name m))
              (IModule.functions m) H) as [ds Hds].
  destruct (renderSection_total _ (mkFunctionDetail h (IModule.name m))
              "functions-section" "Functions" _ _ Hds) as [ss [Hss Eds]].
  unfold renderModule. rewrite Hss. simpl.
  do 2 eexists. split; [reflexivity |]. split; [reflexivity |].
  split; [reflexivity |]. split; [| repeat split].
  unfold rendered_details. simpl. rewrite Eds. exact Hds.
Qed.

(** The outline. *)

Lemma renderEntry_total (devMode : bool) (h : option string) (e : MembersEntry) :
  entry_name_is_string e = true -> exists i, renderEntry devMode h e = Ok i.
Proof.
  destruct e as [n id | t n o]; simpl; intros H.
  - eexists. reflexivity.
  - destruct (elementId_total n H) as [id ->]. eexists. reflexivity.
Qed.

(** A public entry is rendered alike in both modes. *)
Lemma renderEntry_public (h : option string) (e : MembersEntry) :
  entry_public e = true -> renderEntry true h e = renderEntry false h e.
Proof.
  destruct e as [n id | t n [o |]]; simpl; intros H; try reflexivity.
  - apply negb_true_iff in H. unfold isProtectedMember. rewrite H.
    destruct t; reflexivity.
  - unfold isProtectedMember. destruct t; reflexivity.
Qed.

Lemma renderEntry_item_public (devMode : bool) (h : option string)
    (e : MembersEntry) (i : OutlineItem) :
  renderEntry devMode h e = Ok i -> item_public i = entry_public e.
Proof.
  destruct e as [n id | t n o]; simpl; intros H.
  - inversion H. reflexivity.
  - apply bind_ok in H. destruct H as [id [_ H]]. inversion H. reflexivity.
Qed.

Lemma render_public_entries (h : option string) (es : list MembersEntry)
    (os : list OutlineItem) :
  mapM (renderEntry true h) es = Ok os ->
  mapM (renderEntry false h) (filter entry_public es) = Ok (filter item_public os).
Proof.
  intros H. apply mapM_Forall2 in H.
  induction H as [| e i es os Hei _ IH]; simpl.
  - reflexivity.
  - rewrite (renderEntry_item_public true h e i Hei).
    destruct (entry_public e) eqn:Hpub; simpl.
    + rewrite <- (renderEntry_public h e Hpub), Hei, IH. reflexivity.
    + exact IH.
Qed.

Section OutlineSection.

Variables (A : Type) (name isProtected : A -> jsval) (mk : A -> MembersEntry).
Variables (title id : string).
Hypothesis mk_public : forall x, entry_public (mk x) = negb (truthy_val (isProtected x)).
Hypothesis mk_name : forall x, entry_name_is_string (mk x) = name_is_string (name x).

Lemma map_mk_public (l : list A) :
  map mk (filter (fun x => negb (truthy_val (isProtected x))) l)
  = filter entry_public (map mk l).
Proof.
  induction l as [| y l IH]; simpl.
  - reflexivity.
  - rewrite mk_public. destruct (negb (truthy_val (isProtected y))); simpl;
      rewrite IH; reflexivity.
Qed.

Lemma pushSection_modes (l : list A) :
  pushSection title id mk l (visible isProtected false l)
  = filter entry_public (pushSection title id mk l (visible isProtected true l)).
Proof.
  unfold pushSection, visible. destruct l as [| x l]; [reflexivity |].
  rewrite map_mk_public. reflexivity.
Qed.

Lemma pushSection_names (l : list A) :
  forallb (fun x => name_is_string (name x)) l = true ->
  forallb entry_name_is_string (pushSection title id mk l (visible isProtected true l)) = true.
Proof.
  unfold pushSection, visible. intros H.
  assert (Hmap : forallb entry_name_is_string (map mk l) = true).
  { rewrite forallb_forall in *. intros e He.
    apply in_map_iff in He. destruct He as [y [<- Hy]]. rewrite mk_name. apply H. exact Hy. }
  destruct l as [| x l]; [reflexivity | exact Hmap].
Qed.

End OutlineSection.

Lemma filter_all {A : Type} (f : A -> bool) (l : list A) :
  forallb f l = true -> filter f l = l.
Proof.
  induction l as [| x l IH]; simpl; intros H; [reflexivity |].
  apply andb_true_iff in H. destruct H as [Hx Hl]. rewrite Hx, (IH Hl). reflexivity.
Qed.

Lemma filter_idempotent {A : Type} (f : A -> bool) (l : list A) :
  filter f (filter f l) = filter f l.
Proof.
  induction l as [| x l IH]; simpl; [reflexivity |].
  destruct (f x) eqn:Hx; simpl; [rewrite Hx, IH; reflexivity | exact IH].
Qed.

Lemma module_entries_public (m : IModule.t) :
  forallb entry_public (membersOfModule m) = true.
Proof.
  unfold membersOfModule, pushSection.
  destruct (IModule.functions m) as [| f l]; [reflexivity |].
  generalize (f :: l). intros l0. simpl. induction l0; simpl; auto.
Qed.

Lemma membersOf_modes (i : Item) :
  membersOf false i = filter entry_public (membersOf true i).
Proof.
  destruct i as [c | m]; simpl.
  - unfold membersOfClass. rewrite !filter_app.
    rewrite <- (pushSection_modes _ IMember.isProtected
                  (fun m => MemberEntry Constructor (IMember.name m) (Some (OfMember m))));
      [| reflexivity].
    rewrite <- (pushSection_modes _ (fun p => IMember.isProtected (IProperty.member p))
                  (fun p => MemberEntry Property (IMember.name (IProperty.member p))
                              (Some (OfProperty p))));
      [| reflexivity].
    rewrite <- (pushSection_modes _ IMember.isProtected
                  (fun m => MemberEntry Method (IMember.name m) (Some (OfMember m))));
      [| reflexivity].
    rewrite <- (pushSection_modes _ IEvent.isProtected
                  (fun e => MemberEntry Event (IEvent.name e) (Some (OfEvent e))));
      [| reflexivity].
    reflexivity.
  - symmetry. apply filter_all. apply module_entries_public.
Qed.

Lemma membersOf_names (i : Item) :
  member_names_are_strings i = true ->
  forallb entry_name_is_string (membersOf true i) = true.
Proof.
  destruct i as [c | m]; simpl; intros H.
  - apply andb_true_iff in H. destruct H as [H H4].
    apply andb_true_iff in H. destruct H as [H H3].
    apply andb_true_iff in H. destruct H as [H1 H2].
    unfold membersOfClass. rewrite !forallb_app.
    rewrite (pushSection_names _ IMember.name IMember.isProtected
               (fun m => MemberEntry Constructor (IMember.name m) (Some (OfMember m)))
               "Constructors" "constructors-section" (fun _ => eq_refl) _ H1).
    rewrite (pushSection_names _ (fun p => IMember.name (IProperty.member p))
               (fun p => IMember.isProtected (IProperty.member p))
               (fun p => MemberEntry Property (IMember.name (IProperty.member p))
                           (Some (OfProperty p)))
               "Properties" "properties-section" (fun _ => eq_refl) _ H2).
    rewrite (pushSection_names _ IMember.name IMember.isProtected
               (fun m => MemberEntry Method (IMember.name m) (Some (OfMember m)))
               "Methods" "methods-section" (fun _ => eq_refl) _ H3).
    rewrite (pushSection_names _ IEvent.name IEvent.isProtected
               (fun e => MemberEntry Event (IEvent.name e) (Some (OfEvent e)))
               "Events" "events-section" (fun _ => eq_refl) _ H4).
    reflexivity.
  - exact (pushSection_names _ IMember.name (fun _ => undefined)
             (fun f => MemberEntry Function (IMember.name f) None)
             "Functions" "functions-section" (fun _ => eq_refl) _ H).
Qed.

(** The outline of user mode is the outline of dev mode without its
    protected members. *)
Lemma outline_modes (h : option string) (i : Item) :
  member_names_are_strings i = true ->
  exists od ou,
    OnThisPagePanel (Some i) true h = Ok (Some od)
    /\ OnThisPagePanel (Some i) false h = Ok (Some ou)
    /\ ou = filter item_public od.
Proof.
  intros H. unfold OnThisPagePanel.
  assert (Htotal : exists od, mapM (renderEntry true h) (membersOf true i) = Ok od).
  { apply mapM_total. pose proof (membersOf_names i H) as Hn.
    rewrite forallb_forall in Hn. apply Forall_forall.
    intros e He. apply renderEntry_total. apply Hn. exact He. }
  destruct Htotal as [od Hod].
  pose proof (render_public_entries h _ _ Hod) as Hou.
  rewrite <- membersOf_modes in Hou. rewrite Hod, Hou. simpl.
  do 2 eexists. repeat split.
Qed.

Lemma renderItem_modes (h : option string) (i : Item) :
  member_names_are_strings i = true ->
  exists vd vu,
    renderItem true h i = Ok vd
    /\ renderItem false h i = Ok vu
    /\ filter is_public (rendered_details vu) = filter is_public (rendered_details vd)
    /\ same_frame vu vd
    /\ (devNotes vd <> None /\ todos vd <> None)
    /\ (devNotes vu = None /\ todos vu = None).
Proof.
  intros H. destruct i as [c | m].
  - destruct (renderClass_modes h c H) as [vd [vu [Ed [Eu [F [S [[D1 D2] U]]]]]]].
    exists vd, vu. simpl. rewrite F, filter_idempotent, D1, D2.
    split; [exact Ed |]. split; [exact Eu |]. split; [reflexivity |].
    split; [exact S |]. split; [split; discriminate | exact U].
  - destruct (renderModule_modes h m H) as [vd [vu [Ed [Eu [F [_ [S [[D1 D2] U]]]]]]]].
    exists vd, vu. simpl. unfold rendered_details. rewrite F, D1, D2.
    split; [exact Ed |]. split; [exact Eu |]. split; [reflexivity |].
    split; [exact S |]. split; [split; discriminate | exact U].
Qed.

Lemma same_frame_sym (v v' : ItemView) : same_frame v v' -> same_frame v' v.
Proof. unfold same_frame. intuition congruence. Qed.

(** ** Dev mode and user mode *)

(** C4. For a selected item whose member names are strings, the detail view
    and the outline are rendered in both modes; toggling the mode leaves the
    rendered public members the same, in the detail view and in the
    outline (so their number too), leaves the title, description, remarks,
    examples, implements and requires the same, and shows the dev notes and
    TODOs of the item in dev mode only. *)
Theorem mode_toggle_keeps_public_members (st : AppState) (i : Item) :
  loading st = false -> error st = None ->
  selected_item st = Some i ->
  member_names_are_strings i = true ->
  let st' := handleToggleMode st in
  exists v v' o o',
    renderContent st = Ok (item_content i v)
    /\ renderContent st' = Ok (item_content i v')
    /\ filter is_public (rendered_details v) = filter is_public (rendered_details v')
    /\ same_frame v v'
    /\ (if devMode st then shows_dev_notes v /\ hides_dev_notes v'
        else hides_dev_notes v /\ shows_dev_notes v')
    /\ OnThisPagePanel (selected_item st) (devMode st) (highlightedMember st) = Ok (Some o)
    /\ OnThisPagePanel (selected_item st') (devMode st') (highlightedMember st')
       = Ok (Some o')
    /\ filter item_public o = filter item_public o'.
Proof.
  intros Hl He Hsel Hnames st'.
  assert (Hsel' : selected_item st' = Some i) by exact Hsel.
  destruct (renderItem_modes (highlightedMember st) i Hnames)
    as [vd [vu [Ed [Eu [F [S [Dd Du]]]]]]].
  destruct (outline_modes (highlightedMember st) i Hnames) as [od [ou [Od [Ou Eo]]]].
  assert (Fo : filter item_public ou = filter item_public od).
  { rewrite Eo. apply filter_idempotent. }
  rewrite (renderContent_selected st i Hl He Hsel).
  rewrite (renderContent_selected st' i Hl He Hsel').
  rewrite Hsel, Hsel'. unfold st'. simpl.
  destruct (devMode st); simpl.
  - exists vd, vu, od, ou. rewrite Ed, Eu. simpl.
    split; [reflexivity |]. split; [reflexivity |].
    split; [symmetry; exact F |]. split; [apply same_frame_sym; exact S |].
    split; [split; assumption |].
    split; [exact Od |]. split; [exact Ou |]. symmetry. exact Fo.
  - exists vu, vd, ou, od. rewrite Ed, Eu. simpl.
    split; [reflexivity |]. split; [reflexivity |].
    split; [exact F |]. split; [exact S |].
    split; [split; assumption |].
    split; [exact Ou |]. split; [exact Od |]. exact Fo.
Qed.

Lemma mode_toggle_keeps_public_members_witness :
  let st := app (session (Some "Foo") (Response true 200 (Some mixed_document))) in
  exists i,
    loading st = false /\ error st = None
    /\ selected_item st = Some i
    /\ member_names_are_strings i = true
    /\ let st' := handleToggleMode st in
       exists v v' o o',
         renderContent st = Ok (item_content i v)
         /\ renderContent st' = Ok (item_content i v')
         /\ filter is_public (rendered_details v) = filter is_public (rendered_details v')
         /\ same_frame v v'
         /\ (if devMode st then shows_dev_notes v /\ hides_dev_notes v'
             else hides_dev_notes v /\ shows_dev_notes v')
         /\ OnThisPagePanel (selected_item st) (devMode st) (highlightedMember st)
            = Ok (Some o)
         /\ OnThisPagePanel (selected_item st') (devMode st') (highlightedMember st')
            = Ok (Some o')
         /\ filter item_public o = filter item_public o'.
Proof.
  intros st. eexists.
  split; [reflexivity |]. split; [reflexivity |]. split; [reflexivity |].
  split; [reflexivity |].
  apply (mode_toggle_keeps_public_members st); reflexivity.
Defined.

(** Why the names have to be strings: a protected method without a name is
    left out in user mode and breaks the rendering of dev mode. *)
Example nameless_protected_member :
  exists c v,
    normalize (JArr [ JObj [("name", JStr "Foo"); ("constructors", JArr []);
                            ("methods", JArr [bar_method;
                                              JObj [("isProtected", JBool true)]])] ])
    = Ok {| classes := [c]; modules := [] |}
    /\ renderClass false None c = Ok v
    /\ map detail_name (rendered_details v) = [str "Bar"]
    /\ renderClass true None c = Throw TypeError.
Proof. do 2 eexists. repeat split. Qed.

(** The run: user mode shows [Bar] alone, dev mode [Bar] and [Secret]. *)
Example mixed_document_modes :
  let st := app (session (Some "Foo") (Response true 200 (Some mixed_document))) in
  exists v v',
    renderContent st = Ok (ClassView v)
    /\ renderContent (handleToggleMode st) = Ok (ClassView v')
    /\ map detail_name (rendered_details v) = [str "Bar"]
    /\ map detail_name (rendered_details v') = [str "Bar"; str "Secret"]
    /\ devNotes v = None
    /\ devNotes v' = Some (Some (JArr [JStr "internal"])).
Proof. do 2 eexists. repeat split. Qed.

(** ** The functions of a module are never filtered *)

Lemma mapM_ext_in {A B : Type} (f g : A -> result B) (l : list A) :
  (forall x, In x l -> f x = g x) -> mapM f l = mapM g l.
Proof.
  induction l as [| x l IH]; simpl; intros H; [reflexivity |].
  rewrite (H x (or_introl eq_refl)), IH; [reflexivity |].
  intros y Hy. apply H. right. exact Hy.
Qed.

Lemma outline_names_rendered (devMode : bool) (h : option string)
    (es : list MembersEntry) (o : list OutlineItem) :
  mapM (renderEntry devMode h) es = Ok o -> outline_names o = entry_names es.
Proof.
  intros H. apply mapM_Forall2 in H.
  induction H as [| e i es o Hei _ IH]; [reflexivity |].
  change (outline_names (i :: o))
    with ((match i with
           | MemberItem e0 _ _ _ _ => entry_names [e0]
           | HeaderItem _ _ => []
           end) ++ outline_names o).
  change (entry_names (e :: es))
    with ((match e with
           | MemberEntry _ n _ => [n]
           | HeaderEntry _ _ => []
           end) ++ entry_names es).
  rewrite IH. f_equal.
  destruct e as [n id | t n mo]; simpl in Hei.
  - inversion Hei. reflexivity.
  - apply bind_ok in Hei. destruct Hei as [id [_ Hei]]. inversion Hei. reflexivity.
Qed.

Lemma module_entry_names (m : IModule.t) :
  entry_names (membersOfModule m) = map IMember.name (IModule.functions m).
Proof.
  unfold membersOfModule, pushSection, entry_names.
  destruct (IModule.functions m) as [| f l]; [reflexivity |].
  generalize (f :: l). intros l0. simpl.
  induction l0 as [| x l0 IH]; simpl; [reflexivity | rewrite IH; reflexivity].
Qed.

Lemma outline_module_any_mode (devMode : bool) (h : option string) (m : IModule.t) :
  OnThisPagePanel (Some (AModule m)) devMode h
  = OnThisPagePanel (Some (AModule m)) false h.
Proof.
  unfold OnThisPagePanel. simpl.
  rewrite (mapM_ext_in (renderEntry devMode h) (renderEntry false h)); [reflexivity |].
  intros e He. destruct devMode; [| reflexivity].
  apply renderEntry_public.
  pose proof (module_entries_public m) as Hp. rewrite forallb_forall in Hp.
  apply Hp. exact He.
Qed.

(** In user mode a section holds public members only. *)
Lemma user_section_public {A : Type} (isProtected : A -> jsval) (mk : A -> result Detail)
    (id title : string) (l : list A) (ss : list SectionView) :
  (forall x d, mk x = Ok d -> is_public d = negb (truthy_val (isProtected x))) ->
  renderSection id title mk (visible isProtected false l) = Ok ss ->
  forallb is_public (flat_map details ss) = true.
Proof.
  intros Hpub H. apply renderSection_details in H. apply mapM_Forall2 in H.
  unfold visible in H. apply forallb_forall. intros d Hd.
  remember (filter (fun m => negb (truthy_val (isProtected m))) l) as l' eqn:El.
  assert (Hall : forall x, In x l' -> negb (truthy_val (isProtected x)) = true).
  { intros x Hx. rewrite El in Hx. apply filter_In in Hx. apply Hx. }
  clear El. induction H as [| x y l' ds Hxy _ IH]; [contradiction |].
  destruct Hd as [<- | Hd].
  - rewrite (Hpub x y Hxy). apply Hall. left. reflexivity.
  - apply IH; [exact Hd |]. intros z Hz. apply Hall. right. exact Hz.
Qed.

Lemma user_mode_details_public (h : option string) (c : IClass.t) (v : ItemView) :
  renderClass false h c = Ok v -> forallb is_public (rendered_details v) = true.
Proof.
  unfold renderClass. intros H.
  apply bind_ok in H. destruct H as [s1 [H1 H]].
  apply bind_ok in H. destruct H as [s2 [H2 H]].
  apply bind_ok in H. destruct H as [s3 [H3 H]].
  apply bind_ok in H. destruct H as [s4 [H4 H]].
  inversion H. subst. clear H. unfold rendered_details. simpl.
  rewrite !flat_map_app, !forallb_app.
  rewrite (user_section_public IMember.isProtected _ _ _ _ _
             (mk_public _ IMember.name IMember.isProtected h _
                (mkMethodConstructorDetail_ok h (IClass.name c))) H1).
  rewrite (user_section_public (fun p => IMember.isProtected (IProperty.member p)) _ _ _ _ _
             (mk_public _ (fun p => IMember.name (IProperty.member p))
                (fun p => IMember.isProtected (IProperty.member p)) h _
                (mkPropertyDetail_ok h (IClass.name c))) H2).
  rewrite (user_section_public IMember.isProtected _ _ _ _ _
             (mk_public _ IMember.name IMember.isProtected h _
                (mkMethodConstructorDetail_ok h (IClass.name c))) H3).
  rewrite (user_section_public IEvent.isProtected _ _ _ _ _
             (mk_public _ IEvent.name IEvent.isProtected h _
                (mkEventDetail_ok h (IClass.name c))) H4).
  reflexivity.
Qed.

(** C10. For a module whose function names are strings, the detail view has
    the same sections in both modes, with every function of the module in
    order, protected or not; the outline is the same in both modes and
    lists every function; whereas the user-mode view of a class holds
    public members only. *)
Theorem module_functions_never_filtered (h : option string) (m : IModule.t) :
  member_names_are_strings (AModule m) = true ->
  exists v o,
    (forall devMode, exists v',
        renderModule devMode h m = Ok v' /\ sections v' = sections v)
    /\ Forall2 (fun f d => mkFunctionDetail h (IModule.name m) f = Ok d)
         (IModule.functions m) (rendered_details v)
    /\ map detail_name (rendered_details v) = map IMember.name (IModule.functions m)
    /\ (forall devMode, OnThisPagePanel (Some (AModule m)) devMode h = Ok (Some o))
    /\ outline_names o = map IMember.name (IModule.functions m)
    /\ (forall c vu, renderClass false h c = Ok vu ->
          forallb is_public (rendered_details vu) = true).
Proof.
  intros H.
  destruct (renderModule_modes h m H) as [vd [vu [Ed [Eu [Es [Hds _]]]]]].
  destruct (outline_modes h (AModule m) H) as [od [ou [Od [Ou _]]]].
  exists vd, ou.
  assert (HF : Forall2 (fun f d => mkFunctionDetail h (IModule.name m) f = Ok d)
                 (IModule.functions m) (rendered_details vd)).
  { apply mapM_Forall2. exact Hds. }
  split; [| split; [exact HF | split; [| split; [| split]]]].
  - intros [|]; [exists vd | exists vu]; auto.
  - clear Hds. induction HF as [| f d fs ds Hfd _ IH]; [reflexivity |].
    simpl. rewrite IH. f_equal.
    apply mkFunctionDetail_ok in Hfd. apply Hfd.
  - intros devMode. rewrite outline_module_any_mode. exact Ou.
  - unfold OnThisPagePanel in Ou. simpl in Ou.
    apply bind_ok in Ou. destruct Ou as [l [Hl Ou]]. inversion Ou. subst.
    rewrite (outline_names_rendered false h _ _ Hl). apply module_entry_names.
  - intros c v. apply user_mode_details_public.
Qed.

Lemma module_functions_never_filtered_witness :
  exists m,
    find_module (data (app (session None (Response true 200 (Some mixed_document)))))
      "Tools" = Some m
    /\ member_names_are_strings (AModule m) = true
    /\ exists v o,
        (forall devMode, exists v',
            renderModule devMode None m = Ok v' /\ sections v' = sections v)
        /\ Forall2 (fun f d => mkFunctionDetail None (IModule.name m) f = Ok d)
             (IModule.functions m) (rendered_details v)
        /\ map detail_name (rendered_details v) = map IMember.name (IModule.functions m)
        /\ (forall devMode, OnThisPagePanel (Some (AModule m)) devMode None = Ok (Some o))
        /\ outline_names o = map IMember.name (IModule.functions m)
        /\ (forall c vu, renderClass false None c = Ok vu ->
              forallb is_public (rendered_details vu) = true).
Proof.
  eexists. split; [reflexivity |]. split; [reflexivity |].
  apply (module_functions_never_filtered None). reflexivity.
Defined.

(** The run: the protected function [Helper] is shown in user mode. *)
Example tools_in_user_mode :
  exists v,
    renderContent (app (session (Some "Tools") (Response true 200 (Some mixed_document))))
    = Ok (ModuleView v)
    /\ map detail_name (rendered_details v) = [str "Helper"; str "Bar"]
    /\ map is_public (rendered_details v) = [false; true].
Proof. eexists. repeat split. Qed.

(** ** Members of one name *)

Lemma find_first {A : Type} (f : A -> bool) (l : list A) (x : A) :
  find f l = Some x ->
  exists before after,
    l = before ++ x :: after /\ f x = true /\ Forall (fun y => f y = false) before.
Proof.
  induction l as [| y l IH]; simpl; [discriminate |].
  destruct (f y) eqn:Hy; intros H.
  - inversion H. subst. exists [], l. repeat split; [exact Hy | constructor].
  - destruct (IH H) as [before [after [El [Hx Hb]]]].
    exists (y :: before), after. rewrite El. repeat split; [exact Hx |].
    constructor; assumption.
Qed.

Lemma strict_eq_string (h : option string) (s : string) :
  strict_eq h (str s) = true <-> h = Some s.
Proof.
  destruct h as [t |]; simpl; [| split; discriminate].
  rewrite String.eqb_eq. split; intros H; [subst; reflexivity | inversion H; reflexivity].
Qed.

(** Each member component of a rendered section is highlighted exactly when
    its name is the highlighted one. *)
Lemma section_highlights {A : Type} (name isProtected : A -> jsval) (h : option string)
    (mk : A -> result Detail) (id title : string) (l : list A) (ss : list SectionView) :
  (forall x d, mk x = Ok d -> renders h (name x) (isProtected x) d) ->
  renderSection id title mk l = Ok ss ->
  Forall (fun d => detail_highlight d = true <-> exists s, h = Some s /\ detail_name d = str s)
    (flat_map details ss).
Proof.
  intros Hok H. apply renderSection_details in H. apply mapM_Forall2 in H.
  induction H as [| x d l ds Hxd _ IH]; constructor; [| exact IH].
  destruct (Hok x d Hxd) as [Hn [_ [[s [Es _]] Hh]]].
  rewrite Hh, Hn, Es, strict_eq_string. split.
  - intros ->. exists s. split; reflexivity.
  - intros [t [-> Et]]. inversion Et. reflexivity.
Qed.

Lemma details_highlights (devMode : bool) (h : option string) (i : Item) (v : ItemView) :
  renderItem devMode h i = Ok v ->
  Forall (fun d => detail_highlight d = true <-> exists s, h = Some s /\ detail_name d = str s)
    (rendered_details v).
Proof.
  destruct i as [c | m]; simpl; intros H.
  - unfold renderClass in H.
    apply bind_ok in H. destruct H as [s1 [H1 H]].
    apply bind_ok in H. destruct H as [s2 [H2 H]].
    apply bind_ok in H. destruct H as [s3 [H3 H]].
    apply bind_ok in H. destruct H as [s4 [H4 H]].
    inversion H. subst. clear H. unfold rendered_details. simpl.
    rewrite !flat_map_app, !Forall_app. split; [| split; [| split]].
    + exact (section_highlights IMember.name IMember.isProtected h _ _ _ _ _
               (mkMethodConstructorDetail_ok h (IClass.name c)) H1).
    + exact (section_highlights (fun p => IMember.name (IProperty.member p))
               (fun p => IMember.isProtected (IProperty.member p)) h _ _ _ _ _
               (mkPropertyDetail_ok h (IClass.name c)) H2).
    + exact (section_highlights IMember.name IMember.isProtected h _ _ _ _ _
               (mkMethodConstructorDetail_ok h (IClass.name c)) H3).
    + exact (section_highlights IEvent.name IEvent.isProtected h _ _ _ _ _
               (mkEventDetail_ok h (IClass.name c)) H4).
  - unfold renderModule in H.
    apply bind_ok in H. destruct H as [s [H1 H]].
    inversion H. subst. clear H. unfold rendered_details. simpl.
    exact (section_highlights IMember.name IMember.isProtected h _ _ _ _ _
             (mkFunctionDetail_ok h (IModule.name m)) H1).
Qed.

Lemma outline_highlight_spec (h : option string) (n : jsval) :
  outline_highlight h n = true <-> exists s, h = Some s /\ s <> "" /\ n = str s.
Proof.
  unfold outline_highlight, is_string. destruct h as [t |].
  - rewrite andb_true_iff, negb_true_iff, String.eqb_neq. split.
    + intros [Hne Hn]. exists t.
      destruct n as [[ | | | s | | ] |]; try discriminate.
      apply String.eqb_eq in Hn. subst. auto.
    + intros [s [Hs [Hne ->]]]. inversion Hs. subst.
      split; [exact Hne | apply String.eqb_refl].
  - split; [discriminate | intros [s [Hs _]]; discriminate].
Qed.

(** The first element of a list that satisfies [f] is what [find f] gives. *)
Lemma find_split {A : Type} (f : A -> bool) (l before after : list A) (x : A) :
  l = before ++ x :: after -> f x = true -> Forall (fun y => f y = false) before ->
  find f l = Some x.
Proof.
  intros -> Hx Hb. induction Hb as [| y before Hy _ IH]; simpl.
  - rewrite Hx. reflexivity.
  - rewrite Hy. exact IH.
Qed.

Lemma find_nowhere {A : Type} (f : A -> bool) (l : list A) :
  Forall (fun y => f y = false) l -> find f l = None.
Proof.
  intros H. induction H as [| y l Hy _ IH]; simpl; [reflexivity |].
  rewrite Hy. exact IH.
Qed.

Lemma is_string_spec (v : jsval) (s : string) : is_string v s = true <-> v = str s.
Proof.
  unfold is_string, str. destruct v as [[ | | | t | | ] |];
    try (split; [discriminate | intros H; inversion H]).
  rewrite String.eqb_eq. split; intros H; [subst; reflexivity | inversion H; reflexivity].
Qed.

Lemma is_string_other (v : jsval) (s : string) : v <> str s -> is_string v s = false.
Proof.
  intros H. destruct (is_string v s) eqn:E; [| reflexivity].
  apply is_string_spec in E. contradiction.
Qed.

Lemma named_others {A : Type} (name : A -> jsval) (s : string) (l : list A) :
  Forall (fun x => name x <> str s) l ->
  Forall (fun x => is_string (name x) s = false) l.
Proof.
  intros H. induction H as [| x l Hx _ IH]; constructor; [| exact IH].
  apply is_string_other. exact Hx.
Qed.

(** The lookup of the deep link, in terms of the document: the first class
    of the name is the class found, and with no class of the name the
    first module of the name is the module found. *)
Lemma first_class_found (d : IData) (n : string) (before after : list IClass.t)
    (c : IClass.t) :
  classes d = before ++ c :: after -> IClass.name c = str n ->
  Forall (fun c' => IClass.name c' <> str n) before ->
  find_class d n = Some c.
Proof.
  intros Hl Hc Hb. unfold find_class.
  apply (find_split _ _ before after c Hl).
  - apply is_string_spec. exact Hc.
  - apply named_others. exact Hb.
Qed.

Lemma no_class_found (d : IData) (n : string) :
  Forall (fun c => IClass.name c <> str n) (classes d) -> find_class d n = None.
Proof.
  intros H. unfold find_class. apply find_nowhere. apply named_others. exact H.
Qed.

Lemma first_module_found (d : IData) (n : string) (before after : list IModule.t)
    (m : IModule.t) :
  modules d = before ++ m :: after -> IModule.name m = str n ->
  Forall (fun m' => IModule.name m' <> str n) before ->
  find_module d n = Some m.
Proof.
  intros Hl Hm Hb. unfold find_module.
  apply (find_split _ _ before after m Hl).
  - apply is_string_spec. exact Hm.
  - apply named_others. exact Hb.
Qed.

(** Each element of the list a section is rendered from has its
    component in the section. *)
Lemma section_shows {A : Type} (mk : A -> result Detail) (id title : string)
    (l : list A) (ss : list SectionView) (x : A) :
  renderSection id title mk l = Ok ss -> In x l ->
  exists d, In d (flat_map details ss) /\ mk x = Ok d.
Proof.
  intros H Hin. apply renderSection_details in H. apply mapM_Forall2 in H.
  induction H as [| y d l ds Hyd _ IH]; [contradiction |].
  destruct Hin as [-> | Hin].
  - exists d. split; [left; reflexivity | exact Hyd].
  - destruct (IH Hin) as [d' [Hd' Hx]]. exists d'. split; [right; exact Hd' | exact Hx].
Qed.

Lemma section_shows_public {A : Type} (name isProtected : A -> jsval) (h : option string)
    (mk : A -> result Detail) (id title : string) (devMode : bool)
    (l : list A) (ss : list SectionView) (x : A) :
  (forall y d, mk y = Ok d -> renders h (name y) (isProtected y) d) ->
  renderSection id title mk (visible isProtected devMode l) = Ok ss ->
  In x l -> truthy_val (isProtected x) = false ->
  exists d, In d (flat_map details ss)
            /\ detail_name d = name x /\ detail_highlight d = strict_eq h (name x).
Proof.
  intros Hok H Hin Hpub.
  assert (Hvis : In x (visible isProtected devMode l)).
  { unfold visible. destruct devMode; [exact Hin |].
    apply filter_In. split; [exact Hin |]. rewrite Hpub. reflexivity. }
  destruct (section_shows _ _ _ _ _ _ H Hvis) as [d [Hd Hx]].
  exists d. split; [exact Hd |].
  destruct (Hok x d Hx) as [Hn [_ [_ Hh]]]. split; assumption.
Qed.

(** Every member of the item that user mode is to show has its component
    in the view, highlighted when its name is the highlighted one. *)
Lemma shown_members_rendered (h : option string) (i : Item) (v : ItemView) (n : jsval) :
  renderItem false h i = Ok v ->
  In n (shown_in_user_mode i) ->
  exists x, In x (rendered_details v)
            /\ detail_name x = n /\ detail_highlight x = strict_eq h n.
Proof.
  destruct i as [c | m]; simpl; intros H Hn.
  - apply in_map_iff in Hn. destruct Hn as [o [<- Ho]].
    apply filter_In in Ho. destruct Ho as [Ho Hpub].
    apply negb_true_iff in Hpub.
    unfold renderClass in H.
    apply bind_ok in H. destruct H as [s1 [H1 H]].
    apply bind_ok in H. destruct H as [s2 [H2 H]].
    apply bind_ok in H. destruct H as [s3 [H3 H]].
    apply bind_ok in H. destruct H as [s4 [H4 H]].
    inversion H. subst. clear H. unfold rendered_details. simpl sections.
    rewrite !flat_map_app.
    unfold class_members in Ho.
    apply in_app_or in Ho. destruct Ho as [Ho | Ho];
      [| apply in_app_or in Ho; destruct Ho as [Ho | Ho];
         [| apply in_app_or in Ho; destruct Ho as [Ho | Ho]]];
      apply in_map_iff in Ho; destruct Ho as [y [<- Hy]]; simpl in Hpub |- *.
    + destruct (section_shows_public IMember.name IMember.isProtected h _ _ _ _ _ _ y
                  (mkMethodConstructorDetail_ok h (IClass.name c)) H1 Hy Hpub)
        as [x [Hx Hr]].
      exists x. split; [| exact Hr]. apply in_or_app. left. exact Hx.
    + destruct (section_shows_public (fun p => IMember.name (IProperty.member p))
                  (fun p => IMember.isProtected (IProperty.member p)) h _ _ _ _ _ _ y
                  (mkPropertyDetail_ok h (IClass.name c)) H2 Hy Hpub)
        as [x [Hx Hr]].
      exists x. split; [| exact Hr].
      apply in_or_app. right. apply in_or_app. left. exact Hx.
    + destruct (section_shows_public IMember.name IMember.isProtected h _ _ _ _ _ _ y
                  (mkMethodConstructorDetail_ok h (IClass.name c)) H3 Hy Hpub)
        as [x [Hx Hr]].
      exists x. split; [| exact Hr].
      apply in_or_app. right. apply in_or_app. right. apply in_or_app. left. exact Hx.
    + destruct (section_shows_public IEvent.name IEvent.isProtected h _ _ _ _ _ _ y
                  (mkEventDetail_ok h (IClass.name c)) H4 Hy Hpub)
        as [x [Hx Hr]].
      exists x. split; [| exact Hr].
      apply in_or_app. right. apply in_or_app. right. apply in_or_app. right. exact Hx.
  - apply in_map_iff in Hn. destruct Hn as [f [<- Hf]].
    unfold renderModule in H.
    apply bind_ok in H. destruct H as [s [H1 H]].
    inversion H. subst. clear H. unfold rendered_details. simpl sections.
    destruct (section_shows _ _ _ _ _ _ H1 Hf) as [x [Hx Hmk]].
    exists x. split; [exact Hx |].
    destruct (mkFunctionDetail_ok h (IModule.name m) f x Hmk) as [Hn [_ [_ Hh]]].
    split; assumption.
Qed.

Lemma renderItem_user_mode (h : option string) (i : Item) :
  member_names_are_strings i = true -> exists v, renderItem false h i = Ok v.
Proof.
  intros H. destruct i as [c | m]; simpl.
  - destruct (renderClass_modes h c H) as [vd [vu [_ [Eu _]]]]. exists vu. exact Eu.
  - destruct (renderModule_modes h m H) as [vd [vu [_ [Eu _]]]]. exists vu. exact Eu.
Qed.

Lemma renderItem_title (devMode : bool) (h : option string) (i : Item) (v : ItemView) :
  renderItem devMode h i = Ok v -> title v = item_name i.
Proof.
  destruct i as [c | m]; simpl; intros H.
  - unfold renderClass in H.
    apply bind_ok in H. destruct H as [s1 [_ H]].
    apply bind_ok in H. destruct H as [s2 [_ H]].
    apply bind_ok in H. destruct H as [s3 [_ H]].
    apply bind_ok in H. destruct H as [s4 [_ H]].
    inversion H. reflexivity.
  - unfold renderModule in H.
    apply bind_ok in H. destruct H as [s [_ H]].
    inversion H. reflexivity.
Qed.

(** What the deep link leaves of a loaded page once its item is found:
    the item selected, its user-mode view rendered, and the member
    highlighted. *)
Lemma deep_link_page (d : IData) (t : ItemType) (itemName memberName : string)
    (i : Item) (p : Page) :
  p = highlight_member (Some memberName)
        {| app := setSelectedItem (Some {| sel_type := t; sel_name := itemName |}) (loaded d);
           requests := [docs_url]; timers := [] |} ->
  selected_item (app p) = Some i ->
  data (app p) = d
  /\ selectedItem (app p) = Some {| sel_type := t; sel_name := itemName |}
  /\ renderContent (app p)
     = (v <- renderItem false (highlightedMember (app p)) i ;; Ok (item_content i v))
  /\ (memberName <> "" ->
      highlightedMember (app p) = Some memberName
      /\ timers p = [(300%Z, detail_id memberName)]).
Proof.
  intros Hp Hitem.
  assert (Hst : data (app p) = d
                /\ selectedItem (app p) = Some {| sel_type := t; sel_name := itemName |}
                /\ loading (app p) = false /\ error (app p) = None
                /\ devMode (app p) = false).
  { rewrite Hp, highlight_member_app.
    destruct (String.eqb memberName ""); repeat split. }
  destruct Hst as [Hd [Hsel [Hl [He Hdev]]]].
  split; [exact Hd |]. split; [exact Hsel |]. split.
  - rewrite (renderContent_selected (app p) i Hl He Hitem), Hdev.
    destruct i; reflexivity.
  - intros Hne. apply String.eqb_neq in Hne.
    rewrite Hp. unfold highlight_member. rewrite Hne. split; reflexivity.
Qed.

(** The members of the highlighted name in the view of the selected item. *)
Lemma deep_link_member (st : AppState) (i : Item) (itemName memberName : string) :
  renderContent st
  = (v <- renderItem false (highlightedMember st) i ;; Ok (item_content i v)) ->
  highlightedMember st = Some memberName ->
  item_name i = str itemName ->
  (forall v x,
      renderContent st = Ok (item_content i v) ->
      In x (rendered_details v) -> detail_name x = str memberName ->
      detail_highlight x = true)
  /\ (member_names_are_strings i = true ->
      exists v,
        renderContent st = Ok (item_content i v)
        /\ title v = str itemName
        /\ (In (str memberName) (shown_in_user_mode i) ->
            exists x, In x (rendered_details v)
                      /\ detail_name x = str memberName /\ detail_highlight x = true)).
Proof.
  intros Hrender Hh Hname. rewrite Hh in Hrender. split.
  - intros v x Hv Hin Hx. rewrite Hrender in Hv.
    apply bind_ok in Hv. destruct Hv as [v' [Hv' Hv]].
    assert (Ev : v' = v).
    { destruct i; simpl in Hv; inversion Hv; reflexivity. }
    subst v'.
    pose proof (details_highlights _ _ _ _ Hv') as Hall.
    rewrite Forall_forall in Hall. apply (Hall x Hin).
    exists memberName. split; [reflexivity | exact Hx].
  - intros Hstr.
    destruct (renderItem_user_mode (Some memberName) i Hstr) as [v Hv].
    exists v. split; [rewrite Hrender, Hv; reflexivity |].
    split; [rewrite (renderItem_title _ _ _ _ Hv); exact Hname |].
    intros Hin.
    destruct (shown_members_rendered _ _ _ _ Hv Hin) as [x [Hx [Hn Hhl]]].
    exists x. split; [exact Hx |]. split; [exact Hn |].
    rewrite Hhl. apply strict_eq_string. reflexivity.
Qed.

(** C1. After a successful load with the query [itemName.memberName]: when
    the document holds a class of the item name, the first such class is
    selected, and when it holds no such class but a module of the name,
    the first such module is; the detail view of the selected item is what
    is rendered, in user mode; with a member name given the highlighted
    member is that name and the scroll to its element is armed; every
    member of that name in the rendered view is marked highlighted; and
    with member names that are strings the view is rendered, under the
    name of the item, and holds a highlighted component for the member
    when user mode shows a member of that name. *)
Theorem deep_link_selects_and_highlights
    (o : FetchOutcome) (d : IData) (itemName memberName : string) :
  load o = Ok d ->
  dot_free itemName = true -> dot_free memberName = true ->
  let p := session (Some (itemName ++ "." ++ memberName)%string) o in
  let st := app p in
  data st = d
  /\ (forall before c after,
        classes d = before ++ c :: after ->
        IClass.name c = str itemName ->
        Forall (fun c' => IClass.name c' <> str itemName) before ->
        selectedItem st = Some {| sel_type := ItemClass; sel_name := itemName |}
        /\ selected_item st = Some (AClass c)
        /\ renderContent st
           = (v <- renderClass false (highlightedMember st) c ;; Ok (ClassView v))
        /\ (memberName <> "" ->
            highlightedMember st = Some memberName
            /\ timers p = [(300%Z, detail_id memberName)]
            /\ (forall v x,
                  renderContent st = Ok (ClassView v) ->
                  In x (rendered_details v) -> detail_name x = str memberName ->
                  detail_highlight x = true)
            /\ (member_names_are_strings (AClass c) = true ->
                exists v,
                  renderContent st = Ok (ClassView v)
                  /\ title v = str itemName
                  /\ (In (str memberName) (shown_in_user_mode (AClass c)) ->
                      exists x, In x (rendered_details v)
                                /\ detail_name x = str memberName
                                /\ detail_highlight x = true))))
  /\ (Forall (fun c => IClass.name c <> str itemName) (classes d) ->
      forall before m after,
        modules d = before ++ m :: after ->
        IModule.name m = str itemName ->
        Forall (fun m' => IModule.name m' <> str itemName) before ->
        selectedItem st = Some {| sel_type := ItemModule; sel_name := itemName |}
        /\ selected_item st = Some (AModule m)
        /\ renderContent st
           = (v <- renderModule false (highlightedMember st) m ;; Ok (ModuleView v))
        /\ (memberName <> "" ->
            highlightedMember st = Some memberName
            /\ timers p = [(300%Z, detail_id memberName)]
            /\ (forall v x,
                  renderContent st = Ok (ModuleView v) ->
                  In x (rendered_details v) -> detail_name x = str memberName ->
                  detail_highlight x = true)
            /\ (member_names_are_strings (AModule m) = true ->
                exists v,
                  renderContent st = Ok (ModuleView v)
                  /\ title v = str itemName
                  /\ (In (str memberName) (shown_in_user_mode (AModule m)) ->
                      exists x, In x (rendered_details v)
                                /\ detail_name x = str memberName
                                /\ detail_highlight x = true)))).
Proof.
  intros Hload Hi Hm p st.
  pose proof (split_dot_item_member itemName memberName Hi Hm) as Hs.
  pose proof (append_dot_nonempty itemName memberName) as Hq.
  assert (Hp : p = urlEffect (Some (itemName ++ "." ++ memberName)%string)
                 {| app := loaded d; requests := [docs_url]; timers := [] |}).
  { apply session_loaded. exact Hload. }
  assert (Hclass : forall c, find_class d itemName = Some c ->
            p = highlight_member (Some memberName)
                  {| app := setSelectedItem
                              (Some {| sel_type := ItemClass; sel_name := itemName |})
                              (loaded d);
                     requests := [docs_url]; timers := [] |}).
  { intros c Hc. rewrite Hp.
    exact (urlEffect_class {| app := loaded d; requests := [docs_url]; timers := [] |}
             _ _ _ c Hq Hs Hc). }
  assert (Hmodule : find_class d itemName = None ->
            forall m, find_module d itemName = Some m ->
            p = highlight_member (Some memberName)
                  {| app := setSelectedItem
                              (Some {| sel_type := ItemModule; sel_name := itemName |})
                              (loaded d);
                     requests := [docs_url]; timers := [] |}).
  { intros Hc m Hmo. rewrite Hp.
    exact (urlEffect_module {| app := loaded d; requests := [docs_url]; timers := [] |}
             _ _ _ m Hq Hs Hc Hmo). }
  split; [| split].
  - destruct (find_class d itemName) as [c |] eqn:Hc.
    + unfold st. rewrite (Hclass c eq_refl), highlight_member_app.
      destruct (String.eqb memberName ""); reflexivity.
    + destruct (find_module d itemName) as [m |] eqn:Hmo.
      * unfold st. rewrite (Hmodule eq_refl m eq_refl), highlight_member_app.
        destruct (String.eqb memberName ""); reflexivity.
      * unfold st. rewrite Hp.
        destruct (urlEffect_unknown
                    {| app := loaded d; requests := [docs_url]; timers := [] |}
                    (itemName ++ "." ++ memberName)%string) as [-> | ->];
          try reflexivity; rewrite Hs; assumption.
  - intros before c after Hl Hname Hbefore.
    pose proof (first_class_found d itemName before after c Hl Hname Hbefore) as Hc.
    pose proof (Hclass c Hc) as Hpage.
    assert (Hitem : selected_item st = Some (AClass c)).
    { unfold selected_item, st. rewrite Hpage, highlight_member_app.
      replace (selectedItem _)
        with (Some {| sel_type := ItemClass; sel_name := itemName |})
        by (destruct (String.eqb memberName ""); reflexivity).
      replace (data _) with d by (destruct (String.eqb memberName ""); reflexivity).
      rewrite Hc. reflexivity. }
    destruct (deep_link_page d ItemClass itemName memberName (AClass c) p Hpage Hitem)
      as [_ [Hsel [Hrender Hhl]]].
    split; [exact Hsel |]. split; [exact Hitem |]. split; [exact Hrender |].
    intros Hne. destruct (Hhl Hne) as [Hh Ht].
    split; [exact Hh |]. split; [exact Ht |].
    exact (deep_link_member st (AClass c) itemName memberName Hrender Hh Hname).
  - intros Hnone before m after Hl Hname Hbefore.
    pose proof (no_class_found d itemName Hnone) as Hc.
    pose proof (first_module_found d itemName before after m Hl Hname Hbefore) as Hmo.
    pose proof (Hmodule Hc m Hmo) as Hpage.
    assert (Hitem : selected_item st = Some (AModule m)).
    { unfold selected_item, st. rewrite Hpage, highlight_member_app.
      replace (selectedItem _)
        with (Some {| sel_type := ItemModule; sel_name := itemName |})
        by (destruct (String.eqb memberName ""); reflexivity).
      replace (data _) with d by (destruct (String.eqb memberName ""); reflexivity).
      rewrite Hmo. reflexivity. }
    destruct (deep_link_page d ItemModule itemName memberName (AModule m) p Hpage Hitem)
      as [_ [Hsel [Hrender Hhl]]].
    split; [exact Hsel |]. split; [exact Hitem |]. split; [exact Hrender |].
    intros Hne. destruct (Hhl Hne) as [Hh Ht].
    split; [exact Hh |]. split; [exact Ht |].
    exact (deep_link_member st (AModule m) itemName memberName Hrender Hh Hname).
Qed.

Lemma deep_link_selects_and_highlights_witness :
  (let p := session (Some ("Foo" ++ "." ++ "Bar")%string)
              (Response true 200 (Some foo_document)) in
   let st := app p in
   exists c v x,
     classes (data st) = [c]
     /\ IClass.name c = str "Foo"
     /\ find_class (data st) "Foo" = Some c
     /\ selectedItem st = Some {| sel_type := ItemClass; sel_name := "Foo" |}
     /\ selected_item st = Some (AClass c)
     /\ highlightedMember st = Some "Bar"
     /\ timers p = [(300%Z, detail_id "Bar")]
     /\ renderContent st = Ok (ClassView v)
     /\ title v = str "Foo"
     /\ In x (rendered_details v)
     /\ detail_name x = str "Bar"
     /\ detail_highlight x = true)
  /\ (let p := session (Some ("Tools" ++ "." ++ "Helper")%string)
                 (Response true 200 (Some mixed_document)) in
      let st := app p in
      exists m v x,
        Forall (fun c => IClass.name c <> str "Tools") (classes (data st))
        /\ modules (data st) = [m]
        /\ IModule.name m = str "Tools"
        /\ selectedItem st = Some {| sel_type := ItemModule; sel_name := "Tools" |}
        /\ selected_item st = Some (AModule m)
        /\ highlightedMember st = Some "Helper"
        /\ timers p = [(300%Z, detail_id "Helper")]
        /\ renderContent st = Ok (ModuleView v)
        /\ title v = str "Tools"
        /\ In x (rendered_details v)
        /\ detail_name x = str "Helper"
        /\ detail_highlight x = true).
Proof.
  split.
  - intros p st.
    assert (Hd : exists d, load (Response true 200 (Some foo_document)) = Ok d
                           /\ exists c, classes d = [] ++ c :: []
                                        /\ IClass.name c = str "Foo"
                                        /\ member_names_are_strings (AClass c) = true
                                        /\ In (str "Bar") (shown_in_user_mode (AClass c))).
    { eexists. split; [reflexivity |]. eexists. split; [reflexivity |].
      split; [reflexivity |]. split; [reflexivity |]. left. reflexivity. }
    destruct Hd as [d [Hload [c [Hl [Hname [Hstr Hshown]]]]]].
    destruct (deep_link_selects_and_highlights
                (Response true 200 (Some foo_document)) d "Foo" "Bar"
                Hload eq_refl eq_refl) as [Hdata [Hclass _]].
    destruct (Hclass [] c [] Hl Hname (Forall_nil _))
      as [Hsel [Hitem [_ Hhl]]].
    assert (Hne : "Bar" <> "") by discriminate.
    destruct (Hhl Hne) as [Hh [Ht [_ Hex]]].
    destruct (Hex Hstr) as [v [Hv [Htitle Hx]]].
    destruct (Hx Hshown) as [x [Hin [Hn Hx']]].
    exists c, v, x. fold p in Hdata, Hsel, Hitem, Hh, Ht, Hv. fold st in Hdata, Hsel, Hitem, Hh, Hv.
    rewrite Hdata.
    split; [exact Hl |]. split; [exact Hname |].
    split; [exact (first_class_found d "Foo" [] [] c Hl Hname (Forall_nil _)) |].
    split; [exact Hsel |]. split; [exact Hitem |]. split; [exact Hh |].
    split; [exact Ht |]. split; [exact Hv |]. split; [exact Htitle |].
    split; [exact Hin |]. split; [exact Hn | exact Hx'].
  - intros p st.
    assert (Hd : exists d, load (Response true 200 (Some mixed_document)) = Ok d
                           /\ Forall (fun c => IClass.name c <> str "Tools") (classes d)
                           /\ exists m, modules d = [] ++ m :: []
                                        /\ IModule.name m = str "Tools"
                                        /\ member_names_are_strings (AModule m) = true
                                        /\ In (str "Helper") (shown_in_user_mode (AModule m))).
    { eexists. split; [reflexivity |]. split.
      - constructor; [discriminate | constructor].
      - eexists. split; [reflexivity |].
        split; [reflexivity |]. split; [reflexivity |]. left. reflexivity. }
    destruct Hd as [d [Hload [Hnone [m [Hl [Hname [Hstr Hshown]]]]]]].
    destruct (deep_link_selects_and_highlights
                (Response true 200 (Some mixed_document)) d "Tools" "Helper"
                Hload eq_refl eq_refl) as [Hdata [_ Hmodule]].
    destruct (Hmodule Hnone [] m [] Hl Hname (Forall_nil _))
      as [Hsel [Hitem [_ Hhl]]].
    assert (Hne : "Helper" <> "") by discriminate.
    destruct (Hhl Hne) as [Hh [Ht [_ Hex]]].
    destruct (Hex Hstr) as [v [Hv [Htitle Hx]]].
    destruct (Hx Hshown) as [x [Hin [Hn Hx']]].
    exists m, v, x. fold p in Hdata, Hsel, Hitem, Hh, Ht, Hv. fold st in Hdata, Hsel, Hitem, Hh, Hv.
    rewrite Hdata.
    split; [exact Hnone |]. split; [exact Hl |]. split; [exact Hname |].
    split; [exact Hsel |]. split; [exact Hitem |]. split; [exact Hh |].
    split; [exact Ht |]. split; [exact Hv |]. split; [exact Htitle |].
    split; [exact Hin |]. split; [exact Hn | exact Hx'].
Defined.

(** The query [Foo.Bar] run: [Foo] is selected, [Bar] is highlighted and is
    the one member drawn with the frame. *)
Example foo_bar_run :
  exists v d,
    renderContent (app (session (Some "Foo.Bar") (Response true 200 (Some foo_document))))
    = Ok (ClassView v)
    /\ title v = str "Foo"
    /\ rendered_details v = [d]
    /\ detail_name d = str "Bar" /\ detail_highlight d = true.
Proof. do 2 eexists. repeat split. Qed.

(** C8, as stated, fails: with two members named as the highlighted one,
    both are marked highlighted, in the detail view and in the outline. *)
Lemma both_namesakes_highlighted :
  let st := app (session (Some "Foo.Bar") (Response true 200 (Some namesakes_document))) in
  exists v o,
    renderContent st = Ok (ClassView v)
    /\ map detail_name (rendered_details v) = [str "Bar"; str "Bar"]
    /\ map detail_highlight (rendered_details v) = [true; true]
    /\ OnThisPagePanel (selected_item st) (devMode st) (highlightedMember st) = Ok (Some o)
    /\ map (fun i => match i with
                     | MemberItem _ _ _ _ hl => hl
                     | HeaderItem _ _ => false
                     end) o = [false; true; true].
Proof. do 2 eexists. repeat split. Qed.

(** C8, amended. In a rendered detail view a member is marked highlighted
    exactly when its name is the highlighted member, so every member of
    that name is; in the outline likewise (for a highlighted name that is
    not empty); the element [getElementById] returns for an id, the scroll
    target, is the first element of the view with that id. *)
Theorem every_namesake_is_highlighted
    (devMode : bool) (h : option string) (i : Item) (v : ItemView) :
  renderItem devMode h i = Ok v ->
  (forall d, In d (rendered_details v) ->
     (detail_highlight d = true <-> exists s, h = Some s /\ detail_name d = str s))
  /\ (forall o, OnThisPagePanel (Some i) devMode h = Ok (Some o) ->
      forall e id icon p hl, In (MemberItem e id icon p hl) o ->
        exists t n mo, e = MemberEntry t n mo
          /\ (hl = true <-> exists s, h = Some s /\ s <> "" /\ n = str s))
  /\ (forall id e, getElementById v id = Some e ->
      exists before after,
        elements v = before ++ e :: after /\ element_id e = id
        /\ Forall (fun e' => element_id e' <> id) before).
Proof.
  intros H. split; [| split].
  - apply Forall_forall. exact (details_highlights devMode h i v H).
  - intros o Ho e id icon p hl Hin. unfold OnThisPagePanel in Ho.
    apply bind_ok in Ho. destruct Ho as [l [Hl Ho]]. inversion Ho. subst. clear Ho.
    apply mapM_Forall2 in Hl.
    induction Hl as [| e0 i0 es os He0 _ IH]; [contradiction |].
    destruct Hin as [-> | Hin]; [| exact (IH Hin)].
    destruct e0 as [n0 id0 | t n mo]; simpl in He0; [discriminate |].
    apply bind_ok in He0. destruct He0 as [id1 [_ He0]]. inversion He0. subst.
    exists t, n, mo. split; [reflexivity | apply outline_highlight_spec].
  - intros id e He. unfold getElementById in He. apply find_first in He.
    destruct He as [before [after [El [Hid Hb]]]].
    exists before, after. split; [exact El |].
    split; [apply String.eqb_eq; exact Hid |].
    eapply Forall_impl; [| exact Hb]. intros e' He'. apply String.eqb_neq. exact He'.
Qed.

Lemma every_namesake_is_highlighted_witness :
  exists c v,
    find_class (data (app (session (Some "Foo.Bar")
                             (Response true 200 (Some namesakes_document))))) "Foo" = Some c
    /\ renderItem false (Some "Bar") (AClass c) = Ok v
    /\ (forall d, In d (rendered_details v) ->
          (detail_highlight d = true
           <-> exists s, Some "Bar" = Some s /\ detail_name d = str s))
    /\ (forall o, OnThisPagePanel (Some (AClass c)) false (Some "Bar") = Ok (Some o) ->
        forall e id icon p hl, In (MemberItem e id icon p hl) o ->
          exists t n mo, e = MemberEntry t n mo
            /\ (hl = true <-> exists s, Some "Bar" = Some s /\ s <> "" /\ n = str s))
    /\ (forall id e, getElementById v id = Some e ->
        exists before after,
          elements v = before ++ e :: after /\ element_id e = id
          /\ Forall (fun e' => element_id e' <> id) before).
Proof.
  do 2 eexists. split; [reflexivity |]. split; [reflexivity |].
  eapply (every_namesake_is_highlighted false (Some "Bar")). reflexivity.
Defined.

(** The scroll of the deep link goes to the first of the two. *)
Example scroll_target_is_first :
  let st := app (session (Some "Foo.Bar") (Response true 200 (Some namesakes_document))) in
  exists v d1 d2,
    renderContent st = Ok (ClassView v)
    /\ rendered_details v = [d1; d2]
    /\ getElementById v (detail_id "Bar") = Some (Member d1).
Proof. do 3 eexists. repeat split. Qed.

(** ** The sidebar lists *)

Lemma map_name_of (names : list string) : map name_of (map str names) = names.
Proof. induction names as [| n l IH]; simpl; [reflexivity | rewrite IH; reflexivity]. Qed.

Section SortedSidebar.

Variable localeCompare : string -> jsval -> Z.

(** [s] goes before [t], or with it. *)
Definition name_le (s t : string) : Prop := (localeCompare s (str t) <= 0)%Z.

(** The comparator is consistent on strings, as the standard asks of the
    argument of [sort]. *)
Hypothesis localeCompare_total :
  forall s t, (0 < localeCompare s (str t))%Z -> name_le t s.
Hypothesis localeCompare_trans :
  forall s t u, name_le s t -> name_le t u -> name_le s u.

Section OneList.

Variables (A : Type) (name : A -> jsval).

Definition by_name (a b : A) : result Z := compareNames localeCompare (name a) (name b).

Definition named (a : A) : Prop := exists s, name a = str s.

Definition before (a b : A) : Prop := name_le (name_of (name a)) (name_of (name b)).

Lemma by_name_named (a b : A) :
  named a -> named b ->
  exists z, by_name a b = Ok z
            /\ ((z <= 0)%Z -> before a b) /\ ((0 < z)%Z -> before b a).
Proof.
  intros [s Hs] [t Ht]. unfold by_name, compareNames, before. rewrite Hs, Ht. simpl.
  eexists. split; [reflexivity |]. split.
  - intros H. exact H.
  - apply localeCompare_total.
Qed.

Lemma insertM_sorted (x : A) (l : list A) :
  named x -> Forall named l -> StronglySorted before l ->
  exists r, insertM by_name x l = Ok r
            /\ Permutation (x :: l) r /\ StronglySorted before r.
Proof.
  intros Hx Hl Hs. induction l as [| y l IH]; simpl.
  - exists [x]. repeat split; [apply Permutation_refl | repeat constructor].
  - inversion Hl as [| ? ? Hy Hl']. subst.
    inversion Hs as [| ? ? Hs' Hy_le]. subst.
    destruct (by_name_named x y Hx Hy) as [z [-> [Hle Hgt]]]. simpl.
    destruct (Z.leb_spec z 0) as [Hz | Hz].
    + exists (x :: y :: l). split; [reflexivity |]. split; [apply Permutation_refl |].
      constructor; [exact Hs |]. constructor; [exact (Hle Hz) |].
      eapply Forall_impl; [| exact Hy_le]. intros b Hb.
      exact (localeCompare_trans _ _ _ (Hle Hz) Hb).
    + destruct (IH Hl' Hs') as [r [-> [Hp Hr]]]. simpl.
      exists (y :: r). split; [reflexivity |]. split.
      * apply perm_trans with (y :: x :: l); [apply perm_swap | apply perm_skip; exact Hp].
      * constructor; [exact Hr |].
        apply (Permutation_Forall Hp). constructor; [exact (Hgt Hz) | exact Hy_le].
Qed.

Lemma sortM_sorted (l : list A) :
  Forall named l ->
  exists r, sortM by_name l = Ok r /\ Permutation l r /\ StronglySorted before r.
Proof.
  induction 1 as [| x l Hx Hl [r [Hr [Hp Hs]]]]; simpl.
  - exists []. repeat split; constructor.
  - rewrite Hr. simpl.
    destruct (insertM_sorted x r Hx (Permutation_Forall Hp Hl) Hs) as [r' [-> [Hp' Hs']]].
    exists r'. split; [reflexivity |]. split; [| exact Hs'].
    apply perm_trans with (x :: r); [apply perm_skip; exact Hp | exact Hp'].
Qed.

(** A list of records with distinct string names: sorted, each name is
    there once. *)
Lemma sorted_names (l : list A) (names : list string) :
  map name l = map str names -> NoDup names ->
  exists r sorted,
    sortM by_name l = Ok r
    /\ map name r = map str sorted
    /\ Permutation names sorted
    /\ StronglySorted name_le sorted
    /\ forall n, In n names -> count_occ string_dec sorted n = 1%nat.
Proof.
  intros Hnames Hnodup.
  assert (Hnamed : Forall named l).
  { apply Forall_forall. intros a Ha.
    assert (Hin : In (name a) (map str names)).
    { rewrite <- Hnames. apply in_map. exact Ha. }
    apply in_map_iff in Hin. destruct Hin as [s [Hs _]]. exists s. symmetry. exact Hs. }
  destruct (sortM_sorted l Hnamed) as [r [Hr [Hp Hs]]].
  exists r, (map (fun a => name_of (name a)) r).
  assert (Hperm : Permutation names (map (fun a => name_of (name a)) r)).
  { rewrite <- (map_name_of names), <- Hnames, map_map.
    apply Permutation_map. exact Hp. }
  split; [exact Hr |]. split; [| split; [exact Hperm | split]].
  - rewrite <- map_map. f_equal.
    assert (Hnamed' : Forall named r) by exact (Permutation_Forall Hp Hnamed).
    clear - Hnamed'. induction Hnamed' as [| a r [s Hs] _ IH]; simpl; [reflexivity |].
    rewrite IH, Hs. reflexivity.
  - clear - Hs. induction Hs as [| a r _ IH Ha]; simpl; constructor; [exact IH |].
    apply Forall_map. exact Ha.
  - intros n Hn.
    apply (proj1 (NoDup_count_occ' string_dec _)).
    + exact (Permutation_NoDup Hperm Hnodup).
    + exact (Permutation_in n Hperm Hn).
Qed.

End OneList.

(** C5. For a document whose class names are pairwise distinct strings and
    whose module names are pairwise distinct strings, each sidebar list is
    rendered; its captions, which are also its keys, are the names of the
    document's classes (modules), each one exactly once, in the order of
    [localeCompare]. *)
Theorem sidebar_lists_sorted_once (st : AppState) (cnames mnames : list string) :
  map IClass.name (classes (data st)) = map str cnames -> NoDup cnames ->
  map IModule.name (modules (data st)) = map str mnames -> NoDup mnames ->
  exists centries mentries csorted msorted,
    (sidebarClasses localeCompare st = Ok centries
     /\ map caption centries = map str csorted
     /\ map key centries = map str csorted
     /\ Permutation cnames csorted
     /\ StronglySorted name_le csorted
     /\ forall n, In n cnames -> count_occ string_dec csorted n = 1%nat)
    /\ (sidebarModules localeCompare st = Ok mentries
        /\ map caption mentries = map str msorted
        /\ map key mentries = map str msorted
        /\ Permutation mnames msorted
        /\ StronglySorted name_le msorted
        /\ forall n, In n mnames -> count_occ string_dec msorted n = 1%nat).
Proof.
  intros Hc Hcn Hm Hmn.
  destruct (sorted_names _ IClass.name _ _ Hc Hcn) as [rc [cs [Hrc [Ec [Pc [Sc Oc]]]]]].
  destruct (sorted_names _ IModule.name _ _ Hm Hmn) as [rm [ms [Hrm [Em [Pm [Sm Om]]]]]].
  unfold sidebarClasses, sidebarModules. unfold by_name in Hrc, Hrm.
  rewrite Hrc, Hrm. simpl. do 2 eexists. exists cs, ms.
  split; (split; [reflexivity |]); rewrite !map_map; simpl; auto.
Qed.

End SortedSidebar.

Lemma codeUnitCompare_le (s t : string) :
  name_le codeUnitCompare s t <-> String_as_OT.lt s t \/ s = t.
Proof.
  unfold name_le, codeUnitCompare, str.
  destruct (String_as_OT.compare_spec s t) as [He | Hl | Hg]; split; intros H; auto; try lia.
  destruct H as [H | H].
  - exfalso. apply (StrictOrder_Irreflexive s). exact (StrictOrder_Transitive _ _ _ H Hg).
  - subst. exfalso. exact (StrictOrder_Irreflexive t Hg).
Qed.

Lemma codeUnitCompare_total (s t : string) :
  (0 < codeUnitCompare s (str t))%Z -> name_le codeUnitCompare t s.
Proof.
  intros H. apply codeUnitCompare_le. left.
  unfold codeUnitCompare, str in H.
  destruct (String_as_OT.compare_spec s t) as [He | Hl | Hg]; try lia. exact Hg.
Qed.

Lemma codeUnitCompare_trans (s t u : string) :
  name_le codeUnitCompare s t -> name_le codeUnitCompare t u ->
  name_le codeUnitCompare s u.
Proof.
  rewrite !codeUnitCompare_le. intros [H1 | ->] [H2 | ->]; auto.
  left. exact (StrictOrder_Transitive _ _ _ H1 H2).
Qed.

Lemma sidebar_lists_sorted_once_witness :
  map IClass.name (classes (data unsorted_state))
  = map str ["stdLambda"; "stdArray"; "stdCallback"]
  /\ NoDup ["stdLambda"; "stdArray"; "stdCallback"]
  /\ map IModule.name (modules (data unsorted_state)) = map str ["stdWindow"; "stdAcc"]
  /\ NoDup ["stdWindow"; "stdAcc"]
  /\ exists centries mentries csorted msorted,
      (sidebarClasses codeUnitCompare unsorted_state = Ok centries
       /\ map caption centries = map str csorted
       /\ map key centries = map str csorted
       /\ Permutation ["stdLambda"; "stdArray"; "stdCallback"] csorted
       /\ StronglySorted (name_le codeUnitCompare) csorted
       /\ forall n, In n ["stdLambda"; "stdArray"; "stdCallback"] ->
                    count_occ string_dec csorted n = 1%nat)
      /\ (sidebarModules codeUnitCompare unsorted_state = Ok mentries
          /\ map caption mentries = map str msorted
          /\ map key mentries = map str msorted
          /\ Permutation ["stdWindow"; "stdAcc"] msorted
          /\ StronglySorted (name_le codeUnitCompare) msorted
          /\ forall n, In n ["stdWindow"; "stdAcc"] ->
                       count_occ string_dec msorted n = 1%nat).
Proof.
  assert (N3 : NoDup ["stdLambda"; "stdArray"; "stdCallback"]).
  { repeat constructor; simpl; intuition discriminate. }
  assert (N2 : NoDup ["stdWindow"; "stdAcc"]).
  { repeat constructor; simpl; intuition discriminate. }
  split; [reflexivity |]. split; [exact N3 |]. split; [reflexivity |]. split; [exact N2 |].
  exact (sidebar_lists_sorted_once codeUnitCompare codeUnitCompare_total
           codeUnitCompare_trans unsorted_state
           ["stdLambda"; "stdArray"; "stdCallback"] ["stdWindow"; "stdAcc"]
           eq_refl N3 eq_refl N2).
Defined.

(** The run of the sidebar on that document. *)
Example unsorted_document_sidebar :
  exists centries mentries,
    sidebarClasses codeUnitCompare unsorted_state = Ok centries
    /\ map caption centries = map str ["stdArray"; "stdCallback"; "stdLambda"]
    /\ sidebarModules codeUnitCompare unsorted_state = Ok mentries
    /\ map caption mentries = map str ["stdAcc"; "stdWindow"].
Proof. do 2 eexists. repeat split. Qed.

(** * Further properties of the code *)

(** ** The panels *)

Lemma panel_step_one_mobile (s : Panels) (e : PanelEvent) :
  isLeftPanelOpenMobile s && isRightPanelOpenMobile s = false ->
  isLeftPanelOpenMobile (panel_step s e) && isRightPanelOpenMobile (panel_step s e) = false.
Proof.
  intros H. destruct e as [ | | | | | w]; simpl; try assumption; try reflexivity.
  unfold handleResize. destruct (768 <=? w)%Z; [reflexivity | exact H].
Qed.

(** X1. Whatever the width the page mounts in and whatever the buttons
    clicked and the resizes after it, the two mobile panels are never open
    together. *)
Theorem one_mobile_panel_at_a_time (innerWidth : Z) (es : list PanelEvent) :
  isLeftPanelOpenMobile (panels_after innerWidth es)
  && isRightPanelOpenMobile (panels_after innerWidth es) = false.
Proof.
  unfold panels_after.
  assert (Hstart : isLeftPanelOpenMobile (handleResize innerWidth initial_panels)
                   && isRightPanelOpenMobile (handleResize innerWidth initial_panels)
                   = false).
  { unfold handleResize. destruct (768 <=? innerWidth)%Z; reflexivity. }
  revert Hstart. generalize (handleResize innerWidth initial_panels).
  induction es as [| e es IH]; intros s Hs; simpl.
  - exact Hs.
  - apply IH. apply panel_step_one_mobile. exact Hs.
Qed.

(** X2. In every state of the panels a side panel is drawn wide exactly when
    it shows its content (the sidebar its lists, the right panel the
    outline of the selection), and after a resize to 768 pixels or more
    both are wide with no mobile panel open, whatever was toggled before. *)
Theorem wide_panels_show_content (st : AppState) (s : Panels) (innerWidth : Z) :
  (left_width s = "w-64" <-> sidebar_lists_shown s = true)
  /\ (left_width s = "w-16" <-> sidebar_lists_shown s = false)
  /\ (selectedItem st <> None ->
      (right_width s = "w-64" <-> outline_shown st s = true))
  /\ (if (768 <=? innerWidth)%Z
      then handleResize innerWidth s = initial_panels
           /\ left_width (handleResize innerWidth s) = "w-64"
           /\ right_width (handleResize innerWidth s) = "w-64"
      else sidebar_lists_shown (handleResize innerWidth s) = isLeftPanelOpenMobile s).
Proof.
  unfold left_width, right_width, sidebar_lists_shown, outline_shown, handleResize.
  destruct s as [lm rm lo ro]. simpl.
  split; [| split; [| split]].
  - destruct lm, lo; simpl; split; intros H; try reflexivity; discriminate.
  - destruct lm, lo; simpl; split; intros H; try reflexivity; discriminate.
  - intros Hsel. destruct (selectedItem st); [| contradiction].
    destruct rm, ro; simpl; split; intros H; try reflexivity; discriminate.
  - destruct (768 <=? innerWidth)%Z; simpl; [repeat split | reflexivity].
Qed.

(** ** Code blocks of the markdown *)

Lemma take_word_words (w rest : string) :
  forallb is_word (list_ascii_of_string w) = true ->
  take_word rest = "" ->
  take_word (w ++ rest) = w.
Proof.
  intros Hw Hrest. induction w as [| c w IH]; simpl in *.
  - exact Hrest.
  - apply andb_true_iff in Hw. destruct Hw as [Hc Hw]. rewrite Hc, (IH Hw). reflexivity.
Qed.

Lemma take_word_is_word (s : string) :
  forallb is_word (list_ascii_of_string (take_word s)) = true.
Proof.
  induction s as [| c s IH]; simpl; [reflexivity |].
  destruct (is_word c) eqn:Hc; simpl; [rewrite Hc; exact IH | reflexivity].
Qed.

Lemma language_here_word (s w : string) :
  language_here s = Some w ->
  w <> "" /\ forallb is_word (list_ascii_of_string w) = true.
Proof.
  unfold language_here. destruct (strip_prefix "language-" s) as [rest |]; [| discriminate].
  pose proof (take_word_is_word rest) as Hw.
  destruct (take_word rest) as [| c t]; [discriminate |].
  intros H. inversion H. subst. split; [discriminate | exact Hw].
Qed.

Lemma exec_language_word (s w : string) :
  exec_language s = Some w ->
  w <> "" /\ forallb is_word (list_ascii_of_string w) = true.
Proof.
  induction s as [| c s IH]; simpl.
  - discriminate.
  - destruct (language_here (String c s)) eqn:E.
    + intros H. inversion H. subst. exact (language_here_word _ _ E).
    + exact IH.
Qed.

(** X3. The language handed to the highlighter is never empty, is made of
    word characters only, and is never [vb] or [vba] (those are highlighted
    as [vbnet]); an inline piece of code is never highlighted. *)
Theorem highlighter_language (inline : bool) (className : option string)
    (text language body : string) :
  code inline className text = Highlighted language body ->
  inline = false
  /\ language <> ""
  /\ forallb is_word (list_ascii_of_string language) = true
  /\ language <> "vb" /\ language <> "vba"
  /\ body = strip_final_newline text.
Proof.
  unfold code, code_lang. destruct inline; [discriminate |].
  destruct (exec_language match className with Some c => c | None => "" end)
    as [w |] eqn:E; [| discriminate].
  destruct (exec_language_word _ _ E) as [Hne Hw].
  destruct (String.eqb w "vb" || String.eqb w "vba") eqn:Hvb.
  - intros H. inversion H. subst. repeat split; discriminate || reflexivity.
  - destruct w as [| c w]; [contradiction Hne; reflexivity |].
    intros H. inversion H. subst.
    apply orb_false_iff in Hvb. destruct Hvb as [H1 H2].
    apply String.eqb_neq in H1, H2. repeat split; assumption || discriminate.
Qed.

Lemma highlighter_language_witness :
  code false (Some "language-vba") "Dim x" = Highlighted "vbnet" "Dim x"
  /\ false = false
  /\ "vbnet" <> ""
  /\ forallb is_word (list_ascii_of_string "vbnet") = true
  /\ "vbnet" <> "vb" /\ "vbnet" <> "vba"
  /\ "Dim x" = strip_final_newline "Dim x".
Proof.
  split; [reflexivity |].
  apply (highlighter_language false (Some "language-vba") "Dim x" "vbnet" "Dim x").
  reflexivity.
Defined.

Lemma strip_final_newline_append (s : string) :
  strip_final_newline (s ++ String "010"%char "") = s.
Proof.
  induction s as [| c s IH]; [reflexivity |].
  simpl. rewrite IH. destruct s; reflexivity.
Qed.

Lemma strip_prefix_append (p s : string) : strip_prefix p (p ++ s) = Some s.
Proof.
  induction p as [| c p IH]; simpl; [reflexivity |].
  rewrite Ascii.eqb_refl. exact IH.
Qed.

Lemma exec_language_here (s w : string) :
  language_here s = Some w -> exec_language s = Some w.
Proof.
  intros H. destruct s as [| c s]; cbn [exec_language]; rewrite H; reflexivity.
Qed.

(** X4. A block of code of class [language-w] (alone, or followed by other
    classes), [w] being word characters, whose text ends with the newline
    the parser leaves, is highlighted in the language [w] ([vbnet] for [vb]
    and [vba]) with the text less that one newline. *)
Theorem fenced_block_highlighted (w rest body : string) :
  w <> "" ->
  forallb is_word (list_ascii_of_string w) = true ->
  take_word rest = "" ->
  code false (Some ("language-" ++ w ++ rest)%string) (body ++ String "010"%char "")
  = Highlighted (if String.eqb w "vb" || String.eqb w "vba" then "vbnet" else w) body.
Proof.
  intros Hne Hw Hrest. unfold code, code_lang.
  assert (E : exec_language ("language-" ++ w ++ rest) = Some w).
  { assert (Hhere : language_here ("language-" ++ w ++ rest) = Some w).
    { unfold language_here. rewrite strip_prefix_append, (take_word_words w rest Hw Hrest).
      destruct w; [contradiction Hne; reflexivity | reflexivity]. }
    apply exec_language_here. exact Hhere. }
  rewrite E, strip_final_newline_append.
  destruct (String.eqb w "vb" || String.eqb w "vba"); [reflexivity |].
  destruct w; [contradiction Hne; reflexivity | reflexivity].
Qed.

Lemma fenced_block_highlighted_witness :
  "vb" <> ""
  /\ forallb is_word (list_ascii_of_string "vb") = true
  /\ take_word " hljs" = ""
  /\ code false (Some ("language-" ++ "vb" ++ " hljs")%string)
       ("MsgBox 1" ++ String "010"%char "")
     = Highlighted (if String.eqb "vb" "vb" || String.eqb "vb" "vba" then "vbnet" else "vb")
         "MsgBox 1".
Proof.
  split; [discriminate |]. split; [reflexivity |]. split; [reflexivity |].
  apply (fenced_block_highlighted "vb" " hljs" "MsgBox 1"); [discriminate | reflexivity ..].
Defined.

(** ** Element ids *)

Lemma replace_ws_no_space (in_run : bool) (s : string) :
  has_space (replace_ws in_run s) = false.
Proof.
  unfold has_space. revert in_run. induction s as [| c s IH]; intros in_run; simpl.
  - reflexivity.
  - destruct (is_space c) eqn:Hc.
    + destruct in_run; simpl; [apply IH | rewrite IH; reflexivity].
    + simpl. rewrite Hc. apply IH.
Qed.

Lemma has_space_append (s t : string) :
  has_space (s ++ t) = has_space s || has_space t.
Proof.
  unfold has_space. induction s as [| c s IH]; simpl; [reflexivity |].
  rewrite IH. apply orb_assoc.
Qed.

Lemma replace_ws_identity (s : string) :
  has_space s = false -> replace_ws false s = s.
Proof.
  unfold has_space. induction s as [| c s IH]; simpl; intros H; [reflexivity |].
  apply orb_false_iff in H. destruct H as [Hc Hs]. rewrite Hc, (IH Hs). reflexivity.
Qed.

Lemma append_length (s t : string) :
  String.length (s ++ t) = (String.length s + String.length t)%nat.
Proof. induction s as [| c s IH]; simpl; [reflexivity | rewrite IH; reflexivity]. Qed.

Lemma append_cancel_r (s t u : string) : (s ++ u)%string = (t ++ u)%string -> s = t.
Proof.
  revert t. induction s as [| c s IH]; intros t H; destruct t as [| d t]; simpl in H.
  - reflexivity.
  - apply (f_equal String.length) in H. simpl in H. rewrite append_length in H. lia.
  - apply (f_equal String.length) in H. simpl in H. rewrite append_length in H. lia.
  - inversion H. f_equal. apply IH. assumption.
Qed.

(** X5. The id of a member's element never holds white space, whatever the
    name; a name without white space is kept as it is before [-detail], so
    two such names that differ have ids that differ. *)
Theorem element_ids_without_space (s t : string) :
  has_space (detail_id s) = false
  /\ (has_space s = false -> detail_id s = (s ++ "-detail")%string)
  /\ (has_space s = false -> has_space t = false ->
      detail_id s = detail_id t -> s = t).
Proof.
  unfold detail_id. split; [| split].
  - rewrite has_space_append, replace_ws_no_space. reflexivity.
  - intros H. rewrite (replace_ws_identity s H). reflexivity.
  - intros Hs Ht H. rewrite (replace_ws_identity s Hs), (replace_ws_identity t Ht) in H.
    exact (append_cancel_r _ _ _ H).
Qed.

(** Names that differ in white space only share an id. *)
Example ids_collide_on_white_space :
  detail_id "Get Item" = detail_id "Get-Item"
  /\ detail_id "Get  Item" = detail_id "Get Item".
Proof. split; reflexivity. Qed.

(** ** The deep link, further *)

(** X6. The deep-link effect touches the selection, the highlight and the
    timers only: the document, the loading flag, the error, the mode and the
    requests are as before, and at most one timer is added after the ones
    there. *)
Theorem urlEffect_frame (q : option string) (p : Page) :
  let p' := urlEffect q p in
  data (app p') = data (app p)
  /\ loading (app p') = loading (app p)
  /\ error (app p') = error (app p)
  /\ devMode (app p') = devMode (app p)
  /\ requests p' = requests p
  /\ exists added, timers p' = timers p ++ added /\ (List.length added <= 1)%nat.
Proof.
  assert (Hh : forall m p0,
             data (app (highlight_member m p0)) = data (app p0)
             /\ loading (app (highlight_member m p0)) = loading (app p0)
             /\ error (app (highlight_member m p0)) = error (app p0)
             /\ devMode (app (highlight_member m p0)) = devMode (app p0)
             /\ requests (highlight_member m p0) = requests p0
             /\ exists added, timers (highlight_member m p0) = timers p0 ++ added
                              /\ (List.length added <= 1)%nat).
  { intros [m |] p0; unfold highlight_member.
    - destruct (String.eqb m ""); simpl.
      + repeat split. exists []. rewrite app_nil_r. split; [reflexivity | simpl; lia].
      + repeat split. eexists. split; [reflexivity | simpl; lia].
    - repeat split. exists []. rewrite app_nil_r. split; [reflexivity | simpl; lia]. }
  assert (Hsame : forall p0 : Page,
             exists added, timers p0 = timers p0 ++ added /\ (List.length added <= 1)%nat).
  { intros p0. exists []. rewrite app_nil_r. split; [reflexivity | simpl; lia]. }
  unfold urlEffect. destruct q as [qs |]; simpl; [| repeat split; apply Hsame].
  destruct (negb (String.eqb qs "")
            && (0 <? List.length (classes (data (app p)))
                     + List.length (modules (data (app p))))%nat);
    [| simpl; repeat split; apply Hsame].
  destruct (split_dot qs) as [itemName rest].
  destruct (find_class (data (app p)) itemName).
  - apply (Hh (hd_error rest)
             (on_app (setSelectedItem
                        (Some {| sel_type := ItemClass; sel_name := itemName |})) p)).
  - destruct (find_module (data (app p)) itemName).
    + apply (Hh (hd_error rest)
               (on_app (setSelectedItem
                          (Some {| sel_type := ItemModule; sel_name := itemName |})) p)).
    + repeat split. apply Hsame.
Qed.





(** ** The link of a member and the deep link *)

Lemma section_forall {A : Type} (Q : Detail -> Prop) (mk : A -> result Detail)
    (id title : string) (l : list A) (ss : list SectionView) :
  (forall x d, mk x = Ok d -> Q d) ->
  renderSection id title mk l = Ok ss ->
  Forall Q (flat_map details ss).
Proof.
  intros Hok H. apply renderSection_details in H. apply mapM_Forall2 in H.
  induction H as [| x d l ds Hxd _ IH]; constructor; [exact (Hok x d Hxd) | exact IH].
Qed.

Lemma mkMethodConstructorDetail_component (h : option string) (parent : jsval)
    (m : IMember.t) (d : Detail) :
  mkMethodConstructorDetail h parent m = Ok d -> component_of parent d.
Proof.
  unfold mkMethodConstructorDetail. intros H. apply bind_ok in H.
  destruct H as [id [Hid H]]. inversion H. subst.
  split; [reflexivity | exact (elementId_string _ _ Hid)].
Qed.

Lemma mkPropertyDetail_component (h : option string) (parent : jsval)
    (p : IProperty.t) (d : Detail) :
  mkPropertyDetail h parent p = Ok d -> component_of parent d.
Proof.
  unfold mkPropertyDetail. intros H. apply bind_ok in H.
  destruct H as [id [Hid H]]. inversion H. subst.
  split; [reflexivity | exact (elementId_string _ _ Hid)].
Qed.

Lemma mkEventDetail_component (h : option string) (parent : jsval)
    (e : IEvent.t) (d : Detail) :
  mkEventDetail h parent e = Ok d -> component_of parent d.
Proof.
  unfold mkEventDetail. intros H. apply bind_ok in H.
  destruct H as [id [Hid H]]. inversion H. subst.
  split; [reflexivity | exact (elementId_string _ _ Hid)].
Qed.

Lemma mkFunctionDetail_component (h : option string) (parent : jsval)
    (f : IMember.t) (d : Detail) :
  mkFunctionDetail h parent f = Ok d -> component_of parent d.
Proof.
  unfold mkFunctionDetail. intros H. apply bind_ok in H.
  destruct H as [id [Hid H]]. inversion H. subst.
  split; [reflexivity | exact (elementId_string _ _ Hid)].
Qed.

Lemma rendered_components (devMode : bool) (h : option string) (i : Item) (v : ItemView) :
  renderItem devMode h i = Ok v ->
  Forall (component_of (item_name i)) (rendered_details v).
Proof.
  destruct i as [c | m]; simpl; intros H.
  - unfold renderClass in H.
    apply bind_ok in H. destruct H as [s1 [H1 H]].
    apply bind_ok in H. destruct H as [s2 [H2 H]].
    apply bind_ok in H. destruct H as [s3 [H3 H]].
    apply bind_ok in H. destruct H as [s4 [H4 H]].
    inversion H. subst. clear H. unfold rendered_details. simpl.
    rewrite !flat_map_app, !Forall_app. split; [| split; [| split]].
    + exact (section_forall _ _ _ _ _ _
               (mkMethodConstructorDetail_component h (IClass.name c)) H1).
    + exact (section_forall _ _ _ _ _ _ (mkPropertyDetail_component h (IClass.name c)) H2).
    + exact (section_forall _ _ _ _ _ _
               (mkMethodConstructorDetail_component h (IClass.name c)) H3).
    + exact (section_forall _ _ _ _ _ _ (mkEventDetail_component h (IClass.name c)) H4).
  - unfold renderModule in H.
    apply bind_ok in H. destruct H as [s [H1 H]].
    inversion H. subst. clear H. unfold rendered_details. simpl.
    exact (section_forall _ _ _ _ _ _ (mkFunctionDetail_component h (IModule.name m)) H1).
Qed.

Lemma resolves_to_name (d : IData) (P : string) (i : Item) :
  resolves_to d P i -> item_name i = str P.
Proof.
  destruct i as [c | m]; simpl.
  - intros H. apply (find_class_name d P c H).
  - intros [_ H]. apply (find_module_name d P m H).
Qed.

(** With the query of its link as [q], a rendered member is reopened: the
    item it was rendered for is selected, its name is highlighted and the
    scroll to its element is armed. *)
Lemma member_query_selects
    (number_to_string : float -> string) (p : Page) (devMode : bool)
    (h : option string) (i : Item) (v : ItemView) (d : Detail) (P : string) :
  resolves_to (data (app p)) P i ->
  renderItem devMode h i = Ok v ->
  In d (rendered_details v) ->
  dot_free P = true ->
  dot_free (name_of (detail_name d)) = true ->
  detail_name d <> str "" ->
  detail_query number_to_string d = Ok (P ++ "." ++ name_of (detail_name d))%string
  /\ let p' := urlEffect (Some (P ++ "." ++ name_of (detail_name d))%string) p in
     selected_item (app p') = Some i
     /\ highlightedMember (app p') = Some (name_of (detail_name d))
     /\ timers p' = timers p ++ [(300%Z, detail_elementId d)].
Proof.
  intros Hres Hv Hin HP Hm Hne.
  pose proof (rendered_components devMode h i v Hv) as Hall.
  rewrite Forall_forall in Hall. destruct (Hall d Hin) as [Hparent [m [Hname Hid]]].
  rewrite (resolves_to_name _ _ _ Hres) in Hparent.
  rewrite Hname in Hm, Hne. simpl in Hm.
  assert (Hmne : String.eqb m "" = false).
  { apply String.eqb_neq. intros ->. apply Hne. reflexivity. }
  split.
  { unfold detail_query, link_query. rewrite Hparent, Hname. reflexivity. }
  rewrite Hname, Hid. simpl name_of.
  pose proof (split_dot_item_member P m HP Hm) as Hs.
  pose proof (append_dot_nonempty P m) as Hq.
  destruct i as [c | mo]; simpl in Hres.
  - rewrite (urlEffect_class p _ _ _ c Hq Hs Hres). simpl hd_error.
    unfold highlight_member. rewrite Hmne. simpl.
    unfold selected_item. simpl. rewrite Hres. repeat split.
  - destruct Hres as [Hc Hmo].
    rewrite (urlEffect_module p _ _ _ mo Hq Hs Hc Hmo). simpl hd_error.
    unfold highlight_member. rewrite Hmne. simpl.
    unfold selected_item. simpl. rewrite Hmo. repeat split.
Qed.

Lemma is_word_plain (c : ascii) :
  is_word c = true ->
  Ascii.eqb c "&" = false /\ Ascii.eqb c "+" = false /\ Ascii.eqb c "%" = false
  /\ Ascii.eqb c "." = false.
Proof.
  destruct c as [[] [] [] [] [] [] [] []]; vm_compute; intros H;
    try discriminate H; repeat split.
Qed.

Lemma word_plain (s : string) :
  forallb is_word (list_ascii_of_string s) = true -> plain s = true /\ dot_free s = true.
Proof.
  induction s as [| c s IH]; simpl; [split; reflexivity |].
  intros H. apply andb_true_iff in H. destruct H as [Hc Hs].
  destruct (IH Hs) as [Hp Hd].
  destruct (is_word_plain c Hc) as [H1 [H2 [H3 H4]]].
  rewrite H1, H2, H3, H4, Hp, Hd. split; reflexivity.
Qed.

Lemma plain_append (s t : string) : plain (s ++ t) = (plain s && plain t)%bool.
Proof.
  induction s as [| c s IH]; simpl; [reflexivity |].
  rewrite IH, !andb_assoc. reflexivity.
Qed.

Lemma form_decode_plain (s : string) : plain s = true -> form_decode s = Text s.
Proof.
  induction s as [| c s IH]; simpl; [reflexivity |].
  intros H. apply andb_true_iff in H. destruct H as [H Hs].
  apply andb_true_iff in H. destruct H as [H H3].
  apply andb_true_iff in H. destruct H as [H1 H2].
  apply negb_true_iff in H2, H3. rewrite H2, H3, (IH Hs). reflexivity.
Qed.

Lemma split_amp_plain (s : string) : plain s = true -> split_amp s = [s].
Proof.
  induction s as [| c s IH]; simpl; [reflexivity |].
  intros H. apply andb_true_iff in H. destruct H as [H Hs].
  apply andb_true_iff in H. destruct H as [H _].
  apply andb_true_iff in H. destruct H as [H1 _].
  apply negb_true_iff in H1. rewrite H1, (IH Hs). reflexivity.
Qed.

(** A query [?q=s] without [&], [+] and [%] in [s] gives [s] as [q]. *)
Lemma search_q_plain (s : string) :
  plain s = true ->
  URLSearchParams.get (URLSearchParams.new ("?q=" ++ s)) "q" = Some (Text s).
Proof.
  intros H. unfold URLSearchParams.new.
  change ("?q=" ++ s)%string with (String "?" (String "q" (String "=" s))).
  cbv iota beta.
  assert (Hq : plain (String "q" (String "=" s)) = true) by exact H.
  rewrite (split_amp_plain _ Hq).
  change (filter (fun piece => negb (String.eqb piece ""))
            [String "q" (String "=" s)])
    with [String "q" (String "=" s)].
  change (map (fun piece => let (n, v) := split_eq piece in (form_decode n, form_decode v))
            [String "q" (String "=" s)])
    with [(Text "q", form_decode s)].
  rewrite (form_decode_plain s H). reflexivity.
Qed.

Lemma locationEffect_plain (s : string) (p : Page) :
  plain s = true -> locationEffect ("?q=" ++ s) p = Some (urlEffect (Some s) p).
Proof.
  intros H. unfold locationEffect. rewrite (search_q_plain s H). reflexivity.
Qed.

(** X8. The link a rendered member copies leads back to it: it is the
    address of the page followed by [?q=] and the query [item.member], and
    on a page with the same document whose address has that query the
    effect on the address selects the item the member was rendered for,
    highlights the member's name and arms the scroll to the id of the
    member's own element. This for an item name and a member name made of
    word characters, which the query holds as written, the member name not
    empty, and an item that the deep link resolves to (a module of the
    name of a class is not). *)
Theorem copied_link_reopens_member
    (number_to_string : float -> string) (origin pathname : string) (p : Page)
    (devMode : bool) (h : option string) (i : Item) (v : ItemView) (d : Detail)
    (P : string) :
  resolves_to (data (app p)) P i ->
  renderItem devMode h i = Ok v ->
  In d (rendered_details v) ->
  forallb is_word (list_ascii_of_string P) = true ->
  forallb is_word (list_ascii_of_string (name_of (detail_name d))) = true ->
  detail_name d <> str "" ->
  exists qs p',
    qs = (P ++ "." ++ name_of (detail_name d))%string
    /\ link_url number_to_string origin pathname (detail_parentName d) (detail_name d)
       = Ok (origin ++ pathname ++ "?q=" ++ qs)%string
    /\ URLSearchParams.get (URLSearchParams.new ("?q=" ++ qs)) "q" = Some (Text qs)
    /\ locationEffect ("?q=" ++ qs) p = Some p'
    /\ selected_item (app p') = Some i
    /\ highlightedMember (app p') = Some (name_of (detail_name d))
    /\ timers p' = timers p ++ [(300%Z, detail_elementId d)].
Proof.
  intros Hres Hv Hin HP Hm Hne.
  destruct (word_plain P HP) as [HPp HPd].
  destruct (word_plain _ Hm) as [Hmp Hmd].
  destruct (member_query_selects number_to_string p devMode h i v d P
              Hres Hv Hin HPd Hmd Hne) as [Hq [Hsel [Hh Ht]]].
  assert (Hplain : plain (P ++ "." ++ name_of (detail_name d)) = true).
  { rewrite !plain_append, HPp, Hmp. reflexivity. }
  pose proof (locationEffect_plain _ p Hplain) as Hloc.
  exists (P ++ "." ++ name_of (detail_name d))%string,
         (urlEffect (Some (P ++ "." ++ name_of (detail_name d))%string) p).
  split; [reflexivity |]. split.
  { unfold link_url. unfold detail_query in Hq. rewrite Hq. reflexivity. }
  split; [exact (search_q_plain _ Hplain) |].
  split; [exact Hloc |]. split; [exact Hsel |]. split; [exact Hh | exact Ht].
Qed.

Lemma copied_link_reopens_member_witness :
  let p := session None (Response true 200 (Some mixed_document)) in
  exists i v d,
    resolves_to (data (app p)) "Tools" i
    /\ renderItem false None i = Ok v
    /\ In d (rendered_details v)
    /\ forallb is_word (list_ascii_of_string "Tools") = true
    /\ forallb is_word (list_ascii_of_string (name_of (detail_name d))) = true
    /\ detail_name d <> str ""
    /\ detail_name d = str "Helper"
    /\ exists qs p',
        qs = ("Tools" ++ "." ++ name_of (detail_name d))%string
        /\ link_url (fun _ => "0") "https://example.org" "/docs/"
             (detail_parentName d) (detail_name d)
           = Ok ("https://example.org" ++ "/docs/" ++ "?q=" ++ qs)%string
        /\ URLSearchParams.get (URLSearchParams.new ("?q=" ++ qs)) "q" = Some (Text qs)
        /\ locationEffect ("?q=" ++ qs) p = Some p'
        /\ selected_item (app p') = Some i
        /\ highlightedMember (app p') = Some (name_of (detail_name d))
        /\ timers p' = timers p ++ [(300%Z, detail_elementId d)].
Proof.
  intros p.
  assert (Hfind : exists m, find_module (data (app p)) "Tools" = Some m).
  { eexists. reflexivity. }
  destruct Hfind as [m Hm].
  assert (Hres : resolves_to (data (app p)) "Tools" (AModule m)).
  { split; [reflexivity | exact Hm]. }
  assert (Hv : exists v d, renderItem false None (AModule m) = Ok v
                           /\ In d (rendered_details v)
                           /\ forallb is_word (list_ascii_of_string (name_of (detail_name d)))
                              = true
                           /\ detail_name d <> str ""
                           /\ detail_name d = str "Helper").
  { vm_compute in Hm. inversion Hm. subst m. do 2 eexists.
    split; [reflexivity |]. split; [left; reflexivity |].
    split; [reflexivity |]. split; [discriminate | reflexivity]. }
  destruct Hv as [v [d [Hv [Hin [Hword [Hne Hname]]]]]].
  exists (AModule m), v, d.
  split; [exact Hres |]. split; [exact Hv |]. split; [exact Hin |].
  split; [reflexivity |]. split; [exact Hword |]. split; [exact Hne |].
  split; [exact Hname |].
  exact (copied_link_reopens_member (fun _ => "0") "https://example.org" "/docs/"
           p false None (AModule m) v d "Tools" Hres Hv Hin eq_refl Hword Hne).
Defined.

(** In the query a [+] is a space and [%2B] is a [+]: the link of a member
    named [a+b] does not lead back to it. *)
Example plus_in_a_member_name :
  link_url (fun _ => "0") "https://example.org" "/docs/" (str "Foo") (str "a+b")
  = Ok "https://example.org/docs/?q=Foo.a+b"
  /\ URLSearchParams.get (URLSearchParams.new "?q=Foo.a+b") "q" = Some (Text "Foo.a b")
  /\ URLSearchParams.get (URLSearchParams.new "?q=Foo.a%2Bb") "q" = Some (Text "Foo.a+b")
  /\ URLSearchParams.get (URLSearchParams.new "?x=1&q=Foo&q=Bar") "q" = Some (Text "Foo")
  /\ URLSearchParams.get (URLSearchParams.new "?x=1") "q" = None
  /\ URLSearchParams.get (URLSearchParams.new "") "q" = None
  /\ URLSearchParams.get (URLSearchParams.new "?q") "q" = Some (Text "")
  /\ URLSearchParams.get (URLSearchParams.new "?q=%C3%A9") "q" = Some Undecoded.
Proof. repeat split. Qed.

(** ** What the user's clicks change *)

(** X9. Toggling the mode and clicking the sidebar change the mode and the
    selection only: the document, the requests sent, the loading flag, the
    error, the timers and also the highlighted member stay as they were,
    so nothing is fetched again and a highlight set by the deep link is
    never cleared by navigating. *)
Theorem interactions_keep_document_and_highlight (p p' : Page) :
  interactions p p' ->
  data (app p') = data (app p)
  /\ requests p' = requests p
  /\ loading (app p') = loading (app p)
  /\ error (app p') = error (app p)
  /\ highlightedMember (app p') = highlightedMember (app p)
  /\ timers p' = timers p.
Proof.
  induction 1 as [| p1 p2 _ IH Hstep]; [repeat split |].
  destruct IH as [Hd [Hr [Hl [He [Hh Ht]]]]].
  destruct Hstep; simpl; repeat split; assumption.
Qed.

Lemma interactions_keep_document_and_highlight_witness :
  let p := session (Some "Foo.Bar") (Response true 200 (Some mixed_document)) in
  let p' := on_app (setSelectedItem (Some {| sel_type := ItemModule; sel_name := "Tools" |}))
              (on_app handleToggleMode p) in
  interactions p p'
  /\ data (app p') = data (app p)
  /\ requests p' = requests p
  /\ loading (app p') = loading (app p)
  /\ error (app p') = error (app p)
  /\ highlightedMember (app p') = highlightedMember (app p)
  /\ timers p' = timers p.
Proof.
  intros p p'.
  assert (Hsteps : interactions p p').
  { assert (Hm : exists m, find_module (data (app p)) "Tools" = Some m)
      by (eexists; reflexivity).
    destruct Hm as [m Hm]. destruct (find_module_name _ _ _ Hm) as [Hname Hin].
    eapply then_interaction.
    - eapply then_interaction; [apply no_interaction | apply toggle_mode].
    - exact (@click_module (on_app handleToggleMode p) m "Tools" Hin Hname). }
  split; [exact Hsteps |].
  exact (interactions_keep_document_and_highlight p p' Hsteps).
Defined.

(** The highlight outlives the navigation: after [?q=Foo.Bar] and a click on
    the module [Tools], the function [Bar] of [Tools] is framed. *)
Example highlight_survives_navigation :
  let p := session (Some "Foo.Bar") (Response true 200 (Some mixed_document)) in
  let p' := on_app (setSelectedItem (Some {| sel_type := ItemModule; sel_name := "Tools" |})) p in
  exists v,
    renderContent (app p') = Ok (ModuleView v)
    /\ map detail_name (rendered_details v) = [str "Helper"; str "Bar"]
    /\ map detail_highlight (rendered_details v) = [false; true].
Proof. eexists. repeat split. Qed.

Lemma find_exists {A : Type} (f : A -> bool) (l : list A) (x : A) :
  In x l -> f x = true -> exists y, find f l = Some y.
Proof.
  intros Hin Hf. destruct (find f l) as [y |] eqn:E; [exists y; reflexivity |].
  rewrite (find_none f l E x Hin) in Hf. discriminate.
Qed.

Lemma highlight_member_selection (m : option string) (p : Page) :
  selectedItem (app (highlight_member m p)) = selectedItem (app p)
  /\ data (app (highlight_member m p)) = data (app p).
Proof.
  unfold highlight_member. destruct m as [s |]; [| split; reflexivity].
  destruct (String.eqb s ""); split; reflexivity.
Qed.

Lemma urlEffect_selection_resolves (q : option string) (p : Page) :
  selection_resolves (app p) -> selection_resolves (app (urlEffect q p)).
Proof.
  intros H. unfold urlEffect. destruct q as [qs |]; [| exact H].
  destruct (negb (String.eqb qs "")
            && (0 <? List.length (classes (data (app p)))
                     + List.length (modules (data (app p))))%nat); [| exact H].
  destruct (split_dot qs) as [itemName rest].
  destruct (find_class (data (app p)) itemName) as [c |] eqn:Hc.
  - right. exists (AClass c). unfold selected_item.
    destruct (highlight_member_selection (hd_error rest)
                (on_app (setSelectedItem
                           (Some {| sel_type := ItemClass; sel_name := itemName |})) p))
      as [-> ->].
    simpl. rewrite Hc. reflexivity.
  - destruct (find_module (data (app p)) itemName) as [m |] eqn:Hm; [| exact H].
    right. exists (AModule m). unfold selected_item.
    destruct (highlight_member_selection (hd_error rest)
                (on_app (setSelectedItem
                           (Some {| sel_type := ItemModule; sel_name := itemName |})) p))
      as [-> ->].
    simpl. rewrite Hm. reflexivity.
Qed.

Lemma session_selection_resolves (q : option string) (o : FetchOutcome) :
  selection_resolves (app (session q o)).
Proof.
  destruct (load o) as [d | e] eqn:E.
  - rewrite (session_loaded q o d E). apply urlEffect_selection_resolves. left. reflexivity.
  - rewrite (session_failed q o e E). left. reflexivity.
Qed.

Lemma interaction_selection_resolves (p p' : Page) :
  selection_resolves (app p) -> interaction p p' -> selection_resolves (app p').
Proof.
  intros H Hstep. destruct Hstep as [p | p c s Hin Hname | p m s Hin Hname].
  - exact H.
  - right. unfold selected_item. simpl.
    destruct (find_exists (fun c => is_string (IClass.name c) s) _ c Hin) as [y Hy].
    { rewrite Hname. simpl. apply String.eqb_refl. }
    unfold find_class. rewrite Hy. eexists. reflexivity.
  - right. unfold selected_item. simpl.
    destruct (find_exists (fun m => is_string (IModule.name m) s) _ m Hin) as [y Hy].
    { rewrite Hname. simpl. apply String.eqb_refl. }
    unfold find_module. rewrite Hy. eexists. reflexivity.
Qed.

(** X10. On every page reached from a load (successful or not, whatever the
    query) by toggles and clicks, the selection, when there is one, names an
    item of the document: the messages [Class not found] and [Module not
    found] are never rendered. *)
Theorem not_found_is_never_rendered (q : option string) (o : FetchOutcome) (p : Page) :
  interactions (session q o) p ->
  selection_resolves (app p)
  /\ renderContent (app p) <> Ok ClassNotFound
  /\ renderContent (app p) <> Ok ModuleNotFound.
Proof.
  intros Hsteps.
  assert (Hres : selection_resolves (app p)).
  { induction Hsteps as [| p1 p2 _ IH Hstep].
    - apply session_selection_resolves.
    - exact (interaction_selection_resolves p1 p2 IH Hstep). }
  split; [exact Hres |].
  unfold renderContent, selection_resolves, selected_item in *.
  destruct (loading (app p)); [split; discriminate |].
  destruct (error (app p)) as [[| c e] |].
  - destruct (selectedItem (app p)) as [[[|] n] |].
    + destruct (find_class (data (app p)) n).
      * destruct (renderClass _ _ _); split; discriminate.
      * destruct Hres as [Hres | [i Hres]]; discriminate.
    + destruct (find_module (data (app p)) n).
      * destruct (renderModule _ _ _); split; discriminate.
      * destruct Hres as [Hres | [i Hres]]; discriminate.
    + split; discriminate.
  - split; discriminate.
  - destruct (selectedItem (app p)) as [[[|] n] |].
    + destruct (find_class (data (app p)) n).
      * destruct (renderClass _ _ _); split; discriminate.
      * destruct Hres as [Hres | [i Hres]]; discriminate.
    + destruct (find_module (data (app p)) n).
      * destruct (renderModule _ _ _); split; discriminate.
      * destruct Hres as [Hres | [i Hres]]; discriminate.
    + split; discriminate.
Qed.

Lemma not_found_is_never_rendered_witness :
  let p := on_app handleToggleMode
             (session (Some "Foo.Bar") (Response true 200 (Some mixed_document))) in
  interactions (session (Some "Foo.Bar") (Response true 200 (Some mixed_document))) p
  /\ selection_resolves (app p)
  /\ renderContent (app p) <> Ok ClassNotFound
  /\ renderContent (app p) <> Ok ModuleNotFound.
Proof.
  intros p.
  assert (Hsteps : interactions
                     (session (Some "Foo.Bar") (Response true 200 (Some mixed_document))) p).
  { eapply then_interaction; [apply no_interaction | apply toggle_mode]. }
  split; [exact Hsteps |].
  exact (not_found_is_never_rendered (Some "Foo.Bar")
           (Response true 200 (Some mixed_document)) p Hsteps).
Defined.

(** ** The loader, further *)

Lemma bind_type_error {A B : Type} (r : result A) (k : A -> result B) :
  throws_type_error_only r -> (forall a, throws_type_error_only (k a)) ->
  throws_type_error_only (bind r k).
Proof.
  intros Hr Hk e. destruct r as [a | e']; simpl.
  - apply Hk.
  - intros H. inversion H. subst. apply Hr. reflexivity.
Qed.

Lemma ok_type_error {A : Type} (a : A) : throws_type_error_only (Ok a).
Proof. intros e H. discriminate. Qed.

Lemma get_type_error (v : json) (k : string) : throws_type_error_only (get v k).
Proof. intros e. destruct v; simpl; intros H; inversion H; reflexivity. Qed.

Lemma mapM_type_error {A B : Type} (f : A -> result B) (l : list A) :
  (forall x, throws_type_error_only (f x)) -> throws_type_error_only (mapM f l).
Proof.
  intros Hf. induction l as [| x l IH]; simpl.
  - apply ok_type_error.
  - apply bind_type_error; [apply Hf |]. intros y.
    apply bind_type_error; [exact IH |]. intros ys. apply ok_type_error.
Qed.

Lemma members_of_type_error {A : Type} (mk : json -> result A) (v : jsval) :
  (forall x, throws_type_error_only (mk x)) -> throws_type_error_only (members_of mk v).
Proof.
  intros Hmk. unfold members_of.
  destruct v as [[ | | | | l | ] |]; try apply ok_type_error.
  apply mapM_type_error. exact Hmk.
Qed.

Lemma mkMember_type_error (m : json) : throws_type_error_only (mkMember m).
Proof.
  unfold mkMember. apply bind_type_error; [apply get_type_error |].
  intros n. apply ok_type_error.
Qed.

Lemma mkProperty_type_error (p : json) : throws_type_error_only (mkProperty p).
Proof.
  unfold mkProperty. apply bind_type_error; [apply mkMember_type_error |].
  intros m. apply ok_type_error.
Qed.

Lemma mkEvent_type_error (e : json) : throws_type_error_only (mkEvent e).
Proof.
  unfold mkEvent. apply bind_type_error; [apply get_type_error |].
  intros n. apply ok_type_error.
Qed.

Lemma normalizeItem_type_error (item : json) (acc : IData) :
  throws_type_error_only (normalizeItem item acc).
Proof.
  unfold normalizeItem, isClass, mkClass, mkModule.
  repeat first
    [ apply ok_type_error
    | apply get_type_error
    | apply members_of_type_error
    | exact mkMember_type_error
    | exact mkProperty_type_error
    | exact mkEvent_type_error
    | apply bind_type_error; [| intros ?]
    | match goal with |- throws_type_error_only (if ?b then _ else _) => destruct b end ].
Qed.

Lemma forEach_type_error (items : list json) (acc : IData) :
  throws_type_error_only (forEach normalizeItem items acc).
Proof.
  revert acc. induction items as [| item items IH]; intros acc; simpl.
  - apply ok_type_error.
  - apply bind_type_error; [apply normalizeItem_type_error | exact IH].
Qed.

(** X11. One element the normaliser cannot read (a [null], or a record with a
    [null] in a member array it visits), wherever it stands in the array,
    fails the whole load with a type error: the error message is set, the
    document stays empty however many elements before it were normalised,
    and the error view is rendered. *)
Theorem one_bad_element_fails_the_load
    (items : list json) (q : option string) (status : Z) :
  forallb loadable items = false ->
  let o := Response true status (Some (JArr items)) in
  load o = Throw TypeError
  /\ data (app (session q o)) = empty_data
  /\ error (app (session q o)) = Some error_message
  /\ renderContent (app (session q o)) = Ok (ErrorView error_message).
Proof.
  intros Hbad o.
  assert (Hload : load o = Throw TypeError).
  { simpl. destruct (forEach normalizeItem items empty_data) as [d | e] eqn:E.
    - assert (Hok : exists d, normalize (JArr items) = Ok d) by (exists d; exact E).
      apply normalize_returns in Hok. rewrite Hok in Hbad. discriminate.
    - rewrite (forEach_type_error items empty_data e E). reflexivity. }
  split; [exact Hload |].
  rewrite (session_failed q o TypeError Hload). repeat split.
Qed.

Lemma one_bad_element_fails_the_load_witness :
  forallb loadable [class_with_event; functions_only; JNull] = false
  /\ let o := Response true 200 (Some (JArr [class_with_event; functions_only; JNull])) in
     load o = Throw TypeError
     /\ data (app (session (Some "stdTimer") o)) = empty_data
     /\ error (app (session (Some "stdTimer") o)) = Some error_message
     /\ renderContent (app (session (Some "stdTimer") o)) = Ok (ErrorView error_message).
Proof.
  split; [reflexivity |].
  apply (one_bad_element_fails_the_load [class_with_event; functions_only; JNull]
           (Some "stdTimer") 200).
  reflexivity.
Defined.

(** X12. A body that is JSON but holds no element (an empty array, or any
    value that is not an array) loads without an error as the empty
    document: whatever the query, nothing is selected or highlighted, no
    timer is armed and the welcome view is rendered. *)
Theorem payload_without_elements (j : json) (q : option string) (status : Z) :
  array_elements (Some j) = [] ->
  let p := session q (Response true status (Some j)) in
  error (app p) = None
  /\ loading (app p) = false
  /\ data (app p) = empty_data
  /\ selectedItem (app p) = None
  /\ highlightedMember (app p) = None
  /\ timers p = []
  /\ renderContent (app p) = Ok (WelcomeView "User mode").
Proof.
  intros Hj p.
  assert (Hload : load (Response true status (Some j)) = Ok empty_data).
  { simpl. destruct j as [ | | | | l | ]; try reflexivity.
    simpl in Hj. subst l. reflexivity. }
  unfold p. rewrite (session_loaded q _ _ Hload). unfold urlEffect. simpl.
  destruct q as [qs |]; [| repeat split].
  rewrite andb_false_r. repeat split.
Qed.

Lemma payload_without_elements_witness :
  array_elements (Some (JObj [("classes", JArr [])])) = []
  /\ let p := session (Some "Foo.Bar") (Response true 200 (Some (JObj [("classes", JArr [])]))) in
     error (app p) = None
     /\ loading (app p) = false
     /\ data (app p) = empty_data
     /\ selectedItem (app p) = None
     /\ highlightedMember (app p) = None
     /\ timers p = []
     /\ renderContent (app p) = Ok (WelcomeView "User mode").
Proof.
  split; [reflexivity |].
  apply (payload_without_elements (JObj [("classes", JArr [])]) (Some "Foo.Bar") 200).
  reflexivity.
Defined.

(** ** The outline and the detail view *)

Lemma mapM_app {A B : Type} (f : A -> result B) (l1 l2 : list A) (r1 r2 : list B) :
  mapM f l1 = Ok r1 -> mapM f l2 = Ok r2 -> mapM f (l1 ++ l2) = Ok (r1 ++ r2).
Proof.
  intros H1 H2. apply mapM_Forall2. apply Forall2_app; apply mapM_Forall2; assumption.
Qed.

Lemma outline_targets_app (a b : list OutlineItem) :
  outline_targets (a ++ b) = outline_targets a ++ outline_targets b.
Proof. apply flat_map_app. Qed.

Lemma outline_headers_app (a b : list OutlineItem) :
  outline_headers (a ++ b) = outline_headers a ++ outline_headers b.
Proof. apply flat_map_app. Qed.

Section SectionOfOutline.

Variables (A : Type) (name : A -> jsval) (devMode : bool) (h : option string).
Variables (mkD : A -> result Detail) (mkE : A -> MembersEntry) (title id : string).
Hypothesis mkD_ok : forall x d, mkD x = Ok d -> component_of (detail_parentName d) d
                                                /\ detail_name d = name x.
Hypothesis mkE_ok : forall x, exists t mo, mkE x = MemberEntry t (name x) mo.

Lemma entries_of_details (vis : list A) (ds : list Detail) :
  mapM mkD vis = Ok ds ->
  exists items,
    mapM (renderEntry devMode h) (map mkE vis) = Ok items
    /\ outline_targets items = map detail_target ds
    /\ outline_headers items = [].
Proof.
  intros H. apply mapM_Forall2 in H.
  induction H as [| x d vis ds Hxd _ [items [Hi [Ht Hh]]]]; simpl.
  - exists []. repeat split.
  - destruct (mkD_ok x d Hxd) as [[_ [s [Hs Hid]]] Hn].
    destruct (mkE_ok x) as [t [mo He]]. rewrite He. simpl.
    rewrite <- Hn, Hs. simpl. rewrite Hi. simpl.
    eexists. split; [reflexivity |]. split.
    + unfold outline_targets in *. simpl. rewrite Ht.
      unfold detail_target. rewrite Hs, Hid. reflexivity.
    + exact Hh.
Qed.

Lemma section_of_outline (l vis : list A) (ss : list SectionView) :
  (l = [] -> vis = []) ->
  renderSection id title mkD vis = Ok ss ->
  exists items,
    mapM (renderEntry devMode h) (pushSection title id mkE l vis) = Ok items
    /\ outline_targets items = map detail_target (flat_map details ss)
    /\ incl (map section_heading ss) (outline_headers items)
    /\ (vis = l -> outline_headers items = map section_heading ss).
Proof.
  intros Hvis H. pose proof (renderSection_details _ _ _ _ _ _ H) as Hds.
  destruct (entries_of_details vis _ Hds) as [items [Hi [Ht Hh]]].
  unfold pushSection. destruct l as [| x l].
  - rewrite (Hvis eq_refl) in H. simpl in H. inversion H. subst.
    exists []. repeat split. intros a Ha. contradiction.
  - simpl. rewrite Hi. simpl. eexists. split; [reflexivity |].
    split; [exact Ht |].
    unfold outline_headers in *. simpl. rewrite Hh.
    unfold renderSection in H. destruct vis as [| y vis].
    + inversion H. subst. split; [intros a Ha; contradiction | discriminate].
    + apply bind_ok in H. destruct H as [ds [_ H]]. inversion H. subst. simpl.
      split; [apply incl_refl | reflexivity].
Qed.

End SectionOfOutline.

Lemma visible_of_empty {A : Type} (isProtected : A -> jsval) (devMode : bool) (l : list A) :
  l = [] -> visible isProtected devMode l = [].
Proof. intros ->. destruct devMode; reflexivity. Qed.

Lemma member_in_elements (v : ItemView) (d : Detail) :
  In d (rendered_details v) -> exists e, getElementById v (detail_elementId d) = Some e.
Proof.
  intros Hin. unfold getElementById.
  apply (find_exists _ _ (Member d)); [| apply String.eqb_refl].
  unfold rendered_details, elements in *.
  apply in_flat_map in Hin. destruct Hin as [s [Hs Hd]].
  apply in_flat_map. exists s. split; [exact Hs |]. right. apply in_map. exact Hd.
Qed.

(** The outline rendered beside a detail view, with what the two share. *)
Lemma outline_of_view (devMode : bool) (h : option string) (i : Item) (v : ItemView) :
  renderItem devMode h i = Ok v ->
  exists o,
    OnThisPagePanel (Some i) devMode h = Ok (Some o)
    /\ outline_targets o = map detail_target (rendered_details v)
    /\ incl (view_headings v) (outline_headers o)
    /\ (devMode = true -> outline_headers o = view_headings v).
Proof.
  unfold OnThisPagePanel, view_headings, rendered_details.
  destruct i as [c | m]; simpl; intros H.
  - unfold renderClass in H.
    apply bind_ok in H. destruct H as [s1 [H1 H]].
    apply bind_ok in H. destruct H as [s2 [H2 H]].
    apply bind_ok in H. destruct H as [s3 [H3 H]].
    apply bind_ok in H. destruct H as [s4 [H4 H]].
    inversion H. subst. clear H. simpl.
    destruct (section_of_outline _ IMember.name devMode h _
                (fun m => MemberEntry Constructor (IMember.name m) (Some (OfMember m)))
                "Constructors" "constructors-section"
                (fun x d Hx => conj (conj eq_refl (proj2 (mkMethodConstructorDetail_component _ _ _ _ Hx)))
                                 (proj1 (mkMethodConstructorDetail_ok _ _ _ _ Hx)))
                (fun x => ex_intro _ _ (ex_intro _ _ eq_refl))
                (IClass.constructors c) _ s1
                (visible_of_empty _ devMode _) H1) as [o1 [E1 [T1 [I1 D1]]]].
    destruct (section_of_outline _ (fun p => IMember.name (IProperty.member p)) devMode h _
                (fun p => MemberEntry Property (IMember.name (IProperty.member p))
                            (Some (OfProperty p)))
                "Properties" "properties-section"
                (fun x d Hx => conj (conj eq_refl (proj2 (mkPropertyDetail_component _ _ _ _ Hx)))
                                 (proj1 (mkPropertyDetail_ok _ _ _ _ Hx)))
                (fun x => ex_intro _ _ (ex_intro _ _ eq_refl))
                (IClass.properties c) _ s2
                (visible_of_empty _ devMode _) H2) as [o2 [E2 [T2 [I2 D2]]]].
    destruct (section_of_outline _ IMember.name devMode h _
                (fun m => MemberEntry Method (IMember.name m) (Some (OfMember m)))
                "Methods" "methods-section"
                (fun x d Hx => conj (conj eq_refl (proj2 (mkMethodConstructorDetail_component _ _ _ _ Hx)))
                                 (proj1 (mkMethodConstructorDetail_ok _ _ _ _ Hx)))
                (fun x => ex_intro _ _ (ex_intro _ _ eq_refl))
                (IClass.methods c) _ s3
                (visible_of_empty _ devMode _) H3) as [o3 [E3 [T3 [I3 D3]]]].
    destruct (section_of_outline _ IEvent.name devMode h _
                (fun e => MemberEntry Event (IEvent.name e) (Some (OfEvent e)))
                "Events" "events-section"
                (fun x d Hx => conj (conj eq_refl (proj2 (mkEventDetail_component _ _ _ _ Hx)))
                                 (proj1 (mkEventDetail_ok _ _ _ _ Hx)))
                (fun x => ex_intro _ _ (ex_intro _ _ eq_refl))
                (IClass.events c) _ s4
                (visible_of_empty _ devMode _) H4) as [o4 [E4 [T4 [I4 D4]]]].
    unfold membersOfClass.
    rewrite (mapM_app _ _ _ _ _ E1 (mapM_app _ _ _ _ _ E2 (mapM_app _ _ _ _ _ E3 E4))).
    simpl. eexists. split; [reflexivity |].
    rewrite !outline_targets_app, !outline_headers_app, !flat_map_app, !map_app,
      T1, T2, T3, T4.
    split; [reflexivity |]. split.
    + repeat apply incl_app_app; assumption.
    + intros ->. rewrite D1, D2, D3, D4; reflexivity.
  - unfold renderModule in H.
    apply bind_ok in H. destruct H as [s [H1 H]].
    inversion H. subst. clear H. simpl.
    destruct (section_of_outline _ IMember.name devMode h _
                (fun f => MemberEntry Function (IMember.name f) None)
                "Functions" "functions-section"
                (fun x d Hx => conj (conj eq_refl (proj2 (mkFunctionDetail_component _ _ _ _ Hx)))
                                 (proj1 (mkFunctionDetail_ok _ _ _ _ Hx)))
                (fun x => ex_intro _ _ (ex_intro _ _ eq_refl))
                (IModule.functions m) (IModule.functions m) s
                (fun E => E) H1) as [o [E [T [I D]]]].
    unfold membersOfModule. rewrite E. simpl.
    eexists. split; [reflexivity |]. split; [exact T |]. split; [exact I |].
    intros _. apply D. reflexivity.
Qed.

(** X13. Whenever the detail view of an item renders, in either mode, the
    outline renders too and lists exactly the members the view shows, in the
    same order, each under the id of the member's element; so every member
    button of the outline finds an element to scroll to. *)
Theorem outline_lists_the_rendered_members
    (devMode : bool) (h : option string) (i : Item) (v : ItemView) :
  renderItem devMode h i = Ok v ->
  exists o,
    OnThisPagePanel (Some i) devMode h = Ok (Some o)
    /\ outline_targets o = map detail_target (rendered_details v)
    /\ forall n id, In (n, id) (outline_targets o) ->
         exists e, getElementById v id = Some e.
Proof.
  intros H. destruct (outline_of_view devMode h i v H) as [o [Ho [Ht _]]].
  exists o. split; [exact Ho |]. split; [exact Ht |].
  intros n id Hin. rewrite Ht in Hin. apply in_map_iff in Hin.
  destruct Hin as [d [Hd Hin]]. inversion Hd. subst.
  apply member_in_elements. exact Hin.
Qed.

Lemma outline_lists_the_rendered_members_witness :
  exists c v,
    find_class (data (app (session None (Response true 200 (Some mixed_document))))) "Foo"
    = Some c
    /\ renderItem true (Some "Bar") (AClass c) = Ok v
    /\ exists o,
        OnThisPagePanel (Some (AClass c)) true (Some "Bar") = Ok (Some o)
        /\ outline_targets o = map detail_target (rendered_details v)
        /\ forall n id, In (n, id) (outline_targets o) ->
             exists e, getElementById v id = Some e.
Proof.
  do 2 eexists. split; [reflexivity |]. split; [reflexivity |].
  eapply (outline_lists_the_rendered_members true (Some "Bar")). reflexivity.
Defined.

(** X14. The headings of a rendered detail view are all among the headers of
    the outline, and in dev mode the two are the same, titles and ids, in
    the same order. (In user mode the outline keeps the header of a section
    whose members are all protected, which the view leaves out.) *)
Theorem outline_headers_cover_the_headings
    (devMode : bool) (h : option string) (i : Item) (v : ItemView) :
  renderItem devMode h i = Ok v ->
  exists o,
    OnThisPagePanel (Some i) devMode h = Ok (Some o)
    /\ incl (view_headings v) (outline_headers o)
    /\ (devMode = true -> outline_headers o = view_headings v).
Proof.
  intros H. destruct (outline_of_view devMode h i v H) as [o [Ho [_ [Hi Hd]]]].
  exists o. auto.
Qed.

Lemma outline_headers_cover_the_headings_witness :
  exists c v,
    find_class (data (app (session None (Response true 200 (Some mixed_document))))) "Foo"
    = Some c
    /\ renderItem true None (AClass c) = Ok v
    /\ exists o,
        OnThisPagePanel (Some (AClass c)) true None = Ok (Some o)
        /\ incl (view_headings v) (outline_headers o)
        /\ (true = true -> outline_headers o = view_headings v).
Proof.
  do 2 eexists. split; [reflexivity |]. split; [reflexivity |].
  eapply (outline_headers_cover_the_headings true None). reflexivity.
Defined.

(** A header of user mode with no heading to scroll to: the only method of
    the class is protected. *)
Example dangling_header_in_user_mode :
  exists c v o,
    normalize (JArr [ JObj [("name", JStr "Foo"); ("constructors", JArr []);
                            ("methods", JArr [secret_method])] ])
    = Ok {| classes := [c]; modules := [] |}
    /\ renderClass false None c = Ok v
    /\ OnThisPagePanel (Some (AClass c)) false None = Ok (Some o)
    /\ outline_headers o = [("Methods", "methods-section")]
    /\ getElementById v "methods-section" = None.
Proof. do 3 eexists. repeat split. Qed.

(** ** The member components *)

Lemma or_default_falsy (x : jsval) (d : json) :
  truthy_val x = false -> or_default x d = Some d.
Proof. unfold or_default. intros ->. reflexivity. Qed.

(** X15. A method, constructor or function whose record in the payload has
    a string for a name and none of [isStatic], [isProtected],
    [isDefaultMember], [deprecation], [params], [returns] and [throws] (or
    falsy ones) is normalised and rendered with its name as caption, the
    link [origin + pathname + ?q=Parent.name], no badge, no deprecation
    note, no parameter block, no throws block, and a returns block of type
    [Variant] without description. *)
Theorem member_without_optional_fields
    (number_to_string : float -> string) (origin pathname parent name : string)
    (raw : json) :
  prop raw "name" = str name ->
  forallb (fun k => negb (truthy_val (prop raw k))) optional_member_keys = true ->
  exists m view,
    mkMember raw = Ok m
    /\ MethodConstructorDetail_view number_to_string origin pathname m (str parent) = Ok view
    /\ member_url view = (origin ++ pathname ++ "?q=" ++ parent ++ "." ++ name)%string
    /\ member_label view = name
    /\ is_shown (member_static view) = false
    /\ is_shown (member_protected view) = false
    /\ is_shown (member_default view) = false
    /\ is_shown (member_deprecated view) = false
    /\ member_params view = None
    /\ member_throws view = None
    /\ member_returns view
       = Some {| returns_type := "Variant";
                 returns_description := NotShown (Some (JStr "")) |}.
Proof.
  intros Hname Hopt. simpl in Hopt.
  repeat (apply andb_true_iff in Hopt; destruct Hopt as [?H Hopt]).
  repeat match goal with
         | H : negb _ = true |- _ => apply negb_true_iff in H
         end.
  assert (Hnull : is_null raw = false).
  { destruct raw; try reflexivity. discriminate. }
  unfold mkMember. rewrite (get_prop raw "name" Hnull), Hname. simpl.
  do 2 eexists. split; [reflexivity |].
  unfold MethodConstructorDetail_view. simpl.
  repeat match goal with
         | H : truthy_val (prop raw ?k) = false |- _ =>
             rewrite (or_default_falsy (prop raw k) _ H); clear H
         end.
  simpl. repeat split.
Qed.

Lemma member_without_optional_fields_witness :
  prop bar_method "name" = str "Bar"
  /\ forallb (fun k => negb (truthy_val (prop bar_method k))) optional_member_keys = true
  /\ exists m view,
      mkMember bar_method = Ok m
      /\ MethodConstructorDetail_view (fun _ => "0") "https://docs.example" "/stdVBA/"
           m (str "Foo") = Ok view
      /\ member_url view
         = ("https://docs.example" ++ "/stdVBA/" ++ "?q=" ++ "Foo" ++ "." ++ "Bar")%string
      /\ member_label view = "Bar"
      /\ is_shown (member_static view) = false
      /\ is_shown (member_protected view) = false
      /\ is_shown (member_default view) = false
      /\ is_shown (member_deprecated view) = false
      /\ member_params view = None
      /\ member_throws view = None
      /\ member_returns view
         = Some {| returns_type := "Variant";
                   returns_description := NotShown (Some (JStr "")) |}.
Proof.
  split; [reflexivity |]. split; [reflexivity |].
  apply (member_without_optional_fields (fun _ => "0") "https://docs.example" "/stdVBA/"
           "Foo" "Bar" bar_method); reflexivity.
Defined.

(** X16. A list block ([Remarks], [Implements], [Dev Notes], [TODOs],
    [Requires]) fed with a field the normaliser defaulted shows nothing when
    the payload had no value, a falsy one or an empty array, shows the items
    of a non-empty array, and throws a type error when the payload had a
    non-empty string, a number other than zero or [true] there: the
    default guards against a missing list, not against a value of another
    type. *)
Theorem list_block_of_defaulted_field (title : string) (raw : jsval) :
  let block := StringList title (or_default raw empty_list) in
  (truthy_val raw = false -> block = Ok None)
  /\ (forall l, raw = Some (JArr l) ->
        block = Ok (match l with [] => None | _ :: _ => Some (title, l) end))
  /\ (forall s, raw = str s -> s <> "" -> block = Throw TypeError)
  /\ (forall f, raw = Some (JNum f) -> truthy (JNum f) = true -> block = Throw TypeError)
  /\ (raw = Some (JBool true) -> block = Throw TypeError).
Proof.
  intros block. unfold block. split; [| split; [| split; [| split]]].
  - intros H. rewrite (or_default_falsy raw _ H). reflexivity.
  - intros l ->. destruct l; reflexivity.
  - intros s -> Hs. apply String.eqb_neq in Hs.
    unfold StringList, or_default, str. simpl. rewrite Hs. simpl. rewrite Hs. reflexivity.
  - intros f -> Hf. unfold StringList, or_default. simpl in *. rewrite Hf. simpl.
    simpl in Hf. rewrite Hf. reflexivity.
  - intros ->. reflexivity.
Qed.

(** ** The current entry of the sidebar *)

Lemma filter_map_length {A B : Type} (f : B -> bool) (g : A -> B) (l : list A) :
  List.length (filter f (map g l)) = List.length (filter (fun a => f (g a)) l).
Proof.
  induction l as [| a l IH]; simpl; [reflexivity |].
  destruct (f (g a)); simpl; rewrite IH; reflexivity.
Qed.

Lemma named_count {A : Type} (name : A -> jsval) (r : list A) (names : list string)
    (n : string) :
  map name r = map str names ->
  List.length (filter (fun a => is_string (name a) n) r) = count_occ string_dec names n.
Proof.
  revert names. induction r as [| a r IH]; intros [| s names] H; simpl in H;
    try discriminate; [reflexivity |].
  inversion H as [[Ha Hr]]. simpl. rewrite Ha. simpl.
  destruct (string_dec s n) as [-> | Hne].
  - rewrite String.eqb_refl. simpl. rewrite (IH names Hr). reflexivity.
  - apply String.eqb_neq in Hne. rewrite Hne. exact (IH names Hr).
Qed.

Lemma filter_none_length {A : Type} (l : list A) :
  List.length (filter (fun _ => false) l) = 0%nat.
Proof. induction l; simpl; auto. Qed.

Lemma found_iff_named {A : Type} (name : A -> jsval) (l : list A) (names : list string)
    (n : string) :
  map name l = map str names ->
  (find (fun a => is_string (name a) n) l <> None <-> In n names).
Proof.
  intros H. split.
  - intros Hf. destruct (find (fun a => is_string (name a) n) l) as [a |] eqn:E;
      [| contradiction Hf; reflexivity].
    apply find_some in E. destruct E as [Hin Ha].
    assert (Hn : name a = str n).
    { unfold is_string in Ha. destruct (name a) as [[ | | | t | | ] |]; try discriminate.
      apply String.eqb_eq in Ha. subst. reflexivity. }
    assert (Hin' : In (str n) (map str names)).
    { rewrite <- H, <- Hn. apply in_map. exact Hin. }
    apply in_map_iff in Hin'. destruct Hin' as [s [Hs Hs']]. inversion Hs. subst. exact Hs'.
  - intros Hin Hf.
    assert (Hin' : In (str n) (map name l)).
    { rewrite H. apply in_map. exact Hin. }
    apply in_map_iff in Hin'. destruct Hin' as [a [Ha Hl]].
    pose proof (find_none _ _ Hf a Hl) as Hfalse. simpl in Hfalse.
    rewrite Ha in Hfalse. simpl in Hfalse. rewrite String.eqb_refl in Hfalse. discriminate.
Qed.

Lemma distinct_count (names : list string) (n : string) :
  NoDup names ->
  count_occ string_dec names n = if in_dec string_dec n names then 1%nat else 0%nat.
Proof.
  intros Hnd. destruct (in_dec string_dec n names) as [Hin | Hout].
  - exact (proj1 (NoDup_count_occ' string_dec names) Hnd n Hin).
  - apply count_occ_not_In. exact Hout.
Qed.

Section CurrentEntry.

Variable localeCompare : string -> jsval -> Z.
Hypothesis localeCompare_total :
  forall s t, (0 < localeCompare s (str t))%Z -> name_le localeCompare t s.
Hypothesis localeCompare_trans :
  forall s t u, name_le localeCompare s t -> name_le localeCompare t u ->
                name_le localeCompare s u.

(** X17. For a document whose class names are pairwise distinct strings and
    whose module names are too, the two sidebar lists together draw exactly
    one button as current when the selection names an item of the document,
    and none when there is no selection; a button drawn as current is in the
    list of the selection's type and carries its name. *)
Theorem sidebar_marks_the_selection (st : AppState) (cnames mnames : list string) :
  map IClass.name (classes (data st)) = map str cnames -> NoDup cnames ->
  map IModule.name (modules (data st)) = map str mnames -> NoDup mnames ->
  exists centries mentries,
    sidebarClasses localeCompare st = Ok centries
    /\ sidebarModules localeCompare st = Ok mentries
    /\ (List.length (filter current centries) + List.length (filter current mentries))%nat
       = match selected_item st with Some _ => 1%nat | None => 0%nat end
    /\ (forall e, In e centries -> current e = true ->
          exists n, selectedItem st = Some {| sel_type := ItemClass; sel_name := n |}
                    /\ caption e = str n)
    /\ (forall e, In e mentries -> current e = true ->
          exists n, selectedItem st = Some {| sel_type := ItemModule; sel_name := n |}
                    /\ caption e = str n).
Proof.
  intros Hc Hcn Hm Hmn.
  destruct (sorted_names localeCompare localeCompare_total localeCompare_trans
              _ IClass.name _ _ Hc Hcn) as [rc [cs [Hrc [Ec [Pc _]]]]].
  destruct (sorted_names localeCompare localeCompare_total localeCompare_trans
              _ IModule.name _ _ Hm Hmn) as [rm [ms [Hrm [Em [Pm _]]]]].
  unfold sidebarClasses, sidebarModules. unfold by_name in Hrc, Hrm.
  rewrite Hrc, Hrm. simpl. do 2 eexists.
  split; [reflexivity |]. split; [reflexivity |].
  rewrite !filter_map_length. simpl.
  split; [| split].
  - unfold selected_item, is_current.
    destruct (selectedItem st) as [[[|] n] |]; simpl.
    + rewrite filter_none_length, Nat.add_0_r.
      rewrite (named_count IClass.name rc cs n Ec).
      rewrite (distinct_count cs n (Permutation_NoDup Pc Hcn)).
      pose proof (found_iff_named IClass.name _ _ n Hc) as Hf. unfold find_class.
      destruct (in_dec string_dec n cs) as [Hin | Hout].
      * destruct (find _ (classes (data st))); [reflexivity |].
        exfalso. apply (proj2 Hf); [| reflexivity].
        apply (Permutation_in n (Permutation_sym Pc) Hin).
      * destruct (find _ (classes (data st))) eqn:E; [| reflexivity].
        exfalso. apply Hout. apply (Permutation_in n Pc). apply (proj1 Hf). discriminate.
    + rewrite filter_none_length. simpl.
      rewrite (named_count IModule.name rm ms n Em).
      rewrite (distinct_count ms n (Permutation_NoDup Pm Hmn)).
      pose proof (found_iff_named IModule.name _ _ n Hm) as Hf. unfold find_module.
      destruct (in_dec string_dec n ms) as [Hin | Hout].
      * destruct (find _ (modules (data st))); [reflexivity |].
        exfalso. apply (proj2 Hf); [| reflexivity].
        apply (Permutation_in n (Permutation_sym Pm) Hin).
      * destruct (find _ (modules (data st))) eqn:E; [| reflexivity].
        exfalso. apply Hout. apply (Permutation_in n Pm). apply (proj1 Hf). discriminate.
    + rewrite !filter_none_length. reflexivity.
  - intros e Hin Hcur. apply in_map_iff in Hin. destruct Hin as [c [<- _]].
    simpl in *. unfold is_current in Hcur.
    destruct (selectedItem st) as [[[|] n] |]; try discriminate.
    exists n. split; [reflexivity |].
    unfold is_string in Hcur. destruct (IClass.name c) as [[ | | | t | | ] |]; try discriminate.
    apply String.eqb_eq in Hcur. subst. reflexivity.
  - intros e Hin Hcur. apply in_map_iff in Hin. destruct Hin as [m [<- _]].
    simpl in *. unfold is_current in Hcur.
    destruct (selectedItem st) as [[[|] n] |]; try discriminate.
    exists n. split; [reflexivity |].
    unfold is_string in Hcur. destruct (IModule.name m) as [[ | | | t | | ] |]; try discriminate.
    apply String.eqb_eq in Hcur. subst. reflexivity.
Qed.

End CurrentEntry.

Lemma sidebar_marks_the_selection_witness :
  let st := setSelectedItem (Some {| sel_type := ItemModule; sel_name := "stdAcc" |})
              unsorted_state in
  map IClass.name (classes (data st)) = map str ["stdLambda"; "stdArray"; "stdCallback"]
  /\ NoDup ["stdLambda"; "stdArray"; "stdCallback"]
  /\ map IModule.name (modules (data st)) = map str ["stdWindow"; "stdAcc"]
  /\ NoDup ["stdWindow"; "stdAcc"]
  /\ exists centries mentries,
      sidebarClasses codeUnitCompare st = Ok centries
      /\ sidebarModules codeUnitCompare st = Ok mentries
      /\ (List.length (filter current centries)
          + List.length (filter current mentries))%nat
         = match selected_item st with Some _ => 1%nat | None => 0%nat end
      /\ (forall e, In e centries -> current e = true ->
            exists n, selectedItem st = Some {| sel_type := ItemClass; sel_name := n |}
                      /\ caption e = str n)
      /\ (forall e, In e mentries -> current e = true ->
            exists n, selectedItem st = Some {| sel_type := ItemModule; sel_name := n |}
                      /\ caption e = str n).
Proof.
  intros st.
  assert (N3 : NoDup ["stdLambda"; "stdArray"; "stdCallback"]).
  { repeat constructor; simpl; intuition discriminate. }
  assert (N2 : NoDup ["stdWindow"; "stdAcc"]).
  { repeat constructor; simpl; intuition discriminate. }
  split; [reflexivity |]. split; [exact N3 |]. split; [reflexivity |]. split; [exact N2 |].
  exact (sidebar_marks_the_selection codeUnitCompare codeUnitCompare_total
           codeUnitCompare_trans st
           ["stdLambda"; "stdArray"; "stdCallback"] ["stdWindow"; "stdAcc"]
           eq_refl N3 eq_refl N2).
Defined.

(** ** The returns block *)

Lemma or_json_default (x : jsval) (d : json) : or_default x d = Some (or_json x d).
Proof.
  unfold or_default, or_json. destruct x as [j |]; simpl; [| reflexivity].
  destruct (truthy j); reflexivity.
Qed.

Lemma or_json_truthy (d : json) (x : jsval) :
  truthy d = true -> truthy (or_json x d) = true.
Proof.
  intros Hd. unfold or_json. destruct x as [j |]; [| exact Hd].
  destruct (truthy j) eqn:E; [exact E | exact Hd].
Qed.

(** X18. Which returns block a normalised member gets: of type [Variant],
    without description, when the payload gave no [returns] (or a falsy
    one); none at all when the payload gave a [returns] without a [type];
    and with a [type] that is a non-empty string, the block of that type
    with what the description gives: no description when it is missing or
    falsy, and the description itself when it is a non-empty string. *)
Theorem returns_block_of_member
    (number_to_string : float -> string) (raw : json) (m : IMember.t) :
  mkMember raw = Ok m ->
  let block := ReturnsDetail number_to_string (or_json (IMember.returns m) default_returns) in
  (truthy_val (prop raw "returns") = false ->
   block = Ok (Some {| returns_type := "Variant";
                       returns_description := NotShown (Some (JStr "")) |}))
  /\ (forall r, prop raw "returns" = Some r -> truthy r = true ->
        truthy_val (prop r "type") = false -> block = Ok None)
  /\ (forall r t, prop raw "returns" = Some r -> truthy r = true ->
        prop r "type" = str t -> t <> "" ->
        block = (d <- and_then (prop r "description") (ToString number_to_string) ;;
                 Ok (Some {| returns_type := t; returns_description := d |}))
        /\ (truthy_val (prop r "description") = false ->
            block = Ok (Some {| returns_type := t;
                                returns_description := NotShown (prop r "description") |}))
        /\ (forall s, prop r "description" = str s -> s <> "" ->
              block = Ok (Some {| returns_type := t; returns_description := Shown s |}))).
Proof.
  intros Hm block. unfold block. clear block.
  unfold mkMember in Hm. apply bind_ok in Hm. destruct Hm as [n [_ Hm]].
  inversion Hm. subst. clear Hm. simpl IMember.returns.
  rewrite or_json_default. simpl or_json at 1.
  assert (Hidem : forall x, or_json (Some (or_json x default_returns)) default_returns
                            = or_json x default_returns).
  { intros x. unfold or_json at 1.
    rewrite (or_json_truthy default_returns x eq_refl). reflexivity. }
  rewrite Hidem. split; [| split].
  - intros H. unfold or_json. destruct (prop raw "returns") as [r |]; [| reflexivity].
    simpl in H. rewrite H. reflexivity.
  - intros r Hr Ht Hty. rewrite Hr. unfold or_json. rewrite Ht.
    unfold ReturnsDetail. rewrite Ht, Hty. reflexivity.
  - intros r t Hr Ht Hty Hne. rewrite Hr. unfold or_json. rewrite Ht.
    unfold ReturnsDetail. rewrite Ht, Hty. simpl.
    apply String.eqb_neq in Hne. rewrite Hne. simpl.
    split; [reflexivity |]. split.
    + intros Hd. unfold and_then. destruct (prop r "description") as [j |]; [| reflexivity].
      simpl in Hd. rewrite Hd. reflexivity.
    + intros s Hs Hsne. rewrite Hs. unfold and_then, str. simpl.
      apply String.eqb_neq in Hsne. rewrite Hsne. reflexivity.
Qed.

Lemma returns_block_of_member_witness :
  (exists m,
     mkMember bar_method = Ok m
     /\ truthy_val (prop bar_method "returns") = false
     /\ ReturnsDetail (fun _ => "0") (or_json (IMember.returns m) default_returns)
        = Ok (Some {| returns_type := "Variant";
                      returns_description := NotShown (Some (JStr "")) |}))
  /\ (exists m,
        mkMember untyped_method = Ok m
        /\ prop untyped_method "returns" = Some untyped_returns
        /\ truthy untyped_returns = true
        /\ truthy_val (prop untyped_returns "type") = false
        /\ ReturnsDetail (fun _ => "0") (or_json (IMember.returns m) default_returns)
           = Ok None)
  /\ (exists m,
        mkMember count_method = Ok m
        /\ prop count_method "returns" = Some count_returns
        /\ truthy count_returns = true
        /\ prop count_returns "type" = str "Long"
        /\ prop count_returns "description" = str "The count"
        /\ ReturnsDetail (fun _ => "0") (or_json (IMember.returns m) default_returns)
           = Ok (Some {| returns_type := "Long";
                         returns_description := Shown "The count" |})).
Proof.
  split; [| split].
  - eexists. split; [reflexivity |]. split; [reflexivity |].
    exact (proj1 (returns_block_of_member (fun _ => "0") bar_method _ eq_refl) eq_refl).
  - eexists. split; [reflexivity |]. split; [reflexivity |].
    split; [reflexivity |]. split; [reflexivity |].
    exact (proj1 (proj2 (returns_block_of_member (fun _ => "0") untyped_method _ eq_refl))
             untyped_returns eq_refl eq_refl eq_refl).
  - eexists. split; [reflexivity |]. split; [reflexivity |].
    split; [reflexivity |]. split; [reflexivity |]. split; [reflexivity |].
    assert (Hne : "Long" <> "") by discriminate.
    assert (Hdne : "The count" <> "") by discriminate.
    destruct (proj2 (proj2 (returns_block_of_member (fun _ => "0") count_method _ eq_refl))
                count_returns "Long" eq_refl eq_refl eq_refl Hne) as [_ [_ Hshown]].
    exact (Hshown "The count" eq_refl Hdne).
Defined.

(** A description that cannot be converted to a string makes the block
    throw. *)
Example returns_block_can_throw :
  ReturnsDetail (fun _ => "0")
    (JObj [("type", JStr "Long"); ("description", JObj [("toString", JBool true)] ) ] )
  = Throw TypeError.
Proof. reflexivity. Qed.

(** ** One request *)

Lemma highlight_member_page (m : option string) (p : Page) :
  requests (highlight_member m p) = requests p
  /\ (List.length (timers (highlight_member m p)) <= S (List.length (timers p)))%nat.
Proof.
  unfold highlight_member. destruct m as [s |]; [| split; [reflexivity | lia]].
  destruct (String.eqb s ""); simpl; [split; [reflexivity | lia] |].
  split; [reflexivity |]. rewrite length_app. simpl. lia.
Qed.

Lemma urlEffect_page (q : option string) (p : Page) :
  requests (urlEffect q p) = requests p
  /\ (List.length (timers (urlEffect q p)) <= S (List.length (timers p)))%nat.
Proof.
  unfold urlEffect. destruct q as [qs |]; [| split; [reflexivity | simpl; lia]].
  destruct (negb (String.eqb qs "")
            && (0 <? List.length (classes (data (app p)))
                     + List.length (modules (data (app p))))%nat);
    [| split; [reflexivity | simpl; lia]].
  destruct (split_dot qs) as [itemName rest].
  destruct (find_class (data (app p)) itemName).
  { exact (highlight_member_page (hd_error rest)
             (on_app (setSelectedItem
                        (Some {| sel_type := ItemClass; sel_name := itemName |})) p)). }
  destruct (find_module (data (app p)) itemName).
  { exact (highlight_member_page (hd_error rest)
             (on_app (setSelectedItem
                        (Some {| sel_type := ItemModule; sel_name := itemName |})) p)). }
  split; [reflexivity | lia].
Qed.

(** X19. On every page reached from a load, successful or not, by toggles
    and clicks, exactly one request has been sent, to the address of the
    document, and at most one scroll has been armed. *)
Theorem one_request_per_page (q : option string) (o : FetchOutcome) (p : Page) :
  interactions (session q o) p ->
  requests p = [docs_url] /\ (List.length (timers p) <= 1)%nat.
Proof.
  intros Hsteps.
  assert (Hstart : requests (session q o) = [docs_url]
                   /\ (List.length (timers (session q o)) <= 1)%nat).
  { destruct (load o) as [d | e] eqn:E.
    - rewrite (session_loaded q o d E).
      exact (urlEffect_page q {| app := loaded d; requests := [docs_url]; timers := [] |}).
    - rewrite (session_failed q o e E). split; [reflexivity | simpl; lia]. }
  induction Hsteps as [| p1 p2 _ IH Hstep]; [exact Hstart |].
  destruct Hstep; exact IH.
Qed.

Lemma one_request_per_page_witness :
  let p := on_app handleToggleMode
             (session (Some "Foo.Bar") (Response true 200 (Some mixed_document))) in
  interactions (session (Some "Foo.Bar") (Response true 200 (Some mixed_document))) p
  /\ requests p = [docs_url] /\ (List.length (timers p) <= 1)%nat.
Proof.
  intros p.
  assert (Hsteps : interactions
                     (session (Some "Foo.Bar") (Response true 200 (Some mixed_document))) p).
  { eapply then_interaction; [apply no_interaction | apply toggle_mode]. }
  split; [exact Hsteps |].
  exact (one_request_per_page (Some "Foo.Bar") (Response true 200 (Some mixed_document))
           p Hsteps).
Defined.
